(** * useArbTokenBridge: a shallow embedding of the bridge hook

    The hook [useArbTokenBridge] of [src/hooks/useArbTokenBridge.ts] keeps a
    client-side view of a wallet's assets on two chains and drives the
    transitions between them.  This file embeds its state, its connector
    interface and its callbacks, and proves properties of them.

    Reading guide for the embedding:
    - a JavaScript object used as a dictionary ([ContractStorage<T>]) is a
      [gmap string T]; [lodash.isequal] on such objects is equality of maps.
      A read [bridgeTokens[k]] is the lookup of [k]: this is the read of the
      object for every key that is not a property name inherited from
      [Object.prototype] (see [inherited_key]);
    - [utils.BigNumber] is [Z], the value of the number; [lodash.isequal]
      compares two BigNumbers by their hexadecimal text, which the model
      does not keep, so two equal values count as equal here whatever their
      text;
    - an [async] callback is a function in the monad [M]: it threads the
      machine (chain, hook state, logs) and ends in a value or in a thrown
      [exn]; [await] is bind;
    - every callback is created by one render and reads the constants of that
      render ([bridgeTokens], [walletAddress], ...): it takes the render as
      the explicit argument [cl].  State setters act on the current hook
      state of the machine, which a render does not see until the next one. *)

From stdpp Require Import gmap strings list fin_maps.
From Stdlib Require Import ZArith Lia.

Local Open Scope string_scope.

(** ** Data model *)

Inductive TokenType := ERC20 | ERC721.

#[global] Instance TokenType_eq_dec : EqDecision TokenType.
Proof. solve_decision. Defined.

(** [BridgeToken]: the union of [ERC20BridgeToken] and [ERC721BridgeToken].
    The two contract handles [arb] and [eth] are kept as the address they
    are connected to; [units] is present in the ERC20 variant only. *)
Record BridgeToken := {
  type : TokenType;
  name : string;
  symbol : string;
  allowed : bool;
  arb : string;
  eth : string;
  units : option Z
}.

#[global] Instance BridgeToken_eq_dec : EqDecision BridgeToken.
Proof. solve_decision. Defined.

Record BridgeBalance := {
  balance : Z;
  arbChainBalance : Z;
  totalArbBalance : Z;
  lockBoxBalance : Z
}.

#[global] Instance BridgeBalance_eq_dec : EqDecision BridgeBalance.
Proof. solve_decision. Defined.

(** The object literal [updated] built for an ERC20 token in
    [updateTokenBalances]: the four balances and [asset: contract.symbol]. *)
Record ERC20Balance := {
  amounts : BridgeBalance;
  asset : string
}.

#[global] Instance ERC20Balance_eq_dec : EqDecision ERC20Balance.
Proof. solve_decision. Defined.

Record ERC721Balance := {
  tokens : list Z;
  arbChainTokens : list Z;
  totalArbTokens : list Z;
  lockBoxTokens : list Z
}.

#[global] Instance ERC721Balance_eq_dec : EqDecision ERC721Balance.
Proof. solve_decision. Defined.

Record BridgeConfig := {
  vmId : string;
  walletAddress : string
}.

(** A thrown value: [new Error(message)]. *)
Inductive exn := Error (message : string).

#[global] Instance exn_eq_dec : EqDecision exn.
Proof. solve_decision. Defined.

(** [const MIN_APPROVAL = constants.MaxUint256] *)
Definition MaxUint256 : Z := (2 ^ 256 - 1)%Z.
Definition MIN_APPROVAL : Z := MaxUint256.

(** JavaScript truthiness of a string: only the empty string is falsy. *)
Definition truthy (s : string) : bool :=
  match s with EmptyString => false | String _ _ => true end.

(** [deepEquals = require('lodash.isequal')] on plain data.  On the values of
    the model it is equality; the library also tells apart two BigNumbers of
    one value and different hexadecimal text, so nothing below relies on a
    published value being different from the one it replaces. *)
Definition deepEquals {A} `{EqDecision A} (x y : A) : bool := bool_decide (x = y).

(** ** The state owned by the hook

    One field per [useState] / [useLocalStorage] cell, and the provider
    returned by [useArbProvider] ([true] once it is defined). *)
Record Hook := {
  bridgeTokens : gmap string BridgeToken;
  ethBalances : BridgeBalance;
  erc20Balances : gmap string ERC20Balance;
  erc721Balances : gmap string ERC721Balance;
  ERC20Cache : list string;
  ERC721Cache : list string;
  config : BridgeConfig;
  arbProvider : bool
}.

(** The state cells a setter can replace. *)
Inductive Setter :=
| setBridgeTokens | setEthBalances | setErc20Balances | setErc721Balances
| setERC20Cache | setERC721Cache | clearERC20Cache | clearERC721Cache.

#[global] Instance Setter_eq_dec : EqDecision Setter.
Proof. solve_decision. Defined.

Definition with_bridgeTokens (f : gmap string BridgeToken -> gmap string BridgeToken)
    (h : Hook) : Hook :=
  {| bridgeTokens := f (bridgeTokens h); ethBalances := ethBalances h;
     erc20Balances := erc20Balances h; erc721Balances := erc721Balances h;
     ERC20Cache := ERC20Cache h; ERC721Cache := ERC721Cache h;
     config := config h; arbProvider := arbProvider h |}.

Definition with_ethBalances (b : BridgeBalance) (h : Hook) : Hook :=
  {| bridgeTokens := bridgeTokens h; ethBalances := b;
     erc20Balances := erc20Balances h; erc721Balances := erc721Balances h;
     ERC20Cache := ERC20Cache h; ERC721Cache := ERC721Cache h;
     config := config h; arbProvider := arbProvider h |}.

Definition with_erc20Balances (f : gmap string ERC20Balance -> gmap string ERC20Balance)
    (h : Hook) : Hook :=
  {| bridgeTokens := bridgeTokens h; ethBalances := ethBalances h;
     erc20Balances := f (erc20Balances h); erc721Balances := erc721Balances h;
     ERC20Cache := ERC20Cache h; ERC721Cache := ERC721Cache h;
     config := config h; arbProvider := arbProvider h |}.

Definition with_erc721Balances (f : gmap string ERC721Balance -> gmap string ERC721Balance)
    (h : Hook) : Hook :=
  {| bridgeTokens := bridgeTokens h; ethBalances := ethBalances h;
     erc20Balances := erc20Balances h; erc721Balances := f (erc721Balances h);
     ERC20Cache := ERC20Cache h; ERC721Cache := ERC721Cache h;
     config := config h; arbProvider := arbProvider h |}.

Definition with_ERC20Cache (l : list string) (h : Hook) : Hook :=
  {| bridgeTokens := bridgeTokens h; ethBalances := ethBalances h;
     erc20Balances := erc20Balances h; erc721Balances := erc721Balances h;
     ERC20Cache := l; ERC721Cache := ERC721Cache h;
     config := config h; arbProvider := arbProvider h |}.

Definition with_ERC721Cache (l : list string) (h : Hook) : Hook :=
  {| bridgeTokens := bridgeTokens h; ethBalances := ethBalances h;
     erc20Balances := erc20Balances h; erc721Balances := erc721Balances h;
     ERC20Cache := ERC20Cache h; ERC721Cache := l;
     config := config h; arbProvider := arbProvider h |}.

(** ** The ledger connector

    Transactions the hook asks its collaborators to submit, named after the
    method called: on the wallet ([DepositETH], [WithdrawEthFromChain],
    [DepositERC20], [DepositERC721]), on the inbox manager ([InboxWithdrawEth],
    [InboxWithdrawERC20], [InboxWithdrawERC721]) and on a token contract.
    The handles [ArbERC20] and [ArbERC721] both expose
    [withdraw(account, uint256)] on the contract they are connected to, hence
    the single constructor [Withdraw]. *)
Inductive Tx :=
| DepositETH (to : string) (value : Z)
| WithdrawEthFromChain (value : Z)
| InboxWithdrawEth
| Approve (token spender : string) (amount : Z)
| SetApprovalForAll (token operator : string) (approved : bool)
| DepositERC20 (to token : string) (amount : Z)
| DepositERC721 (to token tokenId : string)
| Withdraw (token account amountOrTokenId : string)
| InboxWithdrawERC20 (token : string)
| InboxWithdrawERC721 (token tokenId : string).

#[global] Instance Tx_eq_dec : EqDecision Tx.
Proof. solve_decision. Defined.

Record ContractTransaction := { hash : string }.
Record ContractReceipt := { transactionHash : string; status : Z }.

#[global] Instance ContractTransaction_eq_dec : EqDecision ContractTransaction.
Proof. solve_decision. Defined.
#[global] Instance ContractReceipt_eq_dec : EqDecision ContractReceipt.
Proof. solve_decision. Defined.

(** What the hook consumes from [arb-provider-ethers] and [ethers], over a
    chain state [C].  A read returns a value or rejects; submitting a
    transaction and waiting for its inclusion both may change the chain. *)
Class Connector (C : Type) := {
  globalInboxConn : C -> exn + string;
  getCode : C -> string -> exn + string;
  getBalance : C -> exn + Z;
  arbGetBalance : C -> string -> exn + Z;
  getEthBalance : C -> string -> exn + Z;
  getERC20Balance : C -> string -> string -> exn + Z;
  getERC721Tokens : C -> string -> string -> exn + list Z;
  eth_balanceOf : C -> string -> string -> exn + Z;
  arb_balanceOf : C -> string -> string -> exn + Z;
  eth_tokensOfOwner : C -> string -> string -> exn + list Z;
  arb_tokensOfOwner : C -> string -> string -> exn + list Z;
  allowance : C -> string -> string -> string -> exn + Z;
  erc20_name : C -> string -> exn + string;
  erc20_decimals : C -> string -> exn + Z;
  erc20_symbol : C -> string -> exn + string;
  erc721_name : C -> string -> exn + string;
  erc721_symbol : C -> string -> exn + string;
  isApprovedForAll : C -> string -> string -> string -> exn + bool;
  parseUnits : string -> Z -> exn + Z;
  submit : Tx -> C -> C * (exn + ContractTransaction);
  wait : ContractTransaction -> C -> C * (exn + ContractReceipt)
}.

(** What happened on the connector during a run, latest first. *)
Inductive Event :=
| Submitted (tx : Tx) (r : exn + ContractTransaction)
| Waited (p : ContractTransaction) (r : exn + ContractReceipt).

(** An event that is a failure of submission or of inclusion with [e]. *)
Definition failed_with (e : exn) (ev : Event) : Prop :=
  match ev with
  | Submitted _ r => r = inl e
  | Waited _ r => r = inl e
  end.

Section Engine.

Context {C : Type} `{Connector C}.

(** ** The machine: chain, hook state, and three logs

    [trace] records connector submissions, [console] the calls of
    [console.error] (prefix and error), [published] the setter calls. *)
Record Machine := {
  chain : C;
  hook : Hook;
  trace : list Event;
  console : list (string * exn);
  published : list Setter
}.

Definition M (A : Type) : Type := Machine -> Machine * (exn + A).

Definition ret {A} (a : A) : M A := fun m => (m, inr a).

Definition throw {A} (e : exn) : M A := fun m => (m, inl e).

Definition bind {A B} (c : M A) (k : A -> M B) : M B :=
  fun m =>
    match c m with
    | (m', inr a) => k a m'
    | (m', inl e) => (m', inl e)
    end.

(** [try { body } catch (e) { handler e }] *)
Definition try_catch {A} (body : M A) (handler : exn -> M A) : M A :=
  fun m =>
    match body m with
    | (m', inr a) => (m', inr a)
    | (m', inl e) => handler e m'
    end.

(** [await] on a connector read. *)
Definition read {A} (f : C -> exn + A) : M A := fun m => (m, f (chain m)).

(** A pure call that may throw. *)
Definition lift {A} (r : exn + A) : M A := fun m => (m, r).

Definition send (tx : Tx) : M ContractTransaction :=
  fun m =>
    let '(c', r) := submit tx (chain m) in
    ({| chain := c'; hook := hook m; trace := Submitted tx r :: trace m;
        console := console m; published := published m |}, r).

Definition tx_wait (p : ContractTransaction) : M ContractReceipt :=
  fun m =>
    let '(c', r) := wait p (chain m) in
    ({| chain := c'; hook := hook m; trace := Waited p r :: trace m;
        console := console m; published := published m |}, r).

Definition console_error (prefix : string) (e : exn) : M unit :=
  fun m =>
    ({| chain := chain m; hook := hook m; trace := trace m;
        console := (prefix, e) :: console m; published := published m |}, inr tt).

(** A setter call: replaces one cell of the hook state and is logged. *)
Definition set_state (s : Setter) (f : Hook -> Hook) : M unit :=
  fun m =>
    ({| chain := chain m; hook := f (hook m); trace := trace m;
        console := console m; published := s :: published m |}, inr tt).

End Engine.

Arguments Machine C : clear implicits.
Arguments M C A : clear implicits.

Declare Scope engine_scope.
Delimit Scope engine_scope with engine.
Notation "x <- c ;; k" := (bind c (fun x => k))
  (at level 100, c at next level, right associativity) : engine_scope.
Notation "c ;;; k" := (bind c (fun _ => k))
  (at level 100, right associativity) : engine_scope.

Local Open Scope engine_scope.

Section Callbacks.

Context {C : Type} `{Connector C}.

(** [for (const x of l) { s = body(s, x) }] with awaits in the body. *)
Fixpoint for_of {A S} (l : list A) (body : S -> A -> M C S) (s : S) : M C S :=
  match l with
  | [] => ret s
  | x :: l' => s' <- body s x ;; for_of l' body s'
  end.

(** A call of an async function that is neither awaited nor caught: it runs,
    and a rejection of its promise reaches nobody. *)
Definition fire {A} (c : M C A) : M C unit := fun m => ((c m).1, inr tt).

(** ** ETH methods *)

(** [updateEthBalances].  The loop computing [different] has no effect (the
    variable is never read) and is left out. *)
Definition updateEthBalances (cl : Hook) : M C unit :=
  if negb (arbProvider cl) || negb (truthy (vmId (config cl)))
     || negb (truthy (walletAddress (config cl)))
  then throw (Error "updateEthBalances no arb provider")
  else
    inboxManager <- read globalInboxConn ;;
    ethBalanceWei <- read getBalance ;;
    arbEthBalanceWei <- read (fun c => arbGetBalance c (walletAddress (config cl))) ;;
    arbChainEthBalanceWei <- read (fun c => getEthBalance c (vmId (config cl))) ;;
    lockBoxBalanceWei <- read (fun c => getEthBalance c (walletAddress (config cl))) ;;
    let update :=
      {| balance := ethBalanceWei;
         arbChainBalance := arbEthBalanceWei;
         lockBoxBalance := lockBoxBalanceWei;
         totalArbBalance := arbChainEthBalanceWei |} in
    if negb (deepEquals (ethBalances cl) update)
    then set_state setEthBalances (with_ethBalances update)
    else ret tt.

(** [utils.parseEther(s)] is [parseUnits(s, 18)]. *)
Definition parseEther (ethValue : string) : exn + Z := parseUnits ethValue 18%Z.

(** [depositEth]; [arbWallet] is defined exactly when [arbProvider] is. *)
Definition depositEth (cl : Hook) (ethValue : string) : M C unit :=
  if negb (arbProvider cl) || negb (truthy (walletAddress (config cl)))
  then throw (Error "depositEth no arb wallet")
  else
    weiValue <- lift (parseEther ethValue) ;;
    try_catch
      (tx <- send (DepositETH (walletAddress (config cl)) weiValue) ;;
       _ <- tx_wait tx ;;
       updateEthBalances cl)
      (fun e => console_error "depositEth err: " e).

Definition withdrawEth (cl : Hook) (ethValue : string) : M C unit :=
  if negb (arbProvider cl)
  then throw (Error "withdrawETH no arb wallet")
  else
    weiValue <- lift (parseEther ethValue) ;;
    try_catch
      (tx <- send (WithdrawEthFromChain weiValue) ;;
       _ <- tx_wait tx ;;
       updateEthBalances cl)
      (fun e => console_error "withdrawEth err" e).

Definition withdrawLockboxETH (cl : Hook) : M C unit :=
  if negb (arbProvider cl)
  then throw (Error "withdrawLockboxETH no arb wallet")
  else
    try_catch
      (inboxManager <- read globalInboxConn ;;
       tx <- send InboxWithdrawEth ;;
       _ <- tx_wait tx ;;
       updateEthBalances cl)
      (fun e => console_error "withdrawLockboxETH err" e).

(** ** Token methods *)

(** The filter of [updateTokenBalances]: [!type || c.type === type]. *)
Definition type_matches (ty : option TokenType) (c : BridgeToken) : bool :=
  match ty with
  | None => true
  | Some t => bool_decide (type c = t)
  end.

(** [Object.values(bridgeTokens).filter(...)].  The values are listed in the
    order of [map_to_list], JavaScript lists them in insertion order; keys
    are unique and the reads do not change the chain, so the order only
    decides which of several rejecting reads is reported. *)
Definition filtered (cl : Hook) (ty : option TokenType) : list BridgeToken :=
  List.filter (type_matches ty) (map_to_list (bridgeTokens cl)).*2.

(** One iteration of the loop of [updateTokenBalances]; the loop state is the
    pair [(erc20Updates, erc721Updates)].  The flags [update20] and
    [update721] are assigned and never read, and are left out. *)
Definition refresh_one (cl : Hook)
    (acc : gmap string ERC20Balance * gmap string ERC721Balance)
    (contract : BridgeToken)
  : M C (gmap string ERC20Balance * gmap string ERC721Balance) :=
  let wallet := walletAddress (config cl) in
  match type contract with
  | ERC20 =>
      b <- read (fun c => eth_balanceOf c (eth contract) wallet) ;;
      ab <- read (fun c => arb_balanceOf c (arb contract) wallet) ;;
      lb <- read (fun c => getERC20Balance c (eth contract) wallet) ;;
      tb <- read (fun c => getERC20Balance c (eth contract) (vmId (config cl))) ;;
      let updated :=
        {| amounts := {| balance := b; arbChainBalance := ab;
                         lockBoxBalance := lb; totalArbBalance := tb |};
           asset := symbol contract |} in
      ret (<[eth contract := updated]> acc.1, acc.2)
  | ERC721 =>
      t <- read (fun c => eth_tokensOfOwner c (eth contract) wallet) ;;
      at' <- read (fun c => arb_tokensOfOwner c (arb contract) wallet) ;;
      tt' <- read (fun c => getERC721Tokens c (eth contract) (vmId (config cl))) ;;
      lt <- read (fun c => getERC721Tokens c (eth contract) wallet) ;;
      let updated :=
        {| tokens := t; arbChainTokens := at';
           totalArbTokens := tt'; lockBoxTokens := lt |} in
      ret (acc.1, <[eth contract := updated]> acc.2)
  end.

(** [{ ...balances, ...updates }]: the later spread wins. *)
Definition spread {A} (balances updates : gmap string A) : gmap string A :=
  updates ∪ balances.

Definition updateTokenBalances (cl : Hook) (ty : option TokenType) : M C unit :=
  if negb (arbProvider cl) || negb (truthy (walletAddress (config cl)))
  then throw (Error "updateTokenBalances missing req")
  else
    inboxManager <- read globalInboxConn ;;
    updates <- for_of (filtered cl ty) (refresh_one cl) (∅, ∅) ;;
    let erc20Updates := updates.1 in
    let erc721Updates := updates.2 in
    (if negb (deepEquals (erc20Balances cl) erc20Updates)
     then set_state setErc20Balances
            (with_erc20Balances (fun balances => spread balances erc20Updates))
     else ret tt) ;;;
    (if negb (deepEquals (erc721Balances cl) erc721Updates)
     then set_state setErc721Balances
            (with_erc721Balances (fun balances => spread balances erc721Updates))
     else ret tt).

(** [{ ...target, allowed: true }] *)
Definition set_allowed (target : BridgeToken) : BridgeToken :=
  {| type := type target; name := name target; symbol := symbol target;
     allowed := true; arb := arb target; eth := eth target;
     units := units target |}.

(** The updater passed to [setBridgeTokens] by [approveToken].  It reads the
    current state and throws when the target is missing; the throw is
    attributed to the call that installed the updater. *)
Definition mark_approved (contractAddress : string) : M C unit :=
  fun m =>
    match bridgeTokens (hook m) !! contractAddress with
    | None => throw (Error ("approved contract missing " +:+ contractAddress)) m
    | Some target =>
        set_state setBridgeTokens
          (with_bridgeTokens (fun contracts =>
             <[contractAddress := set_allowed target]> contracts)) m
    end.

Definition approveToken (cl : Hook) (contractAddress : string)
  : M C ContractReceipt :=
  if negb (arbProvider cl)
  then throw (Error "approve missing provider")
  else
    match bridgeTokens cl !! contractAddress with
    | None => throw (Error ("Contract " +:+ contractAddress +:+ " not present"))
    | Some contract =>
        inboxManager <- read globalInboxConn ;;
        tx <- match type contract with
              | ERC20 => send (Approve (eth contract) inboxManager MIN_APPROVAL)
              | ERC721 => send (SetApprovalForAll (eth contract) inboxManager true)
              end ;;
        receipt <- tx_wait tx ;;
        mark_approved contractAddress ;;;
        ret receipt
    end.

(** [utils.parseUnits(value, unitType)] takes 18 when [unitType] is absent. *)
Definition depositToken (cl : Hook) (contractAddress amountOrTokenId : string)
  : M C ContractReceipt :=
  if negb (arbProvider cl) || negb (truthy (walletAddress (config cl)))
  then throw (Error "deposit missing req")
  else
    match bridgeTokens cl !! contractAddress with
    | None => throw (Error "contract not present")
    | Some contract =>
        tx <- match type contract with
              | ERC20 =>
                  amount <- lift (parseUnits amountOrTokenId
                                    (default 18%Z (units contract))) ;;
                  send (DepositERC20 (walletAddress (config cl))
                          (eth contract) amount)
              | ERC721 =>
                  send (DepositERC721 (walletAddress (config cl))
                          (eth contract) amountOrTokenId)
              end ;;
        tx_wait tx
    end.

Definition withdrawToken (cl : Hook) (contractAddress amountOrTokenId : string)
  : M C ContractReceipt :=
  if negb (truthy (walletAddress (config cl)))
  then throw (Error "withdraw token no walletAddress")
  else
    match bridgeTokens cl !! contractAddress with
    | None => throw (Error "contract not present")
    | Some contract =>
        tx <- match type contract with
              | ERC20 =>
                  send (Withdraw (arb contract) (walletAddress (config cl))
                          amountOrTokenId)
              | ERC721 =>
                  send (Withdraw (arb contract) (walletAddress (config cl))
                          amountOrTokenId)
              end ;;
        tx_wait tx
    end.

(** [tokenId?: string]; [!tokenId] holds for [undefined] and for [''] . *)
Definition tokenId_given (tokenId : option string) : option string :=
  match tokenId with
  | Some s => if truthy s then Some s else None
  | None => None
  end.

Definition withdrawLockboxToken (cl : Hook) (contractAddress : string)
    (tokenId : option string) : M C ContractReceipt :=
  if negb (arbProvider cl)
  then throw (Error "withdrawLockboxToken missing req")
  else
    match bridgeTokens cl !! contractAddress with
    | None => throw (Error "contract not present")
    | Some contract =>
        inboxManager <- read globalInboxConn ;;
        tx <- match type contract with
              | ERC20 => send (InboxWithdrawERC20 (eth contract))
              | ERC721 =>
                  match tokenId_given tokenId with
                  | None =>
                      throw (Error ("withdrawLockbox tokenId not present "
                                      +:+ contractAddress))
                  | Some id => send (InboxWithdrawERC721 (eth contract) id)
                  end
              end ;;
        tx_wait tx
    end.

End Callbacks.

Section Registry.

Context {C : Type} `{Connector C}.

(** The ERC20 branch of the switch of [addToken].  [Promise.all] over the four
    reads is taken in the order of the array. *)
Definition connect_erc20 (cl : Hook) (contractAddress inboxManager : string)
  : M C BridgeToken :=
  let wallet := walletAddress (config cl) in
  allowance' <- read (fun c => allowance c contractAddress wallet inboxManager) ;;
  name' <- read (fun c => erc20_name c contractAddress) ;;
  units' <- read (fun c => erc20_decimals c contractAddress) ;;
  symbol' <- read (fun c => erc20_symbol c contractAddress) ;;
  let newContract :=
    {| arb := contractAddress; eth := contractAddress; type := ERC20;
       allowed := (MIN_APPROVAL <=? allowance')%Z;
       name := name'; units := Some units'; symbol := symbol' |} in
  (if negb (bool_decide (contractAddress ∈ ERC20Cache cl))
   then set_state setERC20Cache
          (with_ERC20Cache (ERC20Cache cl ++ [contractAddress]))
   else ret tt) ;;;
  ret newContract.

(** The ERC721 branch of the switch of [addToken]. *)
Definition connect_erc721 (cl : Hook) (contractAddress inboxManager : string)
  : M C BridgeToken :=
  let wallet := walletAddress (config cl) in
  name' <- read (fun c => erc721_name c contractAddress) ;;
  symbol' <- read (fun c => erc721_symbol c contractAddress) ;;
  allowed' <- read (fun c => isApprovedForAll c contractAddress wallet inboxManager) ;;
  let newContract :=
    {| arb := contractAddress; eth := contractAddress; type := ERC721;
       name := name'; symbol := symbol'; allowed := allowed';
       units := None |} in
  (if negb (bool_decide (contractAddress ∈ ERC721Cache cl))
   then set_state setERC721Cache
          (with_ERC721Cache (ERC721Cache cl ++ [contractAddress]))
   else ret tt) ;;;
  ret newContract.

(** [addToken].  The presence test reads [bridgeTokens] of the render; the
    insertion goes through the functional setter and the closing refresh is
    the [updateTokenBalances] of the same render. *)
Definition addToken (cl : Hook) (contractAddress : string) (ty : TokenType)
  : M C unit :=
  if negb (arbProvider cl) || negb (truthy (walletAddress (config cl)))
  then throw (Error "addToken missing req")
  else
    code <- read (fun c => getCode c contractAddress) ;;
    let isContract := (2 <? String.length code)%nat in
    if negb isContract then throw (Error "address is not a contract")
    else if bool_decide (is_Some (bridgeTokens cl !! contractAddress))
    then throw (Error "contract is present")
    else
      inboxManager <- read globalInboxConn ;;
      newContract <- match ty with
                     | ERC20 => connect_erc20 cl contractAddress inboxManager
                     | ERC721 => connect_erc721 cl contractAddress inboxManager
                     end ;;
      set_state setBridgeTokens
        (with_bridgeTokens (fun contracts =>
           <[contractAddress := newContract]> contracts)) ;;;
      updateTokenBalances cl (Some ty).

(** [Promise.all([updateEthBalances(), updateTokenBalances()])]: both calls
    run; the result rejects when one of them does. *)
Definition updateAllBalances (cl : Hook) : M C unit :=
  fun m =>
    let '(m1, r1) := updateEthBalances cl m in
    let '(m2, r2) := updateTokenBalances cl None m1 in
    (m2, match r1, r2 with
         | inl e, _ => inl e
         | inr _, inl e => inl e
         | inr _, inr _ => inr tt
         end).

(** [expireCache]: the two [clear] functions of [useLocalStorage]; a cleared
    key reads as the default value [[]]. *)
Definition expireCache : M C unit :=
  set_state clearERC20Cache (with_ERC20Cache []) ;;;
  set_state clearERC721Cache (with_ERC721Cache []).

(** The load-only effect, [useEffect(() => {...}, [])].  Its [addToken] calls
    are neither awaited nor caught. *)
Definition loadEffect (autoLoadCache : bool) (cl : Hook) : M C unit :=
  if autoLoadCache then
    for_of (ERC20Cache cl) (fun _ address => fire (addToken cl address ERC20)) tt ;;;
    for_of (ERC721Cache cl) (fun _ address => fire (addToken cl address ERC721)) tt
  else ret tt.

End Registry.

(** The first render: the initial value of every [useState] cell, the two
    lists found in local storage, and whatever [useArbProvider] returned. *)
Definition firstRender (stored20 stored721 : list string) (provider : bool) : Hook :=
  {| bridgeTokens := ∅;
     ethBalances := {| balance := 0; arbChainBalance := 0;
                       totalArbBalance := 0; lockBoxBalance := 0 |};
     erc20Balances := ∅;
     erc721Balances := ∅;
     ERC20Cache := stored20;
     ERC721Cache := stored721;
     config := {| walletAddress := ""; vmId := "" |};
     arbProvider := provider |}.

(** Mounting the hook: the load-only effect runs once, after the first
    render and with the callbacks of the first render. *)
Definition mount {C} `{Connector C} (autoLoadCache : bool) (m : Machine C) : Machine C :=
  (loadEffect autoLoadCache (hook m) m).1.

(** ** The surface returned by the hook

    One constructor per function of the object the hook returns ([eth],
    [token], [balances.update], [cache.expire]) and one for the load-only
    effect.  A caller normally holds the functions of the render it sees,
    which is what [invoke] runs.  A function kept from an older render, or a
    memoized function whose dependency list omits a cell it reads (the two
    caches for [addToken]), is a [call_from] with that older render. *)
Inductive Call :=
| eth_deposit (ethValue : string)
| eth_withdraw (ethValue : string)
| eth_withdrawLockbox
| eth_updateBalances
| token_add (contractAddress : string) (ty : TokenType)
| token_approve (contractAddress : string)
| token_deposit (contractAddress amountOrTokenId : string)
| token_withdraw (contractAddress amountOrTokenId : string)
| token_withdrawLockbox (contractAddress : string) (tokenId : option string)
| token_updateBalances (ty : option TokenType)
| balances_update
| cache_expire
| effect_load (autoLoadCache : bool).

Section Surface.

Context {C : Type} `{Connector C}.

(** The returned value, if any, is dropped. *)
Definition void {A} (c : M C A) : M C unit := _ <- c ;; ret tt.

(** A call of a function of the surface created by the render [cl]. *)
Definition call_from (cl : Hook) (c : Call) : M C unit :=
  match c with
  | eth_deposit v => depositEth cl v
  | eth_withdraw v => withdrawEth cl v
  | eth_withdrawLockbox => withdrawLockboxETH cl
  | eth_updateBalances => updateEthBalances cl
  | token_add a ty => addToken cl a ty
  | token_approve a => void (approveToken cl a)
  | token_deposit a x => void (depositToken cl a x)
  | token_withdraw a x => void (withdrawToken cl a x)
  | token_withdrawLockbox a id => void (withdrawLockboxToken cl a id)
  | token_updateBalances ty => updateTokenBalances cl ty
  | balances_update => updateAllBalances cl
  | cache_expire => expireCache
  | effect_load b => loadEffect b cl
  end.

(** A call made from the current render. *)
Definition invoke (c : Call) : M C unit := fun m => call_from (hook m) c m.

(** [n] calls in a row, each made from the render that follows the one
    before. *)
Definition again (c : Call) (n : nat) (m : Machine C) : Machine C :=
  Nat.iter n (fun m => (invoke c m).1) m.

End Surface.

(** ** What the statements below observe *)
Section Observations.

Context {C : Type} `{Connector C}.

(** [preserves f c]: the run of [c] leaves the observation [f] of the machine
    as it was, whatever [c] returns or throws. *)
Definition preserves {A X} (f : Machine C -> X) (c : M C A) : Prop :=
  forall m, f (c m).1 = f m.

(** The connector events of a run from [m] to [m'], latest first. *)
Definition new_events (m m' : Machine C) : list Event :=
  take (length (trace m') - length (trace m)) (trace m').

(** [surfaces c]: whenever a submission or an inclusion fails with [e] during
    a run of [c], the run ends by throwing [e] to its caller. *)
Definition surfaces {A} (c : M C A) : Prop :=
  forall m e, Exists (failed_with e) (new_events m (c m).1) -> (c m).2 = inl e.

(** [logs_and_returns prefix c]: whenever a submission or an inclusion fails
    with [e] during a run of [c], the run returns normally and its last act
    was [console.error(prefix, e)]. *)
Definition logs_and_returns (prefix : string) (c : M C unit) : Prop :=
  forall m e,
    Exists (failed_with e) (new_events m (c m).1) ->
    (c m).2 = inr tt /\ console (c m).1 = (prefix, e) :: console m.

(** The two balance entries published for an address. *)
Definition entries (a : string) (m : Machine C)
  : option ERC20Balance * option ERC721Balance :=
  (erc20Balances (hook m) !! a, erc721Balances (hook m) !! a).

(** In a registry filled by [addToken], a record sits at the address of its
    contract. *)
Definition keyed_by_address (cl : Hook) : Prop :=
  forall k t, bridgeTokens cl !! k = Some t -> eth t = k.

(** [withdrawToken] with the switch over [contract.type] removed: the one
    call [contract.arb.withdraw(walletAddress, amountOrTokenId)]. *)
Definition withdrawToken_undispatched (cl : Hook)
    (contractAddress amountOrTokenId : string) : M C ContractReceipt :=
  if negb (truthy (walletAddress (config cl)))
  then throw (Error "withdraw token no walletAddress")
  else
    match bridgeTokens cl !! contractAddress with
    | None => throw (Error "contract not present")
    | Some contract =>
        tx <- send (Withdraw (arb contract) (walletAddress (config cl))
                      amountOrTokenId) ;;
        tx_wait tx
    end.

End Observations.

(** The property names that every plain object inherits from
    [Object.prototype]: a read of [bridgeTokens] at one of them gives a
    function or an object, not [undefined]. *)
Definition inherited_key (k : string) : bool :=
  bool_decide
    (k ∈ ["constructor"; "hasOwnProperty"; "isPrototypeOf";
          "propertyIsEnumerable"; "toLocaleString"; "toString"; "valueOf";
          "__proto__"; "__defineGetter__"; "__defineSetter__";
          "__lookupGetter__"; "__lookupSetter__"]).

(** ** Further observations *)
Section Shapes.

Context {C : Type} `{Connector C}.

(** [reads_only c]: a run of [c] leaves the machine as it was, and its result
    depends on the chain alone. *)
Definition reads_only {A} (c : M C A) : Prop :=
  forall m,
    (c m).1 = m /\ forall m', chain m' = chain m -> (c m').2 = (c m).2.

(** The connector events of one call: nothing, a rejected submission, or an
    accepted submission followed by the wait for that very transaction. *)
Definition single_submission (evs : list Event) : Prop :=
  evs = [] \/
  (exists tx e, evs = [Submitted tx (inl e)]) \/
  (exists tx p r, evs = [Waited p r; Submitted tx (inr p)]).

Definition one_shot {A} (c : M C A) : Prop :=
  forall m, single_submission (new_events m (c m).1).

(** The balance snapshot built by [updateEthBalances] from its four reads. *)
Definition eth_snapshot (ethBalanceWei arbEthBalanceWei arbChainEthBalanceWei
                           lockBoxBalanceWei : Z) : BridgeBalance :=
  {| balance := ethBalanceWei;
     arbChainBalance := arbEthBalanceWei;
     lockBoxBalance := lockBoxBalanceWei;
     totalArbBalance := arbChainEthBalanceWei |}.

(** The entry that [updateTokenBalances] builds for an ERC20 token, as a
    relation between the chain and the entry. *)
Definition erc20_entry_of (c : C) (cl : Hook) (t : BridgeToken)
    (entry : ERC20Balance) : Prop :=
  exists b ab lb tb,
    eth_balanceOf c (eth t) (walletAddress (config cl)) = inr b /\
    arb_balanceOf c (arb t) (walletAddress (config cl)) = inr ab /\
    getERC20Balance c (eth t) (walletAddress (config cl)) = inr lb /\
    getERC20Balance c (eth t) (vmId (config cl)) = inr tb /\
    entry = {| amounts := {| balance := b; arbChainBalance := ab;
                             lockBoxBalance := lb; totalArbBalance := tb |};
               asset := symbol t |}.

(** The same for an ERC721 token. *)
Definition erc721_entry_of (c : C) (cl : Hook) (t : BridgeToken)
    (entry : ERC721Balance) : Prop :=
  exists tk atk ttk ltk,
    eth_tokensOfOwner c (eth t) (walletAddress (config cl)) = inr tk /\
    arb_tokensOfOwner c (arb t) (walletAddress (config cl)) = inr atk /\
    getERC721Tokens c (eth t) (vmId (config cl)) = inr ttk /\
    getERC721Tokens c (eth t) (walletAddress (config cl)) = inr ltk /\
    entry = {| tokens := tk; arbChainTokens := atk;
               totalArbTokens := ttk; lockBoxTokens := ltk |}.

(** [tracks cl h]: the registry of [h] holds every record of the render [cl]
    with its kind, and every balance entry of [h] belongs to a token of [cl]
    of the kind of its map. *)
Definition tracks (cl h : Hook) : Prop :=
  (forall a t, bridgeTokens cl !! a = Some t ->
     exists t', bridgeTokens h !! a = Some t' /\ type t' = type t) /\
  (forall a, is_Some (erc20Balances h !! a) ->
     exists t, bridgeTokens cl !! a = Some t /\ type t = ERC20) /\
  (forall a, is_Some (erc721Balances h !! a) ->
     exists t, bridgeTokens cl !! a = Some t /\ type t = ERC721).

(** Every balance entry belongs to a registered token of the kind of its
    map. *)
Definition entries_registered (h : Hook) : Prop :=
  (forall a, is_Some (erc20Balances h !! a) ->
     exists t, bridgeTokens h !! a = Some t /\ type t = ERC20) /\
  (forall a, is_Some (erc721Balances h !! a) ->
     exists t, bridgeTokens h !! a = Some t /\ type t = ERC721).

(** The two conditional setter calls that close [updateTokenBalances]. *)
Definition publish_updates (cl : Hook)
    (updates : gmap string ERC20Balance * gmap string ERC721Balance)
  : M C unit :=
  (if negb (deepEquals (erc20Balances cl) updates.1)
   then set_state setErc20Balances
          (with_erc20Balances (fun balances => spread balances updates.1))
   else ret tt) ;;;
  (if negb (deepEquals (erc721Balances cl) updates.2)
   then set_state setErc721Balances
          (with_erc721Balances (fun balances => spread balances updates.2))
   else ret tt).

(** The cells that [tracks] looks at. *)
Definition tracked_cells (h : Hook) :=
  (bridgeTokens h, erc20Balances h, erc721Balances h).

(** The record that [addToken] builds for [contractAddress] from the reads
    of one call on the chain [c], as a relation: every field is fixed. *)
Definition registered_from (c : C) (cl : Hook) (contractAddress : string)
    (ty : TokenType) (t : BridgeToken) : Prop :=
  exists inboxManager,
    globalInboxConn c = inr inboxManager /\
    match ty with
    | ERC20 =>
        exists allowance' name' units' symbol',
          allowance c contractAddress (walletAddress (config cl)) inboxManager
          = inr allowance' /\
          erc20_name c contractAddress = inr name' /\
          erc20_decimals c contractAddress = inr units' /\
          erc20_symbol c contractAddress = inr symbol' /\
          t = {| type := ERC20; name := name'; symbol := symbol';
                 allowed := (MIN_APPROVAL <=? allowance')%Z;
                 arb := contractAddress; eth := contractAddress;
                 units := Some units' |}
    | ERC721 =>
        exists name' symbol' allowed',
          erc721_name c contractAddress = inr name' /\
          erc721_symbol c contractAddress = inr symbol' /\
          isApprovedForAll c contractAddress (walletAddress (config cl))
            inboxManager = inr allowed' /\
          t = {| type := ERC721; name := name'; symbol := symbol';
                 allowed := allowed'; arb := contractAddress;
                 eth := contractAddress; units := None |}
    end.

(** The approval state of [contractAddress] on the chain [c], for the wallet
    of the render and the inbox: [b] is what the chain answers. *)
Definition observed_approval (c : C) (cl : Hook) (contractAddress : string)
    (ty : TokenType) (b : bool) : Prop :=
  exists inboxManager,
    globalInboxConn c = inr inboxManager /\
    match ty with
    | ERC20 =>
        exists allowance',
          allowance c contractAddress (walletAddress (config cl)) inboxManager
          = inr allowance' /\
          (b = true <-> (MaxUint256 <= allowance')%Z)
    | ERC721 =>
        isApprovedForAll c contractAddress (walletAddress (config cl))
          inboxManager = inr b
    end.

End Shapes.

(** ** A ledger double

    A deterministic connector used to run the callbacks on concrete inputs:
    the chain is a table of what its reads return, and two switches that make
    submission or inclusion fail. *)
Module Double.

Record Ledger := {
  code_at : string -> string;
  allowance_of : string -> Z;
  operator_approved : string -> bool;
  erc20_balance : string -> string -> Z;
  erc721_tokens : string -> string -> list Z;
  native_balance : string -> Z;
  submission_fails : bool;
  inclusion_fails : bool
}.

Definition inbox : string := "0xInbox".

#[global] Instance connector : Connector Ledger := {|
  globalInboxConn := fun _ => inr inbox;
  getCode := fun c a => inr (code_at c a);
  getBalance := fun c => inr (native_balance c "signer");
  arbGetBalance := fun c a => inr (native_balance c ("arb:" +:+ a));
  getEthBalance := fun c k => inr (native_balance c ("inbox:" +:+ k));
  getERC20Balance := fun c t k => inr (erc20_balance c t ("inbox:" +:+ k));
  getERC721Tokens := fun c t k => inr (erc721_tokens c t ("inbox:" +:+ k));
  eth_balanceOf := fun c t o => inr (erc20_balance c t o);
  arb_balanceOf := fun c t o => inr (erc20_balance c t ("arb:" +:+ o));
  eth_tokensOfOwner := fun c t o => inr (erc721_tokens c t o);
  arb_tokensOfOwner := fun c t o => inr (erc721_tokens c t ("arb:" +:+ o));
  allowance := fun c t _ _ => inr (allowance_of c t);
  erc20_name := fun _ t => inr ("name of " +:+ t);
  erc20_decimals := fun _ _ => inr 18%Z;
  erc20_symbol := fun _ t => inr ("sym of " +:+ t);
  erc721_name := fun _ t => inr ("name of " +:+ t);
  erc721_symbol := fun _ t => inr ("sym of " +:+ t);
  isApprovedForAll := fun c t _ _ => inr (operator_approved c t);
  parseUnits := fun s d =>
    if truthy s then inr (10 ^ d)%Z else inl (Error "invalid decimal value");
  submit := fun _ c =>
    (c, if submission_fails c then inl (Error "submission rejected")
        else inr {| hash := "0xhash" |});
  wait := fun p c =>
    (c, if inclusion_fails c then inl (Error "transaction reverted")
        else inr {| transactionHash := hash p; status := 1%Z |})
|}.

(** A chain where ["0xT"], ["0xU"] and ["0xV"] are contracts and ["0xbad"]
    is not; the wallet holds a few tokens. *)
Definition ledger (submission_fails inclusion_fails : bool) : Ledger :=
  {| code_at := fun a =>
       if bool_decide (a ∈ ["0xT"; "0xU"; "0xV"]) then "0x6080" else "0x";
     allowance_of := fun t => if bool_decide (t = "0xT") then MaxUint256 else 0%Z;
     operator_approved := fun _ => false;
     erc20_balance := fun _ _ => 5%Z;
     erc721_tokens := fun _ o => if bool_decide (o = "0xWallet") then [7%Z] else [];
     native_balance := fun _ => 100%Z;
     submission_fails := submission_fails;
     inclusion_fails := inclusion_fails |}.

Definition start (c : Ledger) (h : Hook) : Machine Ledger :=
  {| chain := c; hook := h; trace := []; console := []; published := [] |}.

(** A render after identity resolution, with nothing registered. *)
Definition resolved : Hook :=
  {| bridgeTokens := ∅;
     ethBalances := {| balance := 0; arbChainBalance := 0;
                       totalArbBalance := 0; lockBoxBalance := 0 |};
     erc20Balances := ∅;
     erc721Balances := ∅;
     ERC20Cache := [];
     ERC721Cache := [];
     config := {| walletAddress := "0xWallet"; vmId := "0xVm" |};
     arbProvider := true |}.

End Double.

(** ** Concrete machines on the ledger double *)

(** An ERC721 token is registered and the balances have been refreshed. *)
Definition tracking_nft : Machine Double.Ledger :=
  let m0 := Double.start (Double.ledger false false) Double.resolved in
  let m1 := (invoke (token_add "0xU" ERC721) m0).1 in
  (invoke (token_updateBalances None) m1).1.

(** The ERC20 contract ["0xT"] is registered; its allowance was at the
    maximum when it was added. *)
Definition tracking_token : Machine Double.Ledger :=
  let m0 := Double.start (Double.ledger false false) Double.resolved in
  (invoke (token_add "0xT" ERC20) m0).1.

(** A chain that rejects every submission. *)
Definition rejecting : Machine Double.Ledger :=
  Double.start (Double.ledger true false) (hook tracking_token).

(** ** A ledger double that moves funds

    A chain with native balances only: a submitted deposit leaves the home
    balance of the signer and is pending; its inclusion moves the pending
    amount into escrow and credits the child balance.  It tracks no token. *)
Module Vault.

Record Ledger := {
  home : Z;
  child : Z;
  escrow : Z;
  lockbox : Z;
  pending : Z
}.

Definition no_token {A} : exn + A := inl (Error "no such contract").

Definition connector : Connector Ledger := {|
  globalInboxConn := fun _ => inr "0xInbox";
  getCode := fun _ _ => inr "0x";
  getBalance := fun c => inr (home c);
  arbGetBalance := fun c _ => inr (child c);
  getEthBalance := fun c k =>
    inr (if bool_decide (k = "0xVm") then escrow c else lockbox c);
  getERC20Balance := fun _ _ _ => no_token;
  getERC721Tokens := fun _ _ _ => no_token;
  eth_balanceOf := fun _ _ _ => no_token;
  arb_balanceOf := fun _ _ _ => no_token;
  eth_tokensOfOwner := fun _ _ _ => no_token;
  arb_tokensOfOwner := fun _ _ _ => no_token;
  allowance := fun _ _ _ _ => no_token;
  erc20_name := fun _ _ => no_token;
  erc20_decimals := fun _ _ => no_token;
  erc20_symbol := fun _ _ => no_token;
  erc721_name := fun _ _ => no_token;
  erc721_symbol := fun _ _ => no_token;
  isApprovedForAll := fun _ _ _ _ => no_token;
  parseUnits := fun s d =>
    if truthy s then inr (Z.of_nat (String.length s) * 10 ^ d)%Z
    else inl (Error "invalid decimal value");
  submit := fun tx c =>
    match tx with
    | DepositETH _ v =>
        if (v <=? home c)%Z
        then ({| home := home c - v; child := child c; escrow := escrow c;
                 lockbox := lockbox c; pending := pending c + v |},
              inr {| hash := "0xdeposit" |})
        else (c, inl (Error "insufficient funds"))
    | _ => (c, inl (Error "unsupported"))
    end;
  wait := fun p c =>
    ({| home := home c; child := child c + pending c;
        escrow := escrow c + pending c; lockbox := lockbox c; pending := 0 |},
     inr {| transactionHash := hash p; status := 1%Z |})
|}.

Definition start (c : Ledger) (h : Hook) : Machine Ledger :=
  {| chain := c; hook := h; trace := []; console := []; published := [] |}.

End Vault.

(** ** A ledger double that keeps an allowance

    Every address is a contract.  The chain keeps the allowance that the
    wallet grants to the inbox and the operator approval: an approval sets
    them, an ERC20 deposit spends the allowance. *)
Module Spender.

Record Ledger := {
  granted : Z;
  operator : bool
}.

Definition connector : Connector Ledger := {|
  globalInboxConn := fun _ => inr "0xInbox";
  getCode := fun _ _ => inr "0x6080";
  getBalance := fun _ => inr 0%Z;
  arbGetBalance := fun _ _ => inr 0%Z;
  getEthBalance := fun _ _ => inr 0%Z;
  getERC20Balance := fun _ _ _ => inr 0%Z;
  getERC721Tokens := fun _ _ _ => inr [];
  eth_balanceOf := fun _ _ _ => inr 0%Z;
  arb_balanceOf := fun _ _ _ => inr 0%Z;
  eth_tokensOfOwner := fun _ _ _ => inr [];
  arb_tokensOfOwner := fun _ _ _ => inr [];
  allowance := fun c _ _ _ => inr (granted c);
  erc20_name := fun _ _ => inr "Token";
  erc20_decimals := fun _ _ => inr 18%Z;
  erc20_symbol := fun _ _ => inr "TKN";
  erc721_name := fun _ _ => inr "Collectible";
  erc721_symbol := fun _ _ => inr "NFT";
  isApprovedForAll := fun c _ _ _ => inr (operator c);
  parseUnits := fun s d =>
    if truthy s then inr (Z.of_nat (String.length s) * 10 ^ d)%Z
    else inl (Error "invalid decimal value");
  submit := fun tx c =>
    match tx with
    | Approve _ _ v =>
        ({| granted := v; operator := operator c |},
         inr {| hash := "0xapprove" |})
    | SetApprovalForAll _ _ b =>
        ({| granted := granted c; operator := b |},
         inr {| hash := "0xoperator" |})
    | DepositERC20 _ _ v =>
        if (v <=? granted c)%Z
        then ({| granted := granted c - v; operator := operator c |},
              inr {| hash := "0xdeposit" |})
        else (c, inl (Error "transfer amount exceeds allowance"))
    | _ => (c, inr {| hash := "0xother" |})
    end;
  wait := fun p c => (c, inr {| transactionHash := hash p; status := 1%Z |})
|}.

Definition start (c : Ledger) (h : Hook) : Machine Ledger :=
  {| chain := c; hook := h; trace := []; console := []; published := [] |}.

(** Nothing granted, nothing registered, identity resolved. *)
Definition fresh : Machine Ledger :=
  start {| granted := 0; operator := false |} Double.resolved.

End Spender.

(** [addToken] of ["0xT"] on the allowance double, nothing registered, with
    the allowance [g] and the operator approval [o] on the chain. *)
Definition spender_register (g : Z) (o : bool) (ty : TokenType)
  : Machine Spender.Ledger * (exn + unit) :=
  addToken (H := Spender.connector) Double.resolved "0xT" ty
    (Spender.start {| Spender.granted := g; Spender.operator := o |}
       Double.resolved).

(** ** Runs through a handle of an older render

    [second_add ty]: [addToken] registers ["0xT"] as ERC20 through the
    handle of the render [Double.resolved], and the same handle is called
    again, for the kind [ty]. *)
Definition first_add : Machine Double.Ledger :=
  (addToken Double.resolved "0xT" ERC20
     (Double.start (Double.ledger false false) Double.resolved)).1.

Definition second_add (ty : TokenType) : Machine Double.Ledger * (exn + unit) :=
  addToken Double.resolved "0xT" ty first_add.

(** On the allowance double: ["0xT"] is registered through the handle of the
    first render; then, each from the current render, it is approved and one
    unit is deposited; then the handle of the first render is called again. *)
Definition spender_added : Machine Spender.Ledger :=
  (addToken (H := Spender.connector) (hook Spender.fresh) "0xT" ERC20
     Spender.fresh).1.

Definition spender_approved : Machine Spender.Ledger :=
  (approveToken (H := Spender.connector) (hook spender_added) "0xT"
     spender_added).1.

Definition spender_deposited : Machine Spender.Ledger :=
  (depositToken (H := Spender.connector) (hook spender_approved) "0xT" "1"
     spender_approved).1.

Definition spender_added_again : Machine Spender.Ledger * (exn + unit) :=
  addToken (H := Spender.connector) (hook Spender.fresh) "0xT" ERC20
    spender_deposited.

(** * Properties *)

(** ** Frame reasoning *)
Section Frame.

Context {C : Type} `{Connector C}.

Lemma preserves_ret {A X} (f : Machine C -> X) (a : A) : preserves f (ret a).
Proof. by intros m. Qed.

Lemma preserves_throw {A X} (f : Machine C -> X) e : preserves f (@throw C A e).
Proof. by intros m. Qed.

Lemma preserves_lift {A X} (f : Machine C -> X) (r : exn + A) :
  preserves f (lift r).
Proof. by intros m. Qed.

Lemma preserves_read {A X} (f : Machine C -> X) (g : C -> exn + A) :
  preserves f (read g).
Proof. by intros m. Qed.

Lemma preserves_bind {A B X} (f : Machine C -> X) (c : M C A) (k : A -> M C B) :
  preserves f c -> (forall a, preserves f (k a)) -> preserves f (bind c k).
Proof.
  intros Hc Hk m. unfold bind. specialize (Hc m).
  destruct (c m) as [m1 [e|a]]; simpl in *; [done|].
  by rewrite Hk.
Qed.

Lemma preserves_try_catch {A X} (f : Machine C -> X) (c : M C A) h :
  preserves f c -> (forall e, preserves f (h e)) -> preserves f (try_catch c h).
Proof.
  intros Hc Hh m. unfold try_catch. specialize (Hc m).
  destruct (c m) as [m1 [e|a]]; simpl in *; [|done].
  by rewrite Hh.
Qed.

Lemma preserves_for_of {A S X} (f : Machine C -> X) (l : list A)
    (body : S -> A -> M C S) :
  (forall s x, preserves f (body s x)) -> forall s, preserves f (for_of l body s).
Proof.
  intros Hb. induction l as [|x l IH]; intros s; simpl.
  - apply preserves_ret.
  - apply preserves_bind; [apply Hb | intros s'; apply IH].
Qed.

Lemma preserves_fire {A X} (f : Machine C -> X) (c : M C A) :
  preserves f c -> preserves f (fire c).
Proof. intros Hc m. apply Hc. Qed.

(** Submitting and waiting touch the chain and the trace only. *)
Lemma preserves_send {X} (g : Hook -> X) tx :
  preserves (fun m : Machine C => g (hook m)) (send tx).
Proof. intros m. unfold send. by destruct (submit tx (chain m)). Qed.

Lemma preserves_tx_wait {X} (g : Hook -> X) p :
  preserves (fun m : Machine C => g (hook m)) (tx_wait p).
Proof. intros m. unfold tx_wait. by destruct (wait p (chain m)). Qed.

Lemma preserves_console_error {X} (g : Hook -> X) s e :
  preserves (fun m : Machine C => g (hook m)) (console_error s e).
Proof. by intros m. Qed.

Lemma preserves_set_state {X} (g : Hook -> X) s (u : Hook -> Hook) :
  (forall h, g (u h) = g h) -> preserves (fun m : Machine C => g (hook m)) (set_state s u).
Proof. intros Hu m. simpl. apply Hu. Qed.

(** Setters and the console leave the chain and the trace alone. *)
Lemma set_state_chain s (u : Hook -> Hook) : preserves (@chain C) (set_state s u).
Proof. by intros m. Qed.

Lemma set_state_trace s (u : Hook -> Hook) : preserves (@trace C) (set_state s u).
Proof. by intros m. Qed.

Lemma console_error_chain s e : preserves (@chain C) (console_error s e).
Proof. by intros m. Qed.

Lemma console_error_trace s e : preserves (@trace C) (console_error s e).
Proof. by intros m. Qed.

Lemma set_state_console s (u : Hook -> Hook) : preserves (@console C) (set_state s u).
Proof. by intros m. Qed.

End Frame.

(** Decompose a callback into its statements and close each of them with the
    frame lemmas above. *)
Ltac frame_step :=
  lazymatch goal with
  | |- preserves _ (ret _) => apply preserves_ret
  | |- preserves _ (throw _) => apply preserves_throw
  | |- preserves _ (lift _) => apply preserves_lift
  | |- preserves _ (read _) => apply preserves_read
  | |- preserves _ (send _) => apply preserves_send
  | |- preserves _ (tx_wait _) => apply preserves_tx_wait
  | |- preserves _ (console_error _ _) =>
      first [ apply preserves_console_error | apply console_error_chain
            | apply console_error_trace ]
  | |- preserves _ (set_state _ _) =>
      first [ apply set_state_chain | apply set_state_trace
            | apply set_state_console
            | apply preserves_set_state; intros []; reflexivity
            | intros ?; reflexivity ]
  | |- preserves _ (bind _ _) => apply preserves_bind; [|intros ?]
  | |- preserves _ (try_catch _ _) => apply preserves_try_catch; [|intros ?]
  | |- preserves _ (for_of _ _ _) => apply preserves_for_of; intros ? ?
  | |- preserves _ (fire _) => apply preserves_fire
  | |- preserves _ (match _ with _ => _ end) => case_match
  | |- preserves _ (let _ := _ in _) => cbv zeta
  end.

Ltac frame := repeat frame_step.

Section FrameCallbacks.

Context {C : Type} `{Connector C}.

(** A refresh of the token balances reads the chain and publishes balances:
    it submits nothing and leaves registry, caches and identity alone. *)
Lemma refresh_one_pure cl acc contract : preserves (@id (Machine C)) (refresh_one cl acc contract).
Proof. unfold refresh_one. frame. Qed.

Lemma updateTokenBalances_bridgeTokens cl ty :
  preserves (fun m : Machine C => bridgeTokens (hook m)) (updateTokenBalances cl ty).
Proof. unfold updateTokenBalances, refresh_one. frame. Qed.

Lemma updateTokenBalances_chain cl ty : preserves (@chain C) (updateTokenBalances cl ty).
Proof. unfold updateTokenBalances, refresh_one. frame. Qed.

Lemma updateTokenBalances_trace cl ty : preserves (@trace C) (updateTokenBalances cl ty).
Proof. unfold updateTokenBalances, refresh_one. frame. Qed.

Lemma updateEthBalances_bridgeTokens cl :
  preserves (fun m : Machine C => bridgeTokens (hook m)) (updateEthBalances cl).
Proof. unfold updateEthBalances. frame. Qed.

Lemma updateEthBalances_trace cl : preserves (@trace C) (updateEthBalances cl).
Proof. unfold updateEthBalances. frame. Qed.

End FrameCallbacks.

(** ** Stepping through a callback *)
Section Stepping.

Context {C : Type} `{Connector C}.

Lemma bind_inr {A B} (c : M C A) (k : A -> M C B) m m' b :
  bind c k m = (m', inr b) ->
  exists m1 a, c m = (m1, inr a) /\ k a m1 = (m', inr b).
Proof.
  unfold bind. destruct (c m) as [m1 [e|a]]; [done|]. intros Hk. by exists m1, a.
Qed.

Lemma read_inr {A} (f : C -> exn + A) m m' a :
  read f m = (m', inr a) -> m' = m /\ f (chain m) = inr a.
Proof. unfold read. by intros [= -> ->]. Qed.

Lemma ret_inr {A} (a b : A) (m m' : Machine C) :
  ret a m = (m', inr b) -> m' = m /\ b = a.
Proof. unfold ret. by intros [= -> ->]. Qed.

Lemma bind_read {A B} (f : C -> exn + A) (k : A -> M C B) m :
  bind (read f) k m
  = match f (chain m) with inr a => k a m | inl e => (m, inl e) end.
Proof. unfold bind, read. by destruct (f (chain m)). Qed.

Lemma try_catch_read_bind {A B} (f : C -> exn + A) (k : A -> M C B) h m :
  try_catch (bind (read f) k) h m
  = match f (chain m) with
    | inr a => try_catch (k a) h m
    | inl e => h e m
    end.
Proof. unfold try_catch, bind, read. by destruct (f (chain m)). Qed.

End Stepping.

(** ** expireCache *)
Section Cache.

Context {C : Type} `{Connector C}.

(** C9. [expireCache] returns normally, empties the persisted cache of both
    kinds and changes nothing else: the registry, the native balances, both
    per-kind balance maps, the identity, the chain and the list of submitted
    transactions are as before the call. *)
Theorem expireCache_frame (m : Machine C) :
  (expireCache m).2 = inr tt /\
  ERC20Cache (hook (expireCache m).1) = [] /\
  ERC721Cache (hook (expireCache m).1) = [] /\
  bridgeTokens (hook (expireCache m).1) = bridgeTokens (hook m) /\
  ethBalances (hook (expireCache m).1) = ethBalances (hook m) /\
  erc20Balances (hook (expireCache m).1) = erc20Balances (hook m) /\
  erc721Balances (hook (expireCache m).1) = erc721Balances (hook m) /\
  config (hook (expireCache m).1) = config (hook m) /\
  arbProvider (hook (expireCache m).1) = arbProvider (hook m) /\
  chain (expireCache m).1 = chain m /\
  trace (expireCache m).1 = trace m.
Proof. by repeat split. Qed.

End Cache.

(** ** withdrawToken and its kind dispatch *)
Section Withdraw.

Context {C : Type} `{Connector C}.

(** C10. On every render, address, argument and machine, [withdrawToken] and
    the function without the kind dispatch end in the same machine with the
    same result: both branches of the switch submit the same withdraw call. *)
Theorem withdrawToken_dispatch_irrelevant (cl : Hook)
    (contractAddress amountOrTokenId : string) (m : Machine C) :
  withdrawToken cl contractAddress amountOrTokenId m
  = withdrawToken_undispatched cl contractAddress amountOrTokenId m.
Proof.
  unfold withdrawToken, withdrawToken_undispatched.
  destruct (negb (truthy (walletAddress (config cl)))); [done|].
  destruct (bridgeTokens cl !! contractAddress) as [contract|]; [|done].
  by destruct (type contract).
Qed.

End Withdraw.

(** ** addToken *)
Section Register.

Context {C : Type} `{Connector C}.

(** Building the new record reads the chain and may extend a cache: the
    registry and the chain are untouched. *)
Lemma connect_erc20_bridgeTokens cl a inboxManager :
  preserves (fun m : Machine C => bridgeTokens (hook m)) (connect_erc20 cl a inboxManager).
Proof. unfold connect_erc20. frame. Qed.

Lemma connect_erc721_bridgeTokens cl a inboxManager :
  preserves (fun m : Machine C => bridgeTokens (hook m)) (connect_erc721 cl a inboxManager).
Proof. unfold connect_erc721. frame. Qed.

(** What a returned ERC20 record was built from. *)
Lemma connect_erc20_inr cl a inboxManager m m' t :
  connect_erc20 cl a inboxManager m = (m', inr t) ->
  type t = ERC20 /\
  exists al, allowance (chain m) a (walletAddress (config cl)) inboxManager = inr al
             /\ allowed t = (MIN_APPROVAL <=? al)%Z.
Proof.
  unfold connect_erc20. cbv zeta. intros Hrun.
  apply bind_inr in Hrun as (m1 & al & [-> Hal]%read_inr & Hrun).
  apply bind_inr in Hrun as (m2 & nm & [-> _]%read_inr & Hrun).
  apply bind_inr in Hrun as (m3 & un & [-> _]%read_inr & Hrun).
  apply bind_inr in Hrun as (m4 & sy & [-> _]%read_inr & Hrun).
  apply bind_inr in Hrun as (m5 & [] & _ & [_ ->]%ret_inr).
  split; [done|]. by exists al.
Qed.

Lemma connect_erc721_inr cl a inboxManager m m' t :
  connect_erc721 cl a inboxManager m = (m', inr t) ->
  type t = ERC721 /\
  isApprovedForAll (chain m) a (walletAddress (config cl)) inboxManager
  = inr (allowed t).
Proof.
  unfold connect_erc721. cbv zeta. intros Hrun.
  apply bind_inr in Hrun as (m1 & nm & [-> _]%read_inr & Hrun).
  apply bind_inr in Hrun as (m2 & sy & [-> _]%read_inr & Hrun).
  apply bind_inr in Hrun as (m3 & al & [-> Hal]%read_inr & Hrun).
  apply bind_inr in Hrun as (m4 & [] & _ & [_ ->]%ret_inr).
  by split.
Qed.

(** A call of [addToken] on an address that the registry of its render holds
    throws and leaves the whole machine as it was: registry, both caches,
    balances and chain.  The error is ['contract is present'] whenever the
    call gets as far as the presence test, that is when the provider and the
    wallet address are there and the address still carries code. *)
Lemma addToken_present cl a ty (m : Machine C) :
  is_Some (bridgeTokens cl !! a) ->
  exists e,
    addToken cl a ty m = (m, inl e) /\
    (arbProvider cl = true ->
     truthy (walletAddress (config cl)) = true ->
     forall code, getCode (chain m) a = inr code ->
                  (2 < String.length code)%nat ->
                  e = Error "contract is present").
Proof.
  intros Hin. unfold addToken.
  destruct (arbProvider cl), (truthy (walletAddress (config cl))); simpl;
    try (eexists; split; [reflexivity|done]).
  rewrite bind_read.
  destruct (getCode (chain m) a) as [e|code] eqn:Hcode.
  { eexists; split; [reflexivity|]. by intros _ _ code' [=]. }
  cbv zeta. destruct (2 <? String.length code)%nat eqn:Hlen; simpl.
  - rewrite bool_decide_eq_true_2 by done.
    eexists; split; [reflexivity|done].
  - eexists; split; [reflexivity|].
    intros _ _ code' [= <-] Hlt. apply Nat.ltb_ge in Hlen. lia.
Qed.

End Register.

(** ** withdrawLockboxToken without a token identifier *)
Section Lockbox.

Context {C : Type} `{Connector C}.


End Lockbox.

(** ** Failures of submission and inclusion *)
Section Failures.

Context {C : Type} `{Connector C}.

Lemma new_events_app (m m' : Machine C) evs :
  trace m' = (evs ++ trace m)%list -> new_events m m' = evs.
Proof.
  intros Htr. unfold new_events. rewrite Htr, length_app.
  replace (length evs + length (trace m) - length (trace m)) with (length evs)
    by lia.
  by rewrite take_app_length.
Qed.

Lemma new_events_same (m m' : Machine C) :
  trace m' = trace m -> new_events m m' = [].
Proof. intros Htr. by apply (new_events_app m m' []). Qed.

(** A callback that submits nothing surfaces vacuously. *)
Lemma surfaces_silent {A} (c : M C A) : preserves (@trace C) c -> surfaces c.
Proof.
  intros Hc m e Hex. rewrite new_events_same in Hex by apply Hc.
  by apply Exists_nil in Hex.
Qed.

Lemma surfaces_if {A} (b : bool) (c1 c2 : M C A) :
  surfaces c1 -> surfaces c2 -> surfaces (if b then c1 else c2).
Proof. by destruct b. Qed.

(** Steps that leave the machine alone may come first. *)
Lemma surfaces_read_bind {A B} (f : C -> exn + A) (k : A -> M C B) :
  (forall a, surfaces (k a)) -> surfaces (bind (read f) k).
Proof.
  intros Hk m e. rewrite bind_read. destruct (f (chain m)) as [e'|a].
  - simpl. rewrite new_events_same by done. by intros ?%Exists_nil.
  - apply Hk.
Qed.

Lemma surfaces_lift_bind {A B} (r : exn + A) (k : A -> M C B) :
  (forall a, surfaces (k a)) -> surfaces (bind (lift r) k).
Proof.
  intros Hk m e. unfold bind, lift. destruct r as [e'|a].
  - simpl. rewrite new_events_same by done. by intros ?%Exists_nil.
  - apply Hk.
Qed.

Lemma surfaces_throw_bind {A B} e (k : A -> M C B) :
  surfaces (bind (throw e) k).
Proof.
  intros m e'. unfold bind, throw. simpl.
  rewrite new_events_same by done. by intros ?%Exists_nil.
Qed.

Lemma bind_assoc {A B D} (c : M C A) (k1 : A -> M C B) (k2 : B -> M C D) m :
  bind (bind c k1) k2 m = bind c (fun a => bind (k1 a) k2) m.
Proof. unfold bind. by destruct (c m) as [m1 [e|a]]. Qed.

(** Submission followed by the wait for inclusion: the run stops at the
    first failure and throws it. *)
Lemma surfaces_send_wait tx : surfaces (bind (send tx) tx_wait).
Proof.
  intros m e. unfold bind, send, tx_wait.
  destruct (submit tx (chain m)) as [c1 [e1|p]] eqn:Hs; simpl.
  - rewrite (new_events_app _ _ [Submitted tx (inl e1)]) by done.
    rewrite Exists_cons, Exists_nil. simpl. by intros [[= ->]|[]].
  - destruct (wait p c1) as [c2 [e2|r]] eqn:Hw; simpl.
    + rewrite (new_events_app _ _ [Waited p (inl e2); Submitted tx (inr p)])
        by done.
      rewrite !Exists_cons, Exists_nil. simpl. by intros [[= ->]|[[=]|[]]].
    + rewrite (new_events_app _ _ [Waited p (inr r); Submitted tx (inr p)])
        by done.
      rewrite !Exists_cons, Exists_nil. simpl. by intros [[=]|[[=]|[]]].
Qed.

Lemma depositToken_surfaces cl a x : surfaces (depositToken cl a x).
Proof.
  unfold depositToken. apply surfaces_if.
  { apply surfaces_silent. frame. }
  destruct (bridgeTokens cl !! a) as [contract|];
    [|apply surfaces_silent; frame].
  destruct (type contract).
  - intros m e. rewrite bind_assoc. revert m e.
    apply surfaces_lift_bind. intros amount. apply surfaces_send_wait.
  - apply surfaces_send_wait.
Qed.

Lemma withdrawToken_surfaces cl a x : surfaces (withdrawToken cl a x).
Proof.
  unfold withdrawToken. apply surfaces_if.
  { apply surfaces_silent. frame. }
  destruct (bridgeTokens cl !! a) as [contract|];
    [|apply surfaces_silent; frame].
  destruct (type contract); apply surfaces_send_wait.
Qed.

Lemma withdrawLockboxToken_surfaces cl a tokenId :
  surfaces (withdrawLockboxToken cl a tokenId).
Proof.
  unfold withdrawLockboxToken. apply surfaces_if.
  { apply surfaces_silent. frame. }
  destruct (bridgeTokens cl !! a) as [contract|];
    [|apply surfaces_silent; frame].
  apply surfaces_read_bind. intros inboxManager.
  destruct (type contract); [apply surfaces_send_wait|].
  destruct (tokenId_given tokenId); [apply surfaces_send_wait|].
  apply surfaces_throw_bind.
Qed.

End Failures.

Section Caught.

Context {C : Type} `{Connector C}.

(** The [try] block shared by the three ETH callbacks. *)
Lemma tx_then_refresh_caught cl tx prefix :
  logs_and_returns prefix
    (try_catch
       (p <- send tx ;; _ <- tx_wait p ;; updateEthBalances cl)
       (fun e => console_error prefix e)).
Proof.
  intros m e.
  match goal with |- context [try_catch ?b ?h m] =>
    remember (try_catch b h m) as run eqn:Hrun
  end.
  unfold try_catch, bind, send, tx_wait in Hrun.
  destruct (submit tx (chain m)) as [c1 [e1|p]].
  { subst run. simpl.
    rewrite (new_events_app _ _ [Submitted tx (inl e1)]) by done.
    rewrite Exists_cons, Exists_nil. simpl. by intros [[= ->]|[]]. }
  simpl in Hrun. destruct (wait p c1) as [c2 [e2|r]].
  { subst run. simpl.
    rewrite (new_events_app _ _ [Waited p (inl e2); Submitted tx (inr p)])
      by done.
    rewrite !Exists_cons, Exists_nil. simpl. by intros [[= ->]|[[=]|[]]]. }
  match type of Hrun with context [updateEthBalances cl ?m2] =>
    pose proof (updateEthBalances_trace cl m2) as Htr;
    destruct (updateEthBalances cl m2) as [m3 [e3|[]]]
  end; subst run; simpl in *.
  - rewrite (new_events_app _ _ [Waited p (inr r); Submitted tx (inr p)])
      by done.
    rewrite !Exists_cons, Exists_nil. simpl. by intros [[=]|[[=]|[]]].
  - rewrite (new_events_app _ _ [Waited p (inr r); Submitted tx (inr p)])
      by done.
    rewrite !Exists_cons, Exists_nil. simpl. by intros [[=]|[[=]|[]]].
Qed.

Lemma logs_and_returns_silent prefix (c : M C unit) :
  preserves (@trace C) c -> logs_and_returns prefix c.
Proof.
  intros Hc m e Hex. rewrite new_events_same in Hex by apply Hc.
  by apply Exists_nil in Hex.
Qed.

Lemma depositEth_caught cl v : logs_and_returns "depositEth err: " (depositEth cl v).
Proof.
  unfold depositEth.
  destruct (negb (arbProvider cl) || negb (truthy (walletAddress (config cl)))).
  { apply logs_and_returns_silent. frame. }
  destruct (parseEther v) as [e0|wei].
  - apply logs_and_returns_silent. intros m. by unfold bind, lift.
  - apply tx_then_refresh_caught.
Qed.

Lemma withdrawEth_caught cl v : logs_and_returns "withdrawEth err" (withdrawEth cl v).
Proof.
  unfold withdrawEth. destruct (negb (arbProvider cl)).
  { apply logs_and_returns_silent. frame. }
  destruct (parseEther v) as [e0|wei].
  - apply logs_and_returns_silent. intros m. by unfold bind, lift.
  - apply tx_then_refresh_caught.
Qed.

Lemma withdrawLockboxETH_caught cl :
  logs_and_returns "withdrawLockboxETH err" (withdrawLockboxETH cl).
Proof.
  unfold withdrawLockboxETH. destruct (negb (arbProvider cl)).
  { apply logs_and_returns_silent. frame. }
  intros m e. rewrite try_catch_read_bind.
  destruct (globalInboxConn (chain m)) as [e0|inboxManager].
  - simpl. rewrite new_events_same by done. by intros ?%Exists_nil.
  - apply (tx_then_refresh_caught cl InboxWithdrawEth "withdrawLockboxETH err").
Qed.

(** C1, as the code has it.  The three token callbacks ([depositToken],
    [withdrawToken], [withdrawLockboxToken]) surface a failure of submission
    or of inclusion: the call ends by throwing that error to its caller.  The
    three ETH callbacks ([depositEth], [withdrawEth], [withdrawLockboxETH])
    catch such a failure, write it to the console with [console.error] and
    return normally. *)
Theorem failures_thrown_by_token_calls_logged_by_eth_calls :
  (forall cl a x, surfaces (depositToken cl a x)) /\
  (forall cl a x, surfaces (withdrawToken cl a x)) /\
  (forall cl a tokenId, surfaces (withdrawLockboxToken cl a tokenId)) /\
  (forall cl v, logs_and_returns "depositEth err: " (depositEth cl v)) /\
  (forall cl v, logs_and_returns "withdrawEth err" (withdrawEth cl v)) /\
  (forall cl, logs_and_returns "withdrawLockboxETH err" (withdrawLockboxETH cl)).
Proof.
  split; [|split; [|split; [|split; [|split]]]].
  - apply depositToken_surfaces.
  - apply withdrawToken_surfaces.
  - apply withdrawLockboxToken_surfaces.
  - apply depositEth_caught.
  - apply withdrawEth_caught.
  - apply withdrawLockboxETH_caught.
Qed.

End Caught.

(** ** Calls through the surface *)
Section SurfaceFacts.

Context {C : Type} `{Connector C}.

Lemma updateAllBalances_bridgeTokens cl :
  preserves (fun m : Machine C => bridgeTokens (hook m)) (updateAllBalances cl).
Proof.
  intros m. unfold updateAllBalances.
  pose proof (updateEthBalances_bridgeTokens cl m) as H1.
  destruct (updateEthBalances cl m) as [m1 r1].
  pose proof (updateTokenBalances_bridgeTokens cl None m1) as H2.
  destruct (updateTokenBalances cl None m1) as [m2 r2].
  simpl in *. congruence.
Qed.

(** [addToken] inserts at an address the render does not hold, or nowhere:
    a record the render holds is never replaced by it. *)
Lemma addToken_keeps cl a a' ty :
  is_Some (bridgeTokens cl !! a) ->
  preserves (fun m : Machine C => bridgeTokens (hook m) !! a) (addToken cl a' ty).
Proof.
  intros Hin. unfold addToken.
  destruct (negb (arbProvider cl) || negb (truthy (walletAddress (config cl))));
    [frame|].
  apply preserves_bind; [frame|]. intros code. cbv zeta.
  destruct (negb (2 <? String.length code)%nat); [frame|].
  destruct (bool_decide (is_Some (bridgeTokens cl !! a'))) eqn:Hpresent; [frame|].
  apply bool_decide_eq_false in Hpresent.
  assert (a' <> a) as Hne by (by intros ->).
  apply preserves_bind; [frame|]. intros inboxManager.
  apply preserves_bind.
  { destruct ty; intros m.
    - by rewrite (connect_erc20_bridgeTokens cl a' inboxManager m).
    - by rewrite (connect_erc721_bridgeTokens cl a' inboxManager m). }
  intros t. apply preserves_bind.
  { intros m. simpl. by rewrite lookup_insert_ne. }
  intros _ m. by rewrite (updateTokenBalances_bridgeTokens cl (Some ty) m).
Qed.

Lemma set_allowed_id t : allowed t = true -> set_allowed t = t.
Proof. destruct t. simpl. by intros ->. Qed.

(** A run of [approveToken] either throws and leaves the hook state alone, or
    returns normally after replacing the current record of the address by
    the same record with [allowed: true]. *)
Lemma approveToken_hook cl a (m : Machine C) :
  ((exists e, (approveToken cl a m).2 = inl e) /\
   hook (approveToken cl a m).1 = hook m) \/
  exists target r,
    bridgeTokens (hook m) !! a = Some target /\
    (approveToken cl a m).2 = inr r /\
    hook (approveToken cl a m).1
    = with_bridgeTokens (fun contracts => <[a := set_allowed target]> contracts)
        (hook m).
Proof.
  remember (approveToken cl a m) as run eqn:Hrun.
  unfold approveToken in Hrun.
  assert (forall e m1, run = (m1, inl e) -> hook m1 = hook m ->
            (exists e, run.2 = inl e) /\ hook run.1 = hook m) as Hthrown.
  { intros e m1 -> Hm1. split; [by exists e | done]. }
  destruct (negb (arbProvider cl)); [left; eapply Hthrown; [exact Hrun | reflexivity]|].
  destruct (bridgeTokens cl !! a) as [contract|]; [|left; eapply Hthrown; [exact Hrun | reflexivity]].
  rewrite bind_read in Hrun.
  destruct (globalInboxConn (chain m)) as [e|inboxManager];
    [left; eapply Hthrown; [exact Hrun | reflexivity]|].
  set (tx := match type contract with
             | ERC20 => Approve (eth contract) inboxManager MIN_APPROVAL
             | ERC721 => SetApprovalForAll (eth contract) inboxManager true
             end).
  assert (match type contract with
          | ERC20 => send (Approve (eth contract) inboxManager MIN_APPROVAL)
          | ERC721 => send (SetApprovalForAll (eth contract) inboxManager true)
          end = send (C:=C) tx) as Hsend by (unfold tx; by destruct (type contract)).
  rewrite Hsend in Hrun. clear Hsend. clearbody tx.
  unfold bind, send, tx_wait in Hrun.
  destruct (submit tx (chain m)) as [c1 [e1|p]]; [left; eapply Hthrown; [exact Hrun | reflexivity]|].
  simpl in Hrun.
  destruct (wait p c1) as [c2 [e2|r]]; [left; eapply Hthrown; [exact Hrun | reflexivity]|].
  unfold mark_approved in Hrun. simpl in Hrun.
  destruct (bridgeTokens (hook m) !! a) as [target|] eqn:Hcur;
    [|left; eapply Hthrown; [exact Hrun | reflexivity]].
  subst run. right. by exists target, r.
Qed.

End SurfaceFacts.

(** ** The allowed flag *)
Section Allowed.

Context {C : Type} `{Connector C}.

Lemma void_machine {A} (c : M C A) m : (void c m).1 = (c m).1.
Proof. unfold void, bind, ret. by destruct (c m) as [m1 [e|a]]. Qed.

(** The callbacks that never write the registry. *)
Lemma depositEth_bridgeTokens cl v :
  preserves (fun m : Machine C => bridgeTokens (hook m)) (depositEth cl v).
Proof. unfold depositEth, updateEthBalances. frame. Qed.

Lemma withdrawEth_bridgeTokens cl v :
  preserves (fun m : Machine C => bridgeTokens (hook m)) (withdrawEth cl v).
Proof. unfold withdrawEth, updateEthBalances. frame. Qed.

Lemma withdrawLockboxETH_bridgeTokens cl :
  preserves (fun m : Machine C => bridgeTokens (hook m)) (withdrawLockboxETH cl).
Proof. unfold withdrawLockboxETH, updateEthBalances. frame. Qed.

Lemma depositToken_hook cl a x : preserves (@hook C) (depositToken cl a x).
Proof. unfold depositToken. change hook with (fun m : Machine C => id (hook m)). frame. Qed.

Lemma withdrawToken_hook cl a x : preserves (@hook C) (withdrawToken cl a x).
Proof. unfold withdrawToken. change hook with (fun m : Machine C => id (hook m)). frame. Qed.

Lemma withdrawLockboxToken_hook cl a id' :
  preserves (@hook C) (withdrawLockboxToken cl a id').
Proof.
  unfold withdrawLockboxToken.
  change hook with (fun m : Machine C => id (hook m)). frame.
Qed.

Lemma expireCache_bridgeTokens :
  preserves (fun m : Machine C => bridgeTokens (hook m)) expireCache.
Proof. unfold expireCache. frame. Qed.

Lemma loadEffect_keeps b cl a :
  is_Some (bridgeTokens cl !! a) ->
  preserves (fun m : Machine C => bridgeTokens (hook m) !! a) (loadEffect b cl).
Proof.
  intros Hin. unfold loadEffect. destruct b; [|frame].
  apply preserves_bind; [|intros _];
    apply preserves_for_of; intros _ address; apply preserves_fire;
    by apply addToken_keeps.
Qed.

(** Across a call made from a render that holds a record at [a] (the
    current render, or an older one taken after [a] was registered), the
    record stays, either as it was or with [allowed] set to true. *)
Lemma call_from_registry cl (c : Call) (m : Machine C) a t :
  is_Some (bridgeTokens cl !! a) ->
  bridgeTokens (hook m) !! a = Some t ->
  bridgeTokens (hook (call_from cl c m).1) !! a = Some t \/
  bridgeTokens (hook (call_from cl c m).1) !! a = Some (set_allowed t).
Proof.
  intros Hin Hlook. destruct c; unfold call_from.
  - left. by rewrite (depositEth_bridgeTokens cl ethValue m).
  - left. by rewrite (withdrawEth_bridgeTokens cl ethValue m).
  - left. by rewrite (withdrawLockboxETH_bridgeTokens cl m).
  - left. by rewrite (updateEthBalances_bridgeTokens cl m).
  - left. by rewrite (addToken_keeps cl a contractAddress ty Hin m).
  - rewrite void_machine.
    destruct (approveToken_hook cl contractAddress m)
      as [[_ ->] | (target & r & Hcur & _ & ->)]; [by left|].
    simpl. destruct (decide (contractAddress = a)) as [->|Hne].
    + right. rewrite lookup_insert_eq. congruence.
    + left. by rewrite lookup_insert_ne.
  - left. by rewrite void_machine, (depositToken_hook cl _ _ m).
  - left. by rewrite void_machine, (withdrawToken_hook cl _ _ m).
  - left. by rewrite void_machine, (withdrawLockboxToken_hook cl _ _ m).
  - left. by rewrite (updateTokenBalances_bridgeTokens cl ty m).
  - left. by rewrite (updateAllBalances_bridgeTokens cl m).
  - left. by rewrite (expireCache_bridgeTokens m).
  - left. by rewrite (loadEffect_keeps autoLoadCache cl a Hin m).
Qed.

Lemma invoke_registry (c : Call) (m : Machine C) a t :
  bridgeTokens (hook m) !! a = Some t ->
  bridgeTokens (hook (invoke c m).1) !! a = Some t \/
  bridgeTokens (hook (invoke c m).1) !! a = Some (set_allowed t).
Proof.
  intros Hlook. apply call_from_registry; [|done]. by rewrite Hlook.
Qed.

(** Approving an address whose record is already allowed changes no cell of
    the hook state, whether the transaction goes through or not. *)
Lemma approve_again (m : Machine C) a t :
  bridgeTokens (hook m) !! a = Some t -> allowed t = true ->
  hook (invoke (token_approve a) m).1 = hook m.
Proof.
  intros Hlook Ht. unfold invoke, call_from. rewrite void_machine.
  destruct (approveToken_hook (hook m) a m)
    as [[_ ->] | (target & r & Hcur & _ & ->)]; [done|].
  assert (target = t) as -> by congruence.
  rewrite set_allowed_id by done.
  destruct (hook m) as [bt ? ? ? ? ? ? ?]. simpl in *.
  unfold with_bridgeTokens. simpl. f_equal. by apply insert_id.
Qed.

(** Calls made from the current render.  For a record [t] that the
    registry holds at [a]:
    - if [t] is allowed, then after any call of the surface the registry
      still holds an allowed record at [a];
    - when [approveToken] returns normally, the record at [a] is allowed;
    - and from there any number of further approve calls leave every cell of
      the hook state as it is. *)
Lemma allowed_write_once (m : Machine C) (a : string) (t : BridgeToken) :
  bridgeTokens (hook m) !! a = Some t ->
  (allowed t = true ->
   forall c, exists t',
     bridgeTokens (hook (invoke c m).1) !! a = Some t' /\ allowed t' = true) /\
  (forall m' r,
     approveToken (hook m) a m = (m', inr r) ->
     (exists t', bridgeTokens (hook m') !! a = Some t' /\ allowed t' = true) /\
     forall n, hook (again (token_approve a) n m') = hook m').
Proof.
  intros Hlook. split.
  - intros Ht c.
    destruct (invoke_registry c m a t Hlook) as [Hc | Hc]; rewrite Hc.
    + by exists t.
    + by exists (set_allowed t).
  - intros m' r Hrun.
    assert (bridgeTokens (hook m') !! a = Some (set_allowed t)) as Hnew.
    { destruct (approveToken_hook (hook m) a m)
        as [[(e & He) _] | (target & r' & Hcur & _ & Hhook)];
        rewrite Hrun in *; simpl in *; [done|].
      rewrite Hhook. simpl. rewrite lookup_insert_eq. congruence. }
    split; [by exists (set_allowed t)|].
    induction n as [|n IH]; [done|].
    transitivity (hook (again (token_approve a) n m')); [|exact IH].
    apply (approve_again (again (token_approve a) n m') a (set_allowed t));
      [|done].
    by rewrite IH.
Qed.

End Allowed.

(** ** Cache restore at mount *)
Section Restore.

Context {C : Type} `{Connector C}.

(** Before the identity is resolved [addToken] throws at once. *)
Lemma addToken_unresolved cl a ty (m : Machine C) :
  truthy (walletAddress (config cl)) = false ->
  addToken cl a ty m = (m, inl (Error "addToken missing req")).
Proof.
  intros Hw. unfold addToken. rewrite Hw.
  by rewrite orb_true_r.
Qed.

Lemma restore_unresolved cl ty (l : list string) (m : Machine C) :
  truthy (walletAddress (config cl)) = false ->
  for_of l (fun _ address => fire (addToken cl address ty)) tt m = (m, inr tt).
Proof.
  intros Hw. induction l as [|address l IH]; [done|].
  simpl. unfold bind, fire. by rewrite addToken_unresolved.
Qed.

(** The load-only effect runs with the callbacks of the first render, where
    [walletAddress] is still the empty string: whatever the cache holds, every
    [addToken] call is rejected and the machine is left as it was. *)
Lemma mount_restores_nothing b stored20 stored721 provider (m : Machine C) :
  hook m = firstRender stored20 stored721 provider ->
  loadEffect b (hook m) m = (m, inr tt).
Proof.
  intros Hm. unfold loadEffect. destruct b; [|done].
  unfold bind. rewrite !restore_unresolved; by rewrite ?Hm.
Qed.

End Restore.

(** C2, evaluated.  The cache holds three ERC20 addresses, one of which
    (["0xbad"]) is not a contract.  Mounting with auto-restore enabled raises
    nothing, and registers no asset at all (not two): the registry is still
    empty and so is the list of setter calls. *)
Theorem restore_at_mount_registers_none :
  let m := Double.start (Double.ledger false false)
             (firstRender ["0xT"; "0xbad"; "0xV"] [] true) in
  (loadEffect true (hook m) m).2 = inr tt /\
  size (bridgeTokens (hook (mount true m))) = 0 /\
  published (mount true m) = [].
Proof.
  intros m. unfold mount.
  rewrite (mount_restores_nothing true ["0xT"; "0xbad"; "0xV"] [] true m eq_refl).
  by repeat split.
Qed.

(** Run from a render in which the identity is resolved, the same effect on
    the same cache does register the two contracts and skips the bad entry. *)
Example restore_after_resolution :
  let cl := with_ERC20Cache ["0xT"; "0xbad"; "0xV"] Double.resolved in
  let m := Double.start (Double.ledger false false) cl in
  (loadEffect true cl m).2 = inr tt /\
  dom (bridgeTokens (hook (loadEffect true cl m).1)) = {["0xT"; "0xV"]}.
Proof. vm_compute. split; reflexivity. Qed.

(** ** Publication of refreshed balances *)
Section Publication.

Context {C : Type} `{Connector C}.

Lemma refresh_loop_pure cl l acc :
  preserves (@id (Machine C)) (for_of l (refresh_one cl) acc).
Proof. apply preserves_for_of. intros s x. apply refresh_one_pure. Qed.

(** [updateEthBalances] calls its setter at most once. *)
Lemma updateEthBalances_published cl (m : Machine C) :
  published (updateEthBalances cl m).1 = published m \/
  published (updateEthBalances cl m).1 = setEthBalances :: published m.
Proof.
  unfold updateEthBalances.
  destruct (negb (arbProvider cl) || negb (truthy (vmId (config cl)))
            || negb (truthy (walletAddress (config cl)))); [by left|].
  rewrite bind_read. destruct (globalInboxConn (chain m)); [by left|].
  rewrite bind_read. destruct (getBalance (chain m)); [by left|].
  rewrite bind_read. destruct (arbGetBalance (chain m) _); [by left|].
  rewrite bind_read. destruct (getEthBalance (chain m) (vmId _)); [by left|].
  rewrite bind_read. destruct (getEthBalance (chain m) _); [by left|].
  cbv zeta. unfold deepEquals.
  case_bool_decide as Heq; simpl; [by left | by right].
Qed.

(** One run of [updateTokenBalances] calls the setter of each kind at most
    once. *)
Lemma updateTokenBalances_published cl ty (m : Machine C) :
  exists calls,
    published (updateTokenBalances cl ty m).1 = (calls ++ published m)%list /\
    (calls = [] \/ calls = [setErc20Balances] \/ calls = [setErc721Balances]
     \/ calls = [setErc721Balances; setErc20Balances]).
Proof.
  unfold updateTokenBalances.
  destruct (negb (arbProvider cl) || negb (truthy (walletAddress (config cl))));
    [exists []; by split; [|left]|].
  rewrite bind_read.
  destruct (globalInboxConn (chain m)); [exists []; by split; [|left]|].
  unfold bind at 1.
  pose proof (refresh_loop_pure cl (filtered cl ty) (∅, ∅) m) as Hpure.
  destruct (for_of (filtered cl ty) (refresh_one cl) (∅, ∅) m)
    as [m1 [e|updates]]; simpl in Hpure; unfold id in Hpure; subst m1.
  { exists []. by split; [|left]. }
  cbv zeta. unfold bind.
  destruct (negb (deepEquals (erc20Balances cl) updates.1)),
           (negb (deepEquals (erc721Balances cl) updates.2)); simpl.
  - exists [setErc721Balances; setErc20Balances]. split; [done|]. by do 3 right.
  - exists [setErc20Balances]. split; [done|]. by right; left.
  - exists [setErc721Balances]. split; [done|]. by do 2 right; left.
  - exists []. split; [done|]. by left.
Qed.

End Publication.

(** C3, evaluated.  With the ERC721 token ["0xU"] tracked and its balances
    published, a refresh restricted to ERC20 (the one [addToken] triggers for
    an ERC20 token) compares the published ERC721 map with the empty update
    map, finds them different and calls [setErc721Balances]: a snapshot is
    published although the chain is as it was at the last refresh and the
    new map equals the published one.  An unrestricted refresh in the same
    state publishes nothing. *)
Theorem filtered_refresh_republishes_other_kind :
  let m := tracking_nft in
  let m' := (updateTokenBalances (hook m) (Some ERC20) m).1 in
  is_Some (erc721Balances (hook m) !! "0xU") /\
  (updateTokenBalances (hook m) (Some ERC20) m).2 = inr tt /\
  published m' = setErc721Balances :: published m /\
  erc721Balances (hook m') = erc721Balances (hook m) /\
  hook m' = hook m /\
  published (updateTokenBalances (hook m) None m).1 = published m.
Proof.
  vm_compute. repeat split; try reflexivity. by eexists.
Qed.

(** ** The balance entry of a newly registered token *)
Section Entry.

Context {C : Type} `{Connector C}.

Lemma refresh_one_other cl acc contract (m m' : Machine C) acc' a :
  refresh_one cl acc contract m = (m', inr acc') ->
  eth contract <> a ->
  acc'.1 !! a = acc.1 !! a /\ acc'.2 !! a = acc.2 !! a.
Proof.
  unfold refresh_one. cbv zeta. intros Hrun Hne. destruct (type contract).
  - apply bind_inr in Hrun as (m1 & b & [-> _]%read_inr & Hrun).
    apply bind_inr in Hrun as (m2 & ab & [-> _]%read_inr & Hrun).
    apply bind_inr in Hrun as (m3 & lb & [-> _]%read_inr & Hrun).
    apply bind_inr in Hrun as (m4 & tb & [-> _]%read_inr & [_ ->]%ret_inr).
    simpl. by rewrite lookup_insert_ne.
  - apply bind_inr in Hrun as (m1 & b & [-> _]%read_inr & Hrun).
    apply bind_inr in Hrun as (m2 & ab & [-> _]%read_inr & Hrun).
    apply bind_inr in Hrun as (m3 & lb & [-> _]%read_inr & Hrun).
    apply bind_inr in Hrun as (m4 & tb & [-> _]%read_inr & [_ ->]%ret_inr).
    simpl. by rewrite lookup_insert_ne.
Qed.

Lemma refresh_loop_other cl l a :
  (forall contract, contract ∈ l -> eth contract <> a) ->
  forall acc (m m' : Machine C) acc',
    for_of l (refresh_one cl) acc m = (m', inr acc') ->
    acc'.1 !! a = acc.1 !! a /\ acc'.2 !! a = acc.2 !! a.
Proof.
  induction l as [|contract l IH]; intros Hl acc m m' acc' Hrun.
  - by apply ret_inr in Hrun as [_ ->].
  - simpl in Hrun. apply bind_inr in Hrun as (m1 & acc1 & Hone & Hrest).
    apply refresh_one_other with (a := a) in Hone as [H1 H2];
      [|apply Hl; by left].
    apply IH in Hrest as [H3 H4]; [|intros c Hc; apply Hl; by right].
    split; congruence.
Qed.

Lemma filtered_registered cl ty contract :
  contract ∈ filtered cl ty -> exists k, bridgeTokens cl !! k = Some contract.
Proof.
  unfold filtered. rewrite list_elem_of_In, filter_In, <- list_elem_of_In.
  intros [Hin _]. apply list_elem_of_fmap in Hin as ([k t] & -> & Hin).
  exists k. by apply elem_of_map_to_list in Hin.
Qed.

(** A refresh publishes entries for the tokens of its render only. *)
Lemma updateTokenBalances_other cl ty a :
  keyed_by_address cl -> bridgeTokens cl !! a = None ->
  preserves (entries a) (updateTokenBalances cl ty).
Proof.
  intros Hkeys Hnone m. unfold updateTokenBalances.
  destruct (negb (arbProvider cl) || negb (truthy (walletAddress (config cl))));
    [done|].
  rewrite bind_read. destruct (globalInboxConn (chain m)); [done|].
  unfold bind at 1.
  pose proof (refresh_loop_pure cl (filtered cl ty) (∅, ∅) m) as Hpure.
  destruct (for_of (filtered cl ty) (refresh_one cl) (∅, ∅) m)
    as [m1 [e|updates]] eqn:Hloop; simpl in Hpure; unfold id in Hpure; subst m1;
    [done|].
  apply refresh_loop_other with (a := a) in Hloop as [H20 H721].
  2:{ intros contract (k & Hk)%filtered_registered.
      rewrite (Hkeys k contract Hk). intros ->. congruence. }
  simpl in H20, H721. rewrite lookup_empty in H20. rewrite lookup_empty in H721.
  cbv zeta. unfold bind, entries, spread.
  destruct (negb (deepEquals (erc20Balances cl) updates.1)),
           (negb (deepEquals (erc721Balances cl) updates.2)); simpl;
    by rewrite ?lookup_union_r.
Qed.

(** Whatever [addToken] does on a call made from the current render, it
    leaves the balance entries of its address as they were: the refresh that
    closes it is the one of the render, whose registry lacks the address. *)
Lemma addToken_entries cl a ty :
  keyed_by_address cl -> preserves (entries a) (addToken cl a ty).
Proof.
  intros Hkeys. unfold addToken.
  destruct (negb (arbProvider cl) || negb (truthy (walletAddress (config cl))));
    [done|].
  apply preserves_bind; [done|]. intros code. cbv zeta.
  destruct (negb (2 <? String.length code)%nat); [done|].
  destruct (bool_decide (is_Some (bridgeTokens cl !! a))) eqn:Hpresent; [done|].
  apply bool_decide_eq_false in Hpresent.
  apply eq_None_not_Some in Hpresent.
  apply preserves_bind; [done|]. intros inboxManager.
  apply preserves_bind.
  { change (entries a) with
      (fun m : Machine C =>
         (fun h => (erc20Balances h !! a, erc721Balances h !! a)) (hook m)).
    destruct ty; [unfold connect_erc20 | unfold connect_erc721]; frame. }
  intros t. apply preserves_bind; [done|].
  intros _. by apply updateTokenBalances_other.
Qed.

End Entry.

(** C7, evaluated.  With the identity resolved and nothing registered,
    [addToken] on the ERC20 contract ["0xT"] returns normally and the registry
    holds the new record, yet neither balance map has an entry for ["0xT"]:
    the refresh that [addToken] awaits iterates the registry of the render in
    which the call was made, and that registry does not hold the new token. *)
Theorem addToken_returns_without_balance_entry :
  let m := Double.start (Double.ledger false false) Double.resolved in
  let run := addToken (hook m) "0xT" ERC20 m in
  run.2 = inr tt /\
  is_Some (bridgeTokens (hook run.1) !! "0xT") /\
  erc20Balances (hook run.1) !! "0xT" = None /\
  erc721Balances (hook run.1) !! "0xT" = None.
Proof.
  vm_compute. repeat split; try reflexivity. by eexists.
Qed.

(** The entry appears with the next refresh made from a later render, the
    one the balance effect starts when [updateAllBalances] changes. *)
Example entry_after_next_refresh :
  let m := (invoke balances_update tracking_token).1 in
  erc20Balances (hook tracking_token) !! "0xT" = None /\
  is_Some (erc20Balances (hook m) !! "0xT").
Proof. vm_compute. split; [reflexivity | by eexists]. Qed.

(** ** Runs on the ledger double *)

(** C1 fails for the ETH callbacks: on a chain that rejects the submission,
    [depositEth] returns normally although the submission failed. *)
Lemma depositEth_failure_not_thrown :
  let run := depositEth (hook rejecting) "1" rejecting in
  Exists (failed_with (Error "submission rejected")) (new_events rejecting run.1)
  /\ run.2 = inr tt
  /\ ~ surfaces (depositEth (hook rejecting) "1").
Proof.
  intros run.
  assert (Exists (failed_with (Error "submission rejected"))
            (new_events rejecting run.1)) as Hfail.
  { vm_compute. by apply Exists_cons_hd. }
  assert (run.2 = inr tt) as Hret by (by vm_compute).
  split; [done|]. split; [done|].
  intros Hs. specialize (Hs rejecting _ Hfail).
  fold run in Hs. rewrite Hret in Hs. discriminate.
Qed.

(** On the rejecting chain [depositToken] throws the rejection, and
    [depositEth] logs it and returns. *)
Lemma failures_thrown_by_token_calls_logged_by_eth_calls_witness :
  (depositToken (hook rejecting) "0xT" "1" rejecting).2
  = inl (Error "submission rejected") /\
  (depositEth (hook rejecting) "1" rejecting).2 = inr tt /\
  console (depositEth (hook rejecting) "1" rejecting).1
  = [("depositEth err: ", Error "submission rejected")].
Proof.
  destruct (@failures_thrown_by_token_calls_logged_by_eth_calls
              Double.Ledger Double.connector)
    as (Htoken & _ & _ & Heth & _ & _).
  split.
  - apply Htoken. vm_compute. by apply Exists_cons_hd.
  - apply (Heth (hook rejecting) "1" rejecting (Error "submission rejected")).
    vm_compute. by apply Exists_cons_hd.
Defined.


(** * Further properties of the callbacks *)

(** ** Refreshing the native balances *)
Section NativeRefresh.

Context {C : Type} `{Connector C}.

(** What a run of [updateEthBalances] does once its guard and its five reads
    go through. *)
Lemma updateEthBalances_ok cl (m : Machine C) i b ab tb lb :
  arbProvider cl = true ->
  truthy (vmId (config cl)) = true ->
  truthy (walletAddress (config cl)) = true ->
  globalInboxConn (chain m) = inr i ->
  getBalance (chain m) = inr b ->
  arbGetBalance (chain m) (walletAddress (config cl)) = inr ab ->
  getEthBalance (chain m) (vmId (config cl)) = inr tb ->
  getEthBalance (chain m) (walletAddress (config cl)) = inr lb ->
  updateEthBalances cl m
  = (if deepEquals (ethBalances cl) (eth_snapshot b ab tb lb) then m
     else (set_state setEthBalances
             (with_ethBalances (eth_snapshot b ab tb lb)) m).1,
     inr tt).
Proof.
  intros Hp Hv Hw Hi Hb Hab Htb Hlb. unfold updateEthBalances.
  rewrite Hp, Hv, Hw. simpl.
  rewrite bind_read, Hi, bind_read, Hb, bind_read, Hab, bind_read, Htb,
    bind_read, Hlb.
  cbv zeta. unfold eth_snapshot.
  by destruct (deepEquals (ethBalances cl) _).
Qed.

(** A normal return of [updateEthBalances] went through the guard and the
    five reads. *)
Lemma updateEthBalances_inr cl (m m' : Machine C) :
  updateEthBalances cl m = (m', inr tt) ->
  arbProvider cl = true /\
  truthy (vmId (config cl)) = true /\
  truthy (walletAddress (config cl)) = true /\
  exists i b ab tb lb,
    globalInboxConn (chain m) = inr i /\
    getBalance (chain m) = inr b /\
    arbGetBalance (chain m) (walletAddress (config cl)) = inr ab /\
    getEthBalance (chain m) (vmId (config cl)) = inr tb /\
    getEthBalance (chain m) (walletAddress (config cl)) = inr lb.
Proof.
  unfold updateEthBalances. intros Hrun.
  destruct (arbProvider cl), (truthy (vmId (config cl))),
    (truthy (walletAddress (config cl))); simpl in Hrun; try done.
  apply bind_inr in Hrun as (m1 & i & [-> Hi]%read_inr & Hrun).
  apply bind_inr in Hrun as (m2 & b & [-> Hb]%read_inr & Hrun).
  apply bind_inr in Hrun as (m3 & ab & [-> Hab]%read_inr & Hrun).
  apply bind_inr in Hrun as (m4 & tb & [-> Htb]%read_inr & Hrun).
  apply bind_inr in Hrun as (m5 & lb & [-> Hlb]%read_inr & Hrun).
  repeat split; try done. by exists i, b, ab, tb, lb.
Qed.

(** X1. When [updateEthBalances], called from the current render, returns
    normally, the published native balances are the four values it read:
    the signer's balance, the wallet's balance on the child chain, the inbox
    balance of the chain ([totalArbBalance]) and the inbox balance of the
    wallet ([lockBoxBalance]).  Nothing else of the hook state changes. *)
Theorem updateEthBalances_publishes_reads (m m' : Machine C) :
  updateEthBalances (hook m) m = (m', inr tt) ->
  exists b ab tb lb,
    getBalance (chain m) = inr b /\
    arbGetBalance (chain m) (walletAddress (config (hook m))) = inr ab /\
    getEthBalance (chain m) (vmId (config (hook m))) = inr tb /\
    getEthBalance (chain m) (walletAddress (config (hook m))) = inr lb /\
    hook m' = with_ethBalances
                {| balance := b; arbChainBalance := ab;
                   totalArbBalance := tb; lockBoxBalance := lb |} (hook m) /\
    chain m' = chain m /\ trace m' = trace m.
Proof.
  intros Hrun.
  destruct (updateEthBalances_inr _ _ _ Hrun)
    as (Hp & Hv & Hw & i & b & ab & tb & lb & Hi & Hb & Hab & Htb & Hlb).
  rewrite (updateEthBalances_ok _ _ i b ab tb lb) in Hrun by done.
  exists b, ab, tb, lb. repeat (split; [done|]).
  injection Hrun as <-. unfold deepEquals.
  case_bool_decide as Heq; simpl; [|done].
  split; [|done]. unfold eth_snapshot in Heq. rewrite <- Heq.
  by destruct (hook m).
Qed.

(** X2. A refresh of the native balances settles: after a normal return, a
    second [updateEthBalances] from the next render returns normally, calls
    no setter and leaves the machine as it is. *)
Theorem updateEthBalances_settles (m m' : Machine C) :
  updateEthBalances (hook m) m = (m', inr tt) ->
  updateEthBalances (hook m') m' = (m', inr tt).
Proof.
  intros Hrun.
  destruct (updateEthBalances_inr _ _ _ Hrun)
    as (Hp & Hv & Hw & i & b & ab & tb & lb & Hi & Hb & Hab & Htb & Hlb).
  rewrite (updateEthBalances_ok _ _ i b ab tb lb) in Hrun by done.
  assert (config (hook m') = config (hook m)
          /\ arbProvider (hook m') = arbProvider (hook m)
          /\ chain m' = chain m
          /\ ethBalances (hook m') = eth_snapshot b ab tb lb)
    as (Hcfg & Hprov & Hchain & Hbal).
  { injection Hrun as <-. unfold deepEquals.
    by case_bool_decide as Heq. }
  rewrite (updateEthBalances_ok _ _ i b ab tb lb)
    by (rewrite ?Hcfg, ?Hprov, ?Hchain; done).
  rewrite Hbal. unfold deepEquals. by rewrite bool_decide_eq_true_2.
Qed.

End NativeRefresh.

(** ** The ETH callbacks *)
Section NativeCalls.

Context {C : Type} `{Connector C}.

Lemma caught_returns (c : M C unit) prefix (m : Machine C) :
  (try_catch c (fun e => console_error prefix e) m).2 = inr tt.
Proof. unfold try_catch. by destruct (c m) as [m1 [e|[]]]. Qed.

(** X3. The ETH callbacks throw only before they submit anything: the guard
    error, or (for deposit and withdraw) the error of [parseEther]; the
    machine is then as it was.  Every later failure, of the transaction or of
    the refresh, is caught. *)
Theorem eth_calls_throw_only_before_submitting cl v (m : Machine C) e :
  ((depositEth cl v m).2 = inl e ->
   (depositEth cl v m).1 = m /\
   (e = Error "depositEth no arb wallet" \/ parseEther v = inl e)) /\
  ((withdrawEth cl v m).2 = inl e ->
   (withdrawEth cl v m).1 = m /\
   (e = Error "withdrawETH no arb wallet" \/ parseEther v = inl e)) /\
  ((withdrawLockboxETH cl m).2 = inl e ->
   (withdrawLockboxETH cl m).1 = m /\
   e = Error "withdrawLockboxETH no arb wallet").
Proof.
  split; [|split].
  - unfold depositEth.
    destruct (negb (arbProvider cl) || negb (truthy (walletAddress (config cl)))).
    { simpl. intros [= <-]. by split; [|left]. }
    unfold bind, lift. destruct (parseEther v) as [e0|wei].
    + simpl. intros [= <-]. by split; [|right].
    + by rewrite caught_returns.
  - unfold withdrawEth. destruct (negb (arbProvider cl)).
    { simpl. intros [= <-]. by split; [|left]. }
    unfold bind, lift. destruct (parseEther v) as [e0|wei].
    + simpl. intros [= <-]. by split; [|right].
    + by rewrite caught_returns.
  - unfold withdrawLockboxETH. destruct (negb (arbProvider cl)).
    { simpl. by intros [= <-]. }
    by rewrite caught_returns.
Qed.

(** X4. [depositEth] from the current render, when the deposit is submitted
    and included: the refresh that follows reads the chain as it is after
    inclusion, and the published native balances are those values.  The
    call returns normally and logs nothing. *)
Theorem depositEth_refreshes_after_inclusion
    (m : Machine C) v wei c1 p c2 r i b ab tb lb :
  arbProvider (hook m) = true ->
  truthy (walletAddress (config (hook m))) = true ->
  truthy (vmId (config (hook m))) = true ->
  parseEther v = inr wei ->
  submit (DepositETH (walletAddress (config (hook m))) wei) (chain m)
  = (c1, inr p) ->
  wait p c1 = (c2, inr r) ->
  globalInboxConn c2 = inr i ->
  getBalance c2 = inr b ->
  arbGetBalance c2 (walletAddress (config (hook m))) = inr ab ->
  getEthBalance c2 (vmId (config (hook m))) = inr tb ->
  getEthBalance c2 (walletAddress (config (hook m))) = inr lb ->
  (depositEth (hook m) v m).2 = inr tt /\
  chain (depositEth (hook m) v m).1 = c2 /\
  ethBalances (hook (depositEth (hook m) v m).1)
  = {| balance := b; arbChainBalance := ab;
       totalArbBalance := tb; lockBoxBalance := lb |} /\
  console (depositEth (hook m) v m).1 = console m /\
  trace (depositEth (hook m) v m).1
  = Waited p (inr r)
    :: Submitted (DepositETH (walletAddress (config (hook m))) wei) (inr p)
    :: trace m.
Proof.
  intros Hp Hw Hv Hparse Hsub Hwait Hi Hb Hab Htb Hlb.
  remember (depositEth (hook m) v m) as run eqn:Hrun.
  unfold depositEth in Hrun. rewrite Hp, Hw in Hrun. simpl in Hrun.
  unfold bind at 1, lift in Hrun. rewrite Hparse in Hrun.
  unfold try_catch, bind, send, tx_wait in Hrun.
  rewrite Hsub in Hrun. simpl in Hrun. rewrite Hwait in Hrun.
  rewrite (updateEthBalances_ok _ _ i b ab tb lb) in Hrun by done.
  subst run. unfold deepEquals, eth_snapshot.
  case_bool_decide as Heq; simpl; repeat split; done.
Qed.

End NativeCalls.

(** A deposit of one ether on the moving double: five ether at home before,
    four after, one in escrow and one on the child chain. *)
Lemma depositEth_refreshes_after_inclusion_witness :
  let m := Vault.start
             {| Vault.home := 5 * 10 ^ 18; Vault.child := 0; Vault.escrow := 0;
                Vault.lockbox := 0; Vault.pending := 0 |} Double.resolved in
  ethBalances (hook (depositEth (H := Vault.connector) (hook m) "1" m).1)
  = {| balance := 4 * 10 ^ 18; arbChainBalance := 10 ^ 18;
       totalArbBalance := 10 ^ 18; lockBoxBalance := 0 |}.
Proof.
  intros m.
  apply (depositEth_refreshes_after_inclusion (H := Vault.connector)
           m "1" (10 ^ 18)%Z
           {| Vault.home := 4 * 10 ^ 18; Vault.child := 0; Vault.escrow := 0;
              Vault.lockbox := 0; Vault.pending := 10 ^ 18 |}
           {| hash := "0xdeposit" |}
           {| Vault.home := 4 * 10 ^ 18; Vault.child := 10 ^ 18;
              Vault.escrow := 10 ^ 18; Vault.lockbox := 0; Vault.pending := 0 |}
           {| transactionHash := "0xdeposit"; status := 1 |}
           "0xInbox" (4 * 10 ^ 18)%Z (10 ^ 18)%Z (10 ^ 18)%Z 0%Z);
    vm_compute; reflexivity.
Defined.

(** A refresh of the native balances on the first double. *)
Lemma updateEthBalances_publishes_reads_witness :
  let m := Double.start (Double.ledger false false) Double.resolved in
  ethBalances (hook (updateEthBalances (hook m) m).1)
  = {| balance := 100; arbChainBalance := 100;
       totalArbBalance := 100; lockBoxBalance := 100 |}.
Proof.
  intros m.
  destruct (updateEthBalances_publishes_reads m (updateEthBalances (hook m) m).1)
    as (b & ab & tb & lb & Hb & Hab & Htb & Hlb & -> & _).
  { vm_compute. reflexivity. }
  vm_compute in Hb, Hab, Htb, Hlb.
  injection Hb as <-. injection Hab as <-. injection Htb as <-.
  injection Hlb as <-. reflexivity.
Defined.

(** The first refresh publishes, the second finds nothing to publish. *)
Lemma updateEthBalances_settles_witness :
  let m := Double.start (Double.ledger false false) Double.resolved in
  let m' := (updateEthBalances (hook m) m).1 in
  published m' = [setEthBalances] /\
  updateEthBalances (hook m') m' = (m', inr tt).
Proof.
  intros m m'. split; [vm_compute; reflexivity|].
  apply (updateEthBalances_settles m m'). vm_compute. reflexivity.
Defined.

(** An empty amount is rejected by [parseEther] before anything happens. *)
Lemma eth_calls_throw_only_before_submitting_witness :
  let m := Double.start (Double.ledger false false) Double.resolved in
  (depositEth (hook m) "" m).2 = inl (Error "invalid decimal value") /\
  (depositEth (hook m) "" m).1 = m.
Proof.
  intros m.
  assert ((depositEth (hook m) "" m).2 = inl (Error "invalid decimal value"))
    as Hthrow by (vm_compute; reflexivity).
  split; [exact Hthrow|].
  by destruct (proj1 (eth_calls_throw_only_before_submitting
                        (hook m) "" m _) Hthrow).
Defined.

(** ** One submission per call *)
Section OneShot.

Context {C : Type} `{Connector C}.

Lemma one_shot_silent {A} (c : M C A) : preserves (@trace C) c -> one_shot c.
Proof. intros Hc m. left. apply new_events_same, Hc. Qed.

Lemma one_shot_ext {A} (c1 c2 : M C A) :
  (forall m, c2 m = c1 m) -> one_shot c1 -> one_shot c2.
Proof. intros Heq Hc m. rewrite Heq. apply Hc. Qed.

Lemma one_shot_after_silent {A B} (c : M C A) (k : A -> M C B) :
  preserves (@trace C) c -> (forall a, one_shot (k a)) -> one_shot (bind c k).
Proof.
  intros Hc Hk m. unfold bind. specialize (Hc m).
  destruct (c m) as [m1 [e|a]]; simpl in *.
  - left. by apply new_events_same.
  - specialize (Hk a m1). unfold new_events in *. by rewrite <- Hc.
Qed.

Lemma one_shot_then_silent {A B} (c : M C A) (k : A -> M C B) :
  one_shot c -> (forall a, preserves (@trace C) (k a)) -> one_shot (bind c k).
Proof.
  intros Hc Hk m. unfold bind. specialize (Hc m).
  destruct (c m) as [m1 [e|a]]; simpl in *; [done|].
  specialize (Hk a m1). unfold new_events in *. by rewrite Hk.
Qed.

Lemma one_shot_try_catch {A} (c : M C A) h :
  one_shot c -> (forall e, preserves (@trace C) (h e)) ->
  one_shot (try_catch c h).
Proof.
  intros Hc Hh m. unfold try_catch. specialize (Hc m).
  destruct (c m) as [m1 [e|a]]; simpl in *; [|done].
  specialize (Hh e m1). unfold new_events in *. by rewrite Hh.
Qed.

Lemma one_shot_send_wait tx : one_shot (bind (send tx) tx_wait).
Proof.
  intros m. unfold bind, send, tx_wait.
  destruct (submit tx (chain m)) as [c1 [e1|p]]; simpl.
  - rewrite (new_events_app _ _ [Submitted tx (inl e1)]) by done.
    right; left. by exists tx, e1.
  - destruct (wait p c1) as [c2 r]; simpl.
    rewrite (new_events_app _ _ [Waited p r; Submitted tx (inr p)]) by done.
    right; right. by exists tx, p, r.
Qed.

Lemma one_shot_send_wait_then {A} tx (k : ContractReceipt -> M C A) :
  (forall r, preserves (@trace C) (k r)) ->
  one_shot (p <- send tx ;; r <- tx_wait p ;; k r).
Proof.
  intros Hk.
  apply (one_shot_ext (bind (bind (send tx) tx_wait) k)).
  { intros m. by rewrite bind_assoc. }
  apply one_shot_then_silent; [apply one_shot_send_wait | done].
Qed.

(** The callbacks that only read the chain and set state. *)
Lemma addToken_trace cl a ty : preserves (@trace C) (addToken cl a ty).
Proof.
  unfold addToken, connect_erc20, connect_erc721, updateTokenBalances,
    refresh_one.
  frame.
Qed.

Lemma addToken_chain cl a ty : preserves (@chain C) (addToken cl a ty).
Proof.
  unfold addToken, connect_erc20, connect_erc721, updateTokenBalances,
    refresh_one.
  frame.
Qed.

Lemma updateEthBalances_chain cl : preserves (@chain C) (updateEthBalances cl).
Proof. unfold updateEthBalances. frame. Qed.

Lemma updateAllBalances_keeps {X} (f : Machine C -> X) cl :
  preserves f (updateEthBalances cl) ->
  preserves f (updateTokenBalances cl None) ->
  preserves f (updateAllBalances cl).
Proof.
  intros H1 H2 m. unfold updateAllBalances.
  specialize (H1 m). destruct (updateEthBalances cl m) as [m1 r1].
  specialize (H2 m1). destruct (updateTokenBalances cl None m1) as [m2 r2].
  simpl in *. congruence.
Qed.

Lemma loadEffect_keeps_all {X} (f : Machine C -> X) b cl :
  (forall a ty, preserves f (addToken cl a ty)) ->
  preserves f (loadEffect b cl).
Proof.
  intros Hadd. unfold loadEffect. destruct b; [|apply preserves_ret].
  apply preserves_bind; [|intros _];
    apply preserves_for_of; intros _ address; apply preserves_fire, Hadd.
Qed.

Lemma expireCache_trace : preserves (@trace C) expireCache.
Proof. unfold expireCache. frame. Qed.

Lemma eth_body_one_shot cl tx prefix :
  one_shot
    (try_catch
       (p <- send tx ;; _ <- tx_wait p ;; updateEthBalances cl)
       (fun e => console_error prefix e)).
Proof.
  apply one_shot_try_catch; [|intros e; apply console_error_trace].
  apply one_shot_send_wait_then. intros _. apply updateEthBalances_trace.
Qed.

Lemma approveToken_one_shot cl a : one_shot (approveToken cl a).
Proof.
  unfold approveToken.
  destruct (negb (arbProvider cl)); [apply one_shot_silent; frame|].
  destruct (bridgeTokens cl !! a) as [contract|];
    [|apply one_shot_silent; frame].
  apply one_shot_after_silent; [frame|]. intros inboxManager.
  assert (forall r : ContractReceipt,
            preserves (@trace C) (mark_approved a ;;; ret r)) as Hmark.
  { intros r. apply preserves_bind; [|intros _; apply preserves_ret].
    intros m. unfold mark_approved.
    by destruct (bridgeTokens (hook m) !! a). }
  destruct (type contract); by apply one_shot_send_wait_then.
Qed.

Lemma depositToken_one_shot cl a x : one_shot (depositToken cl a x).
Proof.
  unfold depositToken.
  destruct (negb (arbProvider cl) || negb (truthy (walletAddress (config cl))));
    [apply one_shot_silent; frame|].
  destruct (bridgeTokens cl !! a) as [contract|];
    [|apply one_shot_silent; frame].
  destruct (type contract); [|apply one_shot_send_wait].
  eapply one_shot_ext; [intros m; apply bind_assoc|].
  apply one_shot_after_silent; [frame|]. intros amount.
  apply one_shot_send_wait.
Qed.

Lemma withdrawToken_one_shot cl a x : one_shot (withdrawToken cl a x).
Proof.
  unfold withdrawToken.
  destruct (negb (truthy (walletAddress (config cl))));
    [apply one_shot_silent; frame|].
  destruct (bridgeTokens cl !! a) as [contract|];
    [|apply one_shot_silent; frame].
  destruct (type contract); apply one_shot_send_wait.
Qed.

Lemma withdrawLockboxToken_one_shot cl a tokenId :
  one_shot (withdrawLockboxToken cl a tokenId).
Proof.
  unfold withdrawLockboxToken.
  destruct (negb (arbProvider cl)); [apply one_shot_silent; frame|].
  destruct (bridgeTokens cl !! a) as [contract|];
    [|apply one_shot_silent; frame].
  apply one_shot_after_silent; [frame|]. intros inboxManager.
  destruct (type contract); [apply one_shot_send_wait|].
  destruct (tokenId_given tokenId); [apply one_shot_send_wait|].
  apply one_shot_silent. intros m. by unfold bind, throw.
Qed.

(** X5. No call retries: whichever function of the surface is called, from
    whichever render, its run submits at most one transaction, and waits at
    most once, for the transaction it has just submitted. *)
Theorem every_call_submits_at_most_once cl (c : Call) :
  one_shot (call_from cl c).
Proof.
  destruct c; unfold call_from.
  - unfold depositEth. case_match; [apply one_shot_silent; frame|].
    apply one_shot_after_silent; [frame|]. intros wei.
    apply eth_body_one_shot.
  - unfold withdrawEth. case_match; [apply one_shot_silent; frame|].
    apply one_shot_after_silent; [frame|]. intros wei.
    apply eth_body_one_shot.
  - unfold withdrawLockboxETH. case_match; [apply one_shot_silent; frame|].
    eapply one_shot_ext.
    { intros m. apply try_catch_read_bind. }
    intros m. destruct (globalInboxConn (chain m)) as [e|inboxManager].
    + left. by apply new_events_same.
    + apply eth_body_one_shot.
  - apply one_shot_silent, updateEthBalances_trace.
  - apply one_shot_silent, addToken_trace.
  - unfold void. apply one_shot_then_silent; [apply approveToken_one_shot|].
    intros r. apply preserves_ret.
  - unfold void. apply one_shot_then_silent; [apply depositToken_one_shot|].
    intros r. apply preserves_ret.
  - unfold void. apply one_shot_then_silent; [apply withdrawToken_one_shot|].
    intros r. apply preserves_ret.
  - unfold void.
    apply one_shot_then_silent; [apply withdrawLockboxToken_one_shot|].
    intros r. apply preserves_ret.
  - apply one_shot_silent, updateTokenBalances_trace.
  - apply one_shot_silent, updateAllBalances_keeps;
      [apply updateEthBalances_trace | apply updateTokenBalances_trace].
  - apply one_shot_silent, expireCache_trace.
  - apply one_shot_silent, loadEffect_keeps_all. intros a ty.
    apply addToken_trace.
Qed.

(** X6. Registering a token, refreshing balances, restoring the cache and
    expiring it never submit a transaction and never change the chain. *)
Theorem registry_and_refresh_calls_submit_nothing cl (c : Call) (m : Machine C) :
  match c with
  | eth_updateBalances | token_add _ _ | token_updateBalances _
  | balances_update | cache_expire | effect_load _ =>
      chain (call_from cl c m).1 = chain m /\
      trace (call_from cl c m).1 = trace m
  | _ => True
  end.
Proof.
  destruct c; try done; unfold call_from; split.
  - apply updateEthBalances_chain.
  - apply updateEthBalances_trace.
  - apply addToken_chain.
  - apply addToken_trace.
  - apply updateTokenBalances_chain.
  - apply updateTokenBalances_trace.
  - apply updateAllBalances_keeps;
      [apply updateEthBalances_chain | apply updateTokenBalances_chain].
  - apply updateAllBalances_keeps;
      [apply updateEthBalances_trace | apply updateTokenBalances_trace].
  - apply loadEffect_keeps_all. intros a ty. apply addToken_chain.
  - apply loadEffect_keeps_all. intros a ty. apply addToken_trace.
Qed.

End OneShot.

(** ** The token transitions *)
Section Transitions.

Context {C : Type} `{Connector C}.

Lemma send_inr tx (m m' : Machine C) p :
  send tx m = (m', inr p) ->
  hook m' = hook m /\ trace m' = Submitted tx (inr p) :: trace m.
Proof.
  unfold send. destruct (submit tx (chain m)) as [c1 r].
  by intros [= <- ->].
Qed.

Lemma tx_wait_inr p (m m' : Machine C) r :
  tx_wait p m = (m', inr r) ->
  hook m' = hook m /\ trace m' = Waited p (inr r) :: trace m.
Proof.
  unfold tx_wait. destruct (wait p (chain m)) as [c1 r'].
  by intros [= <- ->].
Qed.

(** A normal return of submit-then-wait left exactly these two events. *)
Lemma send_wait_inr tx (m m' : Machine C) r :
  bind (send tx) tx_wait m = (m', inr r) ->
  hook m' = hook m /\
  exists p, trace m' = Waited p (inr r) :: Submitted tx (inr p) :: trace m.
Proof.
  intros (m1 & p & [Hh1 Ht1]%send_inr & [Hh2 Ht2]%tx_wait_inr)%bind_inr.
  split; [congruence|]. exists p. by rewrite Ht2, Ht1.
Qed.

Lemma surfaces_ext {A} (c1 c2 : M C A) :
  (forall m, c2 m = c1 m) -> surfaces c1 -> surfaces c2.
Proof. intros Heq Hc m e. rewrite Heq. apply Hc. Qed.

Lemma surfaces_then_silent {A B} (c : M C A) (k : A -> M C B) :
  surfaces c -> (forall a, preserves (@trace C) (k a)) -> surfaces (bind c k).
Proof.
  intros Hc Hk m e. unfold bind. specialize (Hc m e).
  destruct (c m) as [m1 [e1|a]]; simpl in *.
  { intros Hex. by injection (Hc Hex) as ->. }
  specialize (Hk a m1). unfold new_events in *. rewrite Hk.
  intros Hex. by specialize (Hc Hex).
Qed.

Lemma mark_approved_trace a (r : ContractReceipt) :
  preserves (@trace C) (mark_approved a ;;; ret r).
Proof.
  apply preserves_bind; [|intros _; apply preserves_ret].
  intros m. unfold mark_approved. by destruct (bridgeTokens (hook m) !! a).
Qed.

Lemma approveToken_surfaces cl a : surfaces (approveToken cl a).
Proof.
  unfold approveToken.
  destruct (negb (arbProvider cl)); [apply surfaces_silent; frame|].
  destruct (bridgeTokens cl !! a) as [contract|];
    [|apply surfaces_silent; frame].
  apply surfaces_read_bind. intros inboxManager.
  destruct (type contract).
  - apply (surfaces_ext
             (bind (bind (send (Approve (eth contract) inboxManager MIN_APPROVAL))
                      tx_wait)
                (fun r => mark_approved a ;;; ret r))).
    { intros m. by rewrite bind_assoc. }
    apply surfaces_then_silent; [apply surfaces_send_wait|].
    apply mark_approved_trace.
  - apply (surfaces_ext
             (bind (bind (send (SetApprovalForAll (eth contract) inboxManager true))
                      tx_wait)
                (fun r => mark_approved a ;;; ret r))).
    { intros m. by rewrite bind_assoc. }
    apply surfaces_then_silent; [apply surfaces_send_wait|].
    apply mark_approved_trace.
Qed.

(** X7. [approveToken] flips nothing unless the approval is included: a
    failure of submission or of inclusion is thrown to the caller, and
    whenever the call throws, for whatever reason, every cell of the hook
    state is as it was. *)
Theorem approveToken_failure_changes_nothing cl a :
  surfaces (approveToken cl a) /\
  forall (m : Machine C) e,
    (approveToken cl a m).2 = inl e -> hook (approveToken cl a m).1 = hook m.
Proof.
  split; [apply approveToken_surfaces|].
  intros m e He.
  destruct (approveToken_hook cl a m) as [[_ Hsame] | (t & r & _ & Hr & _)];
    [done | congruence].
Qed.

(** X8. When [approveToken] returns normally it has submitted one
    transaction and waited for it: for an ERC20 token the approval of the
    inbox manager for [MaxUint256], for an ERC721 token the operator approval
    of the inbox manager; the record now stored at the address is the
    current record with [allowed] set. *)
Theorem approveToken_submits_approval cl a (m m' : Machine C) r :
  approveToken cl a m = (m', inr r) ->
  exists t inboxManager p target,
    bridgeTokens cl !! a = Some t /\
    globalInboxConn (chain m) = inr inboxManager /\
    trace m'
    = Waited p (inr r)
      :: Submitted
           (match type t with
            | ERC20 => Approve (eth t) inboxManager MaxUint256
            | ERC721 => SetApprovalForAll (eth t) inboxManager true
            end) (inr p)
      :: trace m /\
    bridgeTokens (hook m) !! a = Some target /\
    bridgeTokens (hook m') = <[a := set_allowed target]> (bridgeTokens (hook m)).
Proof.
  intros Hrun.
  destruct (approveToken_hook cl a m)
    as [[(e & He) _] | (target & r' & Hcur & _ & Hhook)];
    rewrite Hrun in *; simpl in *; [done|].
  unfold approveToken in Hrun.
  destruct (negb (arbProvider cl)); [done|].
  destruct (bridgeTokens cl !! a) as [t|]; [|done].
  apply bind_inr in Hrun as (m1 & inboxManager & [-> Hi]%read_inr & Hrun).
  assert (exists tx,
            tx = match type t with
                 | ERC20 => Approve (eth t) inboxManager MaxUint256
                 | ERC721 => SetApprovalForAll (eth t) inboxManager true
                 end /\
            (p <- send tx ;; receipt <- tx_wait p ;;
             mark_approved a ;;; ret receipt) m = (m', inr r))
    as (tx & Htx & Hrun').
  { destruct (type t); eexists; (split; [reflexivity|exact Hrun]). }
  clear Hrun.
  apply bind_inr in Hrun' as (m2 & p & [_ Ht2]%send_inr & Hrun).
  apply bind_inr in Hrun as (m3 & r3 & [_ Ht3]%tx_wait_inr & Hrun).
  pose proof (mark_approved_trace a r3 m3) as Ht4. rewrite Hrun in Ht4.
  simpl in Ht4.
  apply bind_inr in Hrun as (m4 & [] & _ & [_ ->]%ret_inr).
  exists t, inboxManager, p, target. repeat (split; [done|]).
  rewrite <- Htx. split; [by rewrite Ht4, Ht3, Ht2|].
  split; [done|]. by rewrite Hhook.
Qed.

(** X9. The three token transitions return the receipt and refresh nothing:
    whatever their outcome, every cell of the hook state is as it was. *)
Theorem token_transitions_leave_state cl a x tokenId (m : Machine C) :
  hook (depositToken cl a x m).1 = hook m /\
  hook (withdrawToken cl a x m).1 = hook m /\
  hook (withdrawLockboxToken cl a tokenId m).1 = hook m.
Proof.
  split; [apply depositToken_hook|].
  split; [apply withdrawToken_hook | apply withdrawLockboxToken_hook].
Qed.

(** X10. On an address that the registry of the render does not hold and
    that is not a property name inherited by every object, approve, deposit,
    withdraw and lockbox claim all throw with the machine as it was, nothing
    being submitted; past their guards the errors are
    ['Contract <address> not present'] for approve and
    ['contract not present'] for the other three. *)
Theorem unregistered_token_calls_throw cl a x tokenId (m : Machine C) :
  inherited_key a = false ->
  bridgeTokens cl !! a = None ->
  exists e1 e2 e3 e4,
    approveToken cl a m = (m, inl e1) /\
    depositToken cl a x m = (m, inl e2) /\
    withdrawToken cl a x m = (m, inl e3) /\
    withdrawLockboxToken cl a tokenId m = (m, inl e4) /\
    (arbProvider cl = true ->
     truthy (walletAddress (config cl)) = true ->
     e1 = Error ("Contract " +:+ a +:+ " not present") /\
     e2 = Error "contract not present" /\
     e3 = Error "contract not present" /\
     e4 = Error "contract not present").
Proof.
  intros _ Hnone.
  unfold approveToken, depositToken, withdrawToken, withdrawLockboxToken.
  rewrite Hnone.
  destruct (arbProvider cl), (truthy (walletAddress (config cl))); simpl;
    do 4 eexists; repeat (split; [reflexivity|]); intros; try done.
Qed.

(** X11. What a token transition has submitted when it returns normally, for
    a record [t] held at the address: exactly one transaction, waited for.
    Deposit: for ERC20 the amount parsed at the decimals of the token, for
    ERC721 the identifier as given.  Withdraw: the withdraw call on the
    child-chain contract.  Lockbox claim: the inbox withdrawal of the token,
    with the identifier for ERC721. *)
Theorem token_transitions_submit cl a t (m m' : Machine C) r :
  bridgeTokens cl !! a = Some t ->
  let wallet := walletAddress (config cl) in
  (forall x, depositToken cl a x m = (m', inr r) ->
     exists p tx,
       trace m' = Waited p (inr r) :: Submitted tx (inr p) :: trace m /\
       match type t with
       | ERC20 =>
           exists amount,
             parseUnits x (default 18%Z (units t)) = inr amount /\
             tx = DepositERC20 wallet (eth t) amount
       | ERC721 => tx = DepositERC721 wallet (eth t) x
       end) /\
  (forall x, withdrawToken cl a x m = (m', inr r) ->
     exists p,
       trace m'
       = Waited p (inr r) :: Submitted (Withdraw (arb t) wallet x) (inr p)
         :: trace m) /\
  (forall tokenId, withdrawLockboxToken cl a tokenId m = (m', inr r) ->
     exists p tx,
       trace m' = Waited p (inr r) :: Submitted tx (inr p) :: trace m /\
       match type t with
       | ERC20 => tx = InboxWithdrawERC20 (eth t)
       | ERC721 =>
           exists id, tokenId = Some id /\ id <> "" /\
                      tx = InboxWithdrawERC721 (eth t) id
       end).
Proof.
  intros Hlook wallet. split; [|split].
  - intros x Hrun. unfold depositToken in Hrun.
    destruct (negb (arbProvider cl) || negb (truthy (walletAddress (config cl))));
      [done|].
    rewrite Hlook in Hrun. destruct (type t).
    + rewrite bind_assoc in Hrun.
      apply bind_inr in Hrun as (m1 & amount & Hparse & Hrun).
      unfold lift in Hparse. injection Hparse as <- Hparse.
      apply send_wait_inr in Hrun as (_ & p & Htr).
      exists p, (DepositERC20 wallet (eth t) amount). split; [done|].
      by exists amount.
    + apply send_wait_inr in Hrun as (_ & p & Htr). by eexists p, _.
  - intros x Hrun. unfold withdrawToken in Hrun.
    destruct (negb (truthy (walletAddress (config cl)))); [done|].
    rewrite Hlook in Hrun.
    destruct (type t); apply send_wait_inr in Hrun as (_ & p & Htr);
      by exists p.
  - intros tokenId Hrun. unfold withdrawLockboxToken in Hrun.
    destruct (negb (arbProvider cl)); [done|].
    rewrite Hlook in Hrun.
    apply bind_inr in Hrun as (m1 & inboxManager & [-> _]%read_inr & Hrun).
    destruct (type t).
    + apply send_wait_inr in Hrun as (_ & p & Htr). by eexists p, _.
    + destruct tokenId as [id|]; simpl in Hrun; [|done].
      destruct id as [|ch id]; simpl in Hrun; [done|].
      apply send_wait_inr in Hrun as (_ & p & Htr).
      eexists p, _. split; [done|]. by eexists.
Qed.

End Transitions.

(** ** The registry *)
Section RegistryFacts.

Context {C : Type} `{Connector C}.

Lemma for_of_maintains {A S} (P : Machine C -> Prop) (l : list A)
    (body : S -> A -> M C S) :
  (forall s x m, x ∈ l -> P m -> P (body s x m).1) ->
  forall s m, P m -> P (for_of l body s m).1.
Proof.
  induction l as [|x l IH]; intros Hb s m Hm; [done|].
  simpl. unfold bind.
  pose proof (Hb s x m (list_elem_of_here _ _) Hm) as Hx.
  destruct (body s x m) as [m1 [e|s']]; [done|].
  apply IH; [|done]. intros s0 y m0 Hy. apply Hb. by right.
Qed.

(** The records built by the two branches of [addToken]. *)
Lemma connect_erc20_record cl a inboxManager (m m' : Machine C) t :
  connect_erc20 cl a inboxManager m = (m', inr t) ->
  type t = ERC20 /\ eth t = a /\ arb t = a /\ is_Some (units t).
Proof.
  unfold connect_erc20. cbv zeta. intros Hrun.
  apply bind_inr in Hrun as (m1 & al & _ & Hrun).
  apply bind_inr in Hrun as (m2 & nm & _ & Hrun).
  apply bind_inr in Hrun as (m3 & un & _ & Hrun).
  apply bind_inr in Hrun as (m4 & sy & _ & Hrun).
  apply bind_inr in Hrun as (m5 & [] & _ & [_ ->]%ret_inr).
  by repeat split.
Qed.

Lemma connect_erc721_record cl a inboxManager (m m' : Machine C) t :
  connect_erc721 cl a inboxManager m = (m', inr t) ->
  type t = ERC721 /\ eth t = a /\ arb t = a /\ units t = None.
Proof.
  unfold connect_erc721. cbv zeta. intros Hrun.
  apply bind_inr in Hrun as (m1 & nm & _ & Hrun).
  apply bind_inr in Hrun as (m2 & sy & _ & Hrun).
  apply bind_inr in Hrun as (m3 & al & _ & Hrun).
  apply bind_inr in Hrun as (m4 & [] & _ & [_ ->]%ret_inr).
  by repeat split.
Qed.

(** The registry after a run of [addToken], whatever the render and
    whatever the outcome. *)
Lemma addToken_registry cl a ty (m : Machine C) :
  ((exists e, (addToken cl a ty m).2 = inl e) /\
   bridgeTokens (hook (addToken cl a ty m).1) = bridgeTokens (hook m)) \/
  (bridgeTokens cl !! a = None /\
   exists t,
     bridgeTokens (hook (addToken cl a ty m).1)
     = <[a := t]> (bridgeTokens (hook m)) /\
     type t = ty /\ eth t = a /\ arb t = a).
Proof.
  remember (addToken cl a ty m) as run eqn:Hrun. unfold addToken in Hrun.
  assert (forall e, run = (m, inl e) ->
            (exists e, run.2 = inl e) /\
            bridgeTokens (hook run.1) = bridgeTokens (hook m)) as Hthrown.
  { intros e ->. split; [by exists e | done]. }
  destruct (negb (arbProvider cl) || negb (truthy (walletAddress (config cl))));
    [left; by eapply Hthrown|].
  rewrite bind_read in Hrun.
  destruct (getCode (chain m) a) as [e|code]; [left; by eapply Hthrown|].
  cbv zeta in Hrun.
  destruct (negb (2 <? String.length code)%nat); [left; by eapply Hthrown|].
  destruct (bool_decide (is_Some (bridgeTokens cl !! a))) eqn:Hpresent;
    [left; by eapply Hthrown|].
  apply bool_decide_eq_false, eq_None_not_Some in Hpresent.
  rewrite bind_read in Hrun.
  destruct (globalInboxConn (chain m)) as [e|inboxManager];
    [left; by eapply Hthrown|].
  unfold bind at 1 in Hrun.
  destruct (match ty with
            | ERC20 => connect_erc20 cl a inboxManager
            | ERC721 => connect_erc721 cl a inboxManager
            end m) as [m1 [e|t]] eqn:Hconn.
  { left. subst run. simpl. split; [by exists e|].
    destruct ty.
    - pose proof (connect_erc20_bridgeTokens cl a inboxManager m) as Hfr.
      by rewrite Hconn in Hfr.
    - pose proof (connect_erc721_bridgeTokens cl a inboxManager m) as Hfr.
      by rewrite Hconn in Hfr. }
  assert (bridgeTokens (hook m1) = bridgeTokens (hook m)
          /\ type t = ty /\ eth t = a /\ arb t = a) as (Hbt & Hty & Heth & Harb).
  { destruct ty.
    - pose proof (connect_erc20_bridgeTokens cl a inboxManager m) as Hfr.
      rewrite Hconn in Hfr.
      by apply connect_erc20_record in Hconn as (? & ? & ? & _).
    - pose proof (connect_erc721_bridgeTokens cl a inboxManager m) as Hfr.
      rewrite Hconn in Hfr.
      by apply connect_erc721_record in Hconn as (? & ? & ? & _). }
  right. split; [done|]. exists t. split; [|done].
  subst run. unfold bind, set_state.
  match goal with |- context [updateTokenBalances cl (Some ty) ?m2] =>
    pose proof (updateTokenBalances_bridgeTokens cl (Some ty) m2) as Hfr;
    destruct (updateTokenBalances cl (Some ty) m2) as [m3 r3]
  end.
  simpl in *. by rewrite Hfr, Hbt.
Qed.

(** The record returned by a branch of [addToken] is the one its reads fix,
    and a branch whose reads succeed returns it. *)
Lemma connect_built cl a ty inboxManager (m m1 : Machine C) t :
  globalInboxConn (chain m) = inr inboxManager ->
  match ty with
  | ERC20 => connect_erc20 cl a inboxManager
  | ERC721 => connect_erc721 cl a inboxManager
  end m = (m1, inr t) ->
  registered_from (chain m) cl a ty t.
Proof.
  intros Hinbox Hrun. exists inboxManager. split; [done|]. destruct ty.
  - unfold connect_erc20 in Hrun. cbv zeta in Hrun.
    apply bind_inr in Hrun as (m2 & al & [-> Hal]%read_inr & Hrun).
    apply bind_inr in Hrun as (m3 & nm & [-> Hnm]%read_inr & Hrun).
    apply bind_inr in Hrun as (m4 & un & [-> Hun]%read_inr & Hrun).
    apply bind_inr in Hrun as (m5 & sy & [-> Hsy]%read_inr & Hrun).
    apply bind_inr in Hrun as (m6 & [] & _ & [_ ->]%ret_inr).
    by exists al, nm, un, sy.
  - unfold connect_erc721 in Hrun. cbv zeta in Hrun.
    apply bind_inr in Hrun as (m2 & nm & [-> Hnm]%read_inr & Hrun).
    apply bind_inr in Hrun as (m3 & sy & [-> Hsy]%read_inr & Hrun).
    apply bind_inr in Hrun as (m4 & al & [-> Hal]%read_inr & Hrun).
    apply bind_inr in Hrun as (m5 & [] & _ & [_ ->]%ret_inr).
    by exists nm, sy, al.
Qed.

Lemma connect_runs cl a ty inboxManager (m : Machine C) t :
  globalInboxConn (chain m) = inr inboxManager ->
  registered_from (chain m) cl a ty t ->
  exists m1,
    match ty with
    | ERC20 => connect_erc20 cl a inboxManager
    | ERC721 => connect_erc721 cl a inboxManager
    end m = (m1, inr t) /\
    chain m1 = chain m /\ trace m1 = trace m /\
    bridgeTokens (hook m1) = bridgeTokens (hook m).
Proof.
  intros Hinbox (i & Hi & Hreads).
  assert (i = inboxManager) as -> by congruence.
  destruct ty.
  - destruct Hreads as (al & nm & un & sy & Hal & Hnm & Hun & Hsy & ->).
    unfold connect_erc20. cbv zeta.
    rewrite bind_read, Hal, bind_read, Hnm, bind_read, Hun, bind_read, Hsy.
    destruct (bool_decide (a ∈ ERC20Cache cl)); simpl;
      eexists; (split; [reflexivity|]); by repeat split.
  - destruct Hreads as (nm & sy & al & Hnm & Hsy & Hal & ->).
    unfold connect_erc721. cbv zeta.
    rewrite bind_read, Hnm, bind_read, Hsy, bind_read, Hal.
    destruct (bool_decide (a ∈ ERC721Cache cl)); simpl;
      eexists; (split; [reflexivity|]); by repeat split.
Qed.

(** The fields of a record fixed by the reads of a call. *)
Lemma registered_from_fields (c : C) cl a ty t :
  registered_from c cl a ty t ->
  type t = ty /\ eth t = a /\ arb t = a /\
  (units t = None <-> ty = ERC721) /\
  observed_approval c cl a ty (allowed t).
Proof.
  intros (i & Hi & Hreads). destruct ty.
  - destruct Hreads as (al & nm & un & sy & Hal & _ & _ & _ & ->). simpl.
    repeat split; try done.
    exists i. split; [done|]. exists al. split; [done|].
    unfold MIN_APPROVAL. apply Z.leb_le.
  - destruct Hreads as (nm & sy & al & _ & _ & Hal & ->). simpl.
    repeat split; try done.
    exists i. by split.
Qed.

(** The reads of a call fix one record. *)
Lemma registered_from_unique (c : C) cl a ty t t' :
  registered_from c cl a ty t -> registered_from c cl a ty t' -> t = t'.
Proof.
  intros (i & Hi & Hreads) (i' & Hi' & Hreads').
  assert (i' = i) as -> by congruence.
  destruct ty.
  - destruct Hreads as (al & nm & un & sy & Hal & Hnm & Hun & Hsy & ->).
    destruct Hreads' as (al' & nm' & un' & sy' & Hal' & Hnm' & Hun' & Hsy' & ->).
    congruence.
  - destruct Hreads as (nm & sy & al & Hnm & Hsy & Hal & ->).
    destruct Hreads' as (nm' & sy' & al' & Hnm' & Hsy' & Hal' & ->).
    congruence.
Qed.

(** The registry after a run of [addToken], with the inserted record fixed
    by the reads of the call. *)
Lemma addToken_registry_built cl a ty (m : Machine C) :
  ((exists e, (addToken cl a ty m).2 = inl e) /\
   bridgeTokens (hook (addToken cl a ty m).1) = bridgeTokens (hook m)) \/
  (bridgeTokens cl !! a = None /\
   exists t,
     bridgeTokens (hook (addToken cl a ty m).1)
     = <[a := t]> (bridgeTokens (hook m)) /\
     registered_from (chain m) cl a ty t).
Proof.
  remember (addToken cl a ty m) as run eqn:Hrun. unfold addToken in Hrun.
  assert (forall e, run = (m, inl e) ->
            (exists e, run.2 = inl e) /\
            bridgeTokens (hook run.1) = bridgeTokens (hook m)) as Hthrown.
  { intros e ->. split; [by exists e | done]. }
  destruct (negb (arbProvider cl) || negb (truthy (walletAddress (config cl))));
    [left; by eapply Hthrown|].
  rewrite bind_read in Hrun.
  destruct (getCode (chain m) a) as [e|code]; [left; by eapply Hthrown|].
  cbv zeta in Hrun.
  destruct (negb (2 <? String.length code)%nat); [left; by eapply Hthrown|].
  destruct (bool_decide (is_Some (bridgeTokens cl !! a))) eqn:Hpresent;
    [left; by eapply Hthrown|].
  apply bool_decide_eq_false, eq_None_not_Some in Hpresent.
  rewrite bind_read in Hrun.
  destruct (globalInboxConn (chain m)) as [e|inboxManager] eqn:Hinbox;
    [left; by eapply Hthrown|].
  unfold bind at 1 in Hrun.
  destruct (match ty with
            | ERC20 => connect_erc20 cl a inboxManager
            | ERC721 => connect_erc721 cl a inboxManager
            end m) as [m1 [e|t]] eqn:Hconn.
  { left. subst run. simpl. split; [by exists e|].
    destruct ty.
    - pose proof (connect_erc20_bridgeTokens cl a inboxManager m) as Hfr.
      by rewrite Hconn in Hfr.
    - pose proof (connect_erc721_bridgeTokens cl a inboxManager m) as Hfr.
      by rewrite Hconn in Hfr. }
  assert (bridgeTokens (hook m1) = bridgeTokens (hook m)) as Hbt.
  { destruct ty.
    - pose proof (connect_erc20_bridgeTokens cl a inboxManager m) as Hfr.
      by rewrite Hconn in Hfr.
    - pose proof (connect_erc721_bridgeTokens cl a inboxManager m) as Hfr.
      by rewrite Hconn in Hfr. }
  right. split; [done|]. exists t.
  split; [|by eapply connect_built].
  subst run. unfold bind, set_state.
  match goal with |- context [updateTokenBalances cl (Some ty) ?m2] =>
    pose proof (updateTokenBalances_bridgeTokens cl (Some ty) m2) as Hfr;
    destruct (updateTokenBalances cl (Some ty) m2) as [m3 r3]
  end.
  simpl in *. by rewrite Hfr, Hbt.
Qed.

(** With its guards passed and the reads of the record succeeding,
    [addToken] is the insertion of the record followed by the refresh of its
    render. *)
Lemma addToken_runs cl a ty (m : Machine C) code t :
  arbProvider cl = true ->
  truthy (walletAddress (config cl)) = true ->
  getCode (chain m) a = inr code ->
  (2 < String.length code)%nat ->
  bridgeTokens cl !! a = None ->
  registered_from (chain m) cl a ty t ->
  exists m2,
    addToken cl a ty m = updateTokenBalances cl (Some ty) m2 /\
    chain m2 = chain m /\ trace m2 = trace m /\
    bridgeTokens (hook m2) = <[a := t]> (bridgeTokens (hook m)).
Proof.
  intros Hp Hw Hcode Hlen Hnone Hreg.
  pose proof Hreg as (inboxManager & Hinbox & _).
  destruct (connect_runs cl a ty inboxManager m t Hinbox Hreg)
    as (m1 & Hconn & Hch & Htr & Hbt).
  unfold addToken. rewrite Hp, Hw. simpl.
  rewrite bind_read, Hcode. cbv zeta.
  rewrite (proj2 (Nat.ltb_lt 2 (String.length code)) Hlen). simpl.
  rewrite Hnone, bool_decide_eq_false_2 by (by intros [? ?]).
  rewrite bind_read, Hinbox.
  unfold bind at 1. rewrite Hconn.
  unfold bind, set_state.
  eexists. split; [reflexivity|]. simpl. by rewrite Hbt.
Qed.

(** X12. [addToken] never leaves a partial record.  After a run, from any
    render and with any outcome, the registry is as it was, or it differs
    from what it was at the address of the call only, where it now holds the
    record that the reads of this call fix in every field: the requested
    kind, the name and the symbol read, the approval state read, the
    decimals read for ERC20 and none for ERC721, and both handles connected
    to the address.  That record is a new binding, or it replaces one that
    the render of the call does not hold.  The second case needs the render
    not to hold the address, and it is the case of every normal return. *)
Theorem addToken_registers_atomically cl a ty (m : Machine C) :
  (bridgeTokens (hook (addToken cl a ty m).1) = bridgeTokens (hook m) \/
   (bridgeTokens cl !! a = None /\
    exists t,
      bridgeTokens (hook (addToken cl a ty m).1)
      = <[a := t]> (bridgeTokens (hook m)) /\
      registered_from (chain m) cl a ty t /\
      type t = ty /\ eth t = a /\ arb t = a /\
      (units t = None <-> ty = ERC721))) /\
  ((addToken cl a ty m).2 = inr tt ->
   bridgeTokens cl !! a = None /\
   exists t,
     bridgeTokens (hook (addToken cl a ty m).1)
     = <[a := t]> (bridgeTokens (hook m)) /\
     registered_from (chain m) cl a ty t /\
     type t = ty /\ eth t = a /\ arb t = a /\
     (units t = None <-> ty = ERC721)).
Proof.
  destruct (addToken_registry_built cl a ty m)
    as [[(e & He) Hsame] | (Hnone & t & Hins & Hreg)].
  - split; [by left|]. by rewrite He.
  - destruct (registered_from_fields _ _ _ _ _ Hreg)
      as (Hty & Heth & Harb & Hun & _).
    split; [right|]; (split; [done|]); by exists t.
Qed.

(** C6. The record that [addToken] registers carries the approval state
    read from the chain during the call.
    - When [addToken] returns normally, the registry holds at the address
      the record fixed by the reads of the call; its [allowed] flag is the
      observed approval state: for ERC20, true exactly when the allowance
      granted to the inbox is at least [MaxUint256]; for ERC721, the answer
      of [isApprovedForAll].  Nothing was submitted.
    - When the guards are passed (provider and wallet address present, code
      at the address, address not held by the render) and the reads of the
      record succeed, [addToken] does insert that record, submitting
      nothing, and goes on with the refresh of its render: after the run the
      registry holds the record, whatever the refresh does. *)
Theorem addToken_registers_observed_approval cl a ty (m : Machine C) :
  (forall m',
     addToken cl a ty m = (m', inr tt) ->
     exists t,
       bridgeTokens (hook m') !! a = Some t /\
       registered_from (chain m) cl a ty t /\
       type t = ty /\
       observed_approval (chain m) cl a ty (allowed t) /\
       trace m' = trace m) /\
  (forall code t,
     arbProvider cl = true ->
     truthy (walletAddress (config cl)) = true ->
     getCode (chain m) a = inr code ->
     (2 < String.length code)%nat ->
     bridgeTokens cl !! a = None ->
     registered_from (chain m) cl a ty t ->
     bridgeTokens (hook (addToken cl a ty m).1) !! a = Some t /\
     observed_approval (chain m) cl a ty (allowed t) /\
     trace (addToken cl a ty m).1 = trace m /\
     exists m2,
       addToken cl a ty m = updateTokenBalances cl (Some ty) m2 /\
       bridgeTokens (hook m2) = <[a := t]> (bridgeTokens (hook m)) /\
       chain m2 = chain m).
Proof.
  split.
  - intros m' Hrun.
    destruct (addToken_registry_built cl a ty m)
      as [[(e & He) _] | (_ & t & Hins & Hreg)];
      rewrite Hrun in *; [done|]. simpl in Hins.
    destruct (registered_from_fields _ _ _ _ _ Hreg)
      as (Hty & _ & _ & _ & Hobs).
    exists t. rewrite Hins, lookup_insert_eq.
    repeat (split; [done|]).
    pose proof (addToken_trace cl a ty m) as Htr. by rewrite Hrun in Htr.
  - intros code t Hp Hw Hcode Hlen Hnone Hreg.
    destruct (addToken_runs cl a ty m code t Hp Hw Hcode Hlen Hnone Hreg)
      as (m2 & Hrun & Hch & Htr & Hbt).
    destruct (registered_from_fields _ _ _ _ _ Hreg) as (_ & _ & _ & _ & Hobs).
    split; [|split; [done|split]].
    + rewrite Hrun.
      rewrite (updateTokenBalances_bridgeTokens cl (Some ty) m2), Hbt.
      apply lookup_insert_eq.
    + apply addToken_trace.
    + by exists m2.
Qed.

(** A property of the registry that survives the insertion of a record
    under its own address and the setting of [allowed] on a record survives
    every call. *)
Lemma call_from_registry_inv (Q : gmap string BridgeToken -> Prop) cl
    (c : Call) (m : Machine C) :
  (forall bt a t, Q bt -> eth t = a -> Q (<[a := t]> bt)) ->
  (forall bt a t, Q bt -> bt !! a = Some t -> Q (<[a := set_allowed t]> bt)) ->
  Q (bridgeTokens (hook m)) ->
  Q (bridgeTokens (hook (call_from cl c m).1)).
Proof.
  intros Hins Hset HQ.
  assert (forall a ty m0, Q (bridgeTokens (hook m0)) ->
            Q (bridgeTokens (hook (addToken cl a ty m0).1))) as Hadd.
  { intros a ty m0 H0.
    destruct (addToken_registry cl a ty m0)
      as [[_ ->] | (_ & t & -> & _ & Heth & _)]; [done|].
    by apply Hins. }
  destruct c; unfold call_from.
  - by rewrite (depositEth_bridgeTokens cl ethValue m).
  - by rewrite (withdrawEth_bridgeTokens cl ethValue m).
  - by rewrite (withdrawLockboxETH_bridgeTokens cl m).
  - by rewrite (updateEthBalances_bridgeTokens cl m).
  - by apply Hadd.
  - rewrite void_machine.
    destruct (approveToken_hook cl contractAddress m)
      as [[_ ->] | (target & r & Hcur & _ & ->)]; [done|].
    simpl. by apply Hset.
  - by rewrite void_machine, (depositToken_hook cl _ _ m).
  - by rewrite void_machine, (withdrawToken_hook cl _ _ m).
  - by rewrite void_machine, (withdrawLockboxToken_hook cl _ _ m).
  - by rewrite (updateTokenBalances_bridgeTokens cl ty m).
  - by rewrite (updateAllBalances_bridgeTokens cl m).
  - by rewrite (expireCache_bridgeTokens m).
  - unfold loadEffect. destruct autoLoadCache; [|done].
    unfold bind.
    pose proof (for_of_maintains (fun m0 => Q (bridgeTokens (hook m0)))
                  (ERC20Cache cl)
                  (fun _ address => fire (addToken cl address ERC20))) as H20.
    specialize (H20 (fun _ x m0 _ H0 => Hadd x ERC20 m0 H0) tt m HQ).
    destruct (for_of (ERC20Cache cl) _ tt m) as [m1 [e|[]]]; [done|].
    apply (for_of_maintains (fun m0 => Q (bridgeTokens (hook m0)))); [|done].
    intros _ x m0 _ H0. by apply Hadd.
Qed.

(** X13. The registry stays keyed by contract address: if every record sits
    at the address of its home-chain contract, it is still so after any call
    of the surface, from any render. *)
Theorem registry_stays_keyed cl (c : Call) (m : Machine C) :
  keyed_by_address (hook m) ->
  keyed_by_address (hook (call_from cl c m).1).
Proof.
  unfold keyed_by_address.
  apply (call_from_registry_inv
           (fun bt => forall k t, bt !! k = Some t -> eth t = k)).
  - intros bt a t Hbt Heth k t'.
    destruct (decide (a = k)) as [->|Hne].
    + rewrite lookup_insert_eq. by intros [= <-].
    + rewrite lookup_insert_ne by done. apply Hbt.
  - intros bt a t Hbt Hlook k t'.
    destruct (decide (a = k)) as [->|Hne].
    + rewrite lookup_insert_eq. intros [= <-]. simpl. by apply Hbt.
    + rewrite lookup_insert_ne by done. apply Hbt.
Qed.

(** X14. Nothing is ever unregistered: an address that the registry holds is
    still held after any call of the surface, from any render, cache expiry
    included. *)
Theorem registered_stays_registered cl (c : Call) (m : Machine C) a :
  is_Some (bridgeTokens (hook m) !! a) ->
  is_Some (bridgeTokens (hook (call_from cl c m).1) !! a).
Proof.
  apply (call_from_registry_inv (fun bt => is_Some (bt !! a))).
  - intros bt a' t Hbt _. rewrite lookup_insert_is_Some.
    destruct (decide (a' = a)); [by left | by right].
  - intros bt a' t Hbt _. rewrite lookup_insert_is_Some.
    destruct (decide (a' = a)); [by left | by right].
Qed.

End RegistryFacts.

(** ** The persisted cache *)
Section CacheFacts.

Context {C : Type} `{Connector C}.

Lemma updateTokenBalances_caches cl ty :
  preserves (fun m : Machine C => (ERC20Cache (hook m), ERC721Cache (hook m)))
    (updateTokenBalances cl ty).
Proof. unfold updateTokenBalances, refresh_one. frame. Qed.

Lemma connect_erc20_cache cl a inboxManager (m m' : Machine C) t :
  connect_erc20 cl a inboxManager m = (m', inr t) ->
  ERC20Cache (hook m')
  = (if bool_decide (a ∈ ERC20Cache cl) then ERC20Cache (hook m)
     else (ERC20Cache cl ++ [a])%list) /\
  ERC721Cache (hook m') = ERC721Cache (hook m).
Proof.
  unfold connect_erc20. cbv zeta. intros Hrun.
  apply bind_inr in Hrun as (m1 & al & [-> _]%read_inr & Hrun).
  apply bind_inr in Hrun as (m2 & nm & [-> _]%read_inr & Hrun).
  apply bind_inr in Hrun as (m3 & un & [-> _]%read_inr & Hrun).
  apply bind_inr in Hrun as (m4 & sy & [-> _]%read_inr & Hrun).
  apply bind_inr in Hrun as (m5 & [] & Hset & [-> _]%ret_inr).
  destruct (bool_decide (a ∈ ERC20Cache cl)); simpl in Hset;
    by injection Hset as <-.
Qed.

Lemma connect_erc721_cache cl a inboxManager (m m' : Machine C) t :
  connect_erc721 cl a inboxManager m = (m', inr t) ->
  ERC721Cache (hook m')
  = (if bool_decide (a ∈ ERC721Cache cl) then ERC721Cache (hook m)
     else (ERC721Cache cl ++ [a])%list) /\
  ERC20Cache (hook m') = ERC20Cache (hook m).
Proof.
  unfold connect_erc721. cbv zeta. intros Hrun.
  apply bind_inr in Hrun as (m1 & nm & [-> _]%read_inr & Hrun).
  apply bind_inr in Hrun as (m2 & sy & [-> _]%read_inr & Hrun).
  apply bind_inr in Hrun as (m3 & al & [-> _]%read_inr & Hrun).
  apply bind_inr in Hrun as (m4 & [] & Hset & [-> _]%ret_inr).
  destruct (bool_decide (a ∈ ERC721Cache cl)); simpl in Hset;
    by injection Hset as <-.
Qed.

(** The two caches after a normal return of [addToken], from any render. *)
Lemma addToken_caches cl a ty (m m' : Machine C) :
  addToken cl a ty m = (m', inr tt) ->
  match ty with
  | ERC20 =>
      ERC20Cache (hook m')
      = (if bool_decide (a ∈ ERC20Cache cl) then ERC20Cache (hook m)
         else (ERC20Cache cl ++ [a])%list) /\
      ERC721Cache (hook m') = ERC721Cache (hook m)
  | ERC721 =>
      ERC721Cache (hook m')
      = (if bool_decide (a ∈ ERC721Cache cl) then ERC721Cache (hook m)
         else (ERC721Cache cl ++ [a])%list) /\
      ERC20Cache (hook m') = ERC20Cache (hook m)
  end.
Proof.
  unfold addToken. intros Hrun.
  destruct (negb (arbProvider cl) || negb (truthy (walletAddress (config cl))));
    [done|].
  apply bind_inr in Hrun as (m1 & code & [-> _]%read_inr & Hrun).
  cbv zeta in Hrun.
  destruct (negb (2 <? String.length code)%nat); [done|].
  destruct (bool_decide (is_Some (bridgeTokens cl !! a))); [done|].
  apply bind_inr in Hrun as (m2 & inboxManager & [-> _]%read_inr & Hrun).
  apply bind_inr in Hrun as (m3 & t & Hnew & Hrun).
  apply bind_inr in Hrun as (m4 & [] & Hset & Hrefresh).
  pose proof (updateTokenBalances_caches cl (Some ty) m4) as Hfr.
  rewrite Hrefresh in Hfr. simpl in Hfr. injection Hfr as -> ->.
  unfold set_state in Hset. injection Hset as <-. simpl.
  destruct ty; [by apply connect_erc20_cache in Hnew
               | by apply connect_erc721_cache in Hnew].
Qed.

(** X15. The persisted caches after a normal return of [addToken].  The
    function reads the cache of its kind in the render it was created in:
    when that cache holds the address, the stored cache is left as it is;
    otherwise the stored cache becomes the cache of that render extended by
    the address at its end.  The cache of the other kind is left as it is.
    When the cache of the render is the stored one, the address is in the
    stored cache afterwards, and a cache without duplicates stays so. *)
Theorem addToken_caches_address cl a ty (m m' : Machine C) :
  addToken cl a ty m = (m', inr tt) ->
  match ty with
  | ERC20 =>
      ERC20Cache (hook m')
      = (if bool_decide (a ∈ ERC20Cache cl) then ERC20Cache (hook m)
         else (ERC20Cache cl ++ [a])%list) /\
      ERC721Cache (hook m') = ERC721Cache (hook m) /\
      (ERC20Cache cl = ERC20Cache (hook m) ->
       a ∈ ERC20Cache (hook m') /\
       (NoDup (ERC20Cache (hook m)) -> NoDup (ERC20Cache (hook m'))))
  | ERC721 =>
      ERC721Cache (hook m')
      = (if bool_decide (a ∈ ERC721Cache cl) then ERC721Cache (hook m)
         else (ERC721Cache cl ++ [a])%list) /\
      ERC20Cache (hook m') = ERC20Cache (hook m) /\
      (ERC721Cache cl = ERC721Cache (hook m) ->
       a ∈ ERC721Cache (hook m') /\
       (NoDup (ERC721Cache (hook m)) -> NoDup (ERC721Cache (hook m'))))
  end.
Proof.
  intros Hrun. apply addToken_caches in Hrun.
  destruct ty; destruct Hrun as [Hc Ho]; (split; [exact Hc|]);
    (split; [exact Ho|]); intros Hsame; rewrite Hc, Hsame;
    clear Hc; case_bool_decide as Hin.
  - by split.
  - split; [set_solver|].
    intros Hnd. apply NoDup_app. repeat split; [done | | apply NoDup_singleton].
    by intros x Hx ->%list_elem_of_singleton.
  - by split.
  - split; [set_solver|].
    intros Hnd. apply NoDup_app. repeat split; [done | | apply NoDup_singleton].
    by intros x Hx ->%list_elem_of_singleton.
Qed.

Lemma fire_loop_returns {A} (f : A -> M C unit) (l : list A) (m : Machine C) :
  (for_of l (fun _ x => fire (f x)) tt m).2 = inr tt.
Proof.
  revert m. induction l as [|x l IH]; intros m; [done|].
  simpl. unfold bind at 1, fire at 1. apply IH.
Qed.

(** X16. The load-only effect never throws, whatever the cache holds and
    whichever render it runs in, and it registers nothing but cached
    addresses: an address held by the registry afterwards was held before or
    is in one of the two caches of the render. *)
Theorem loadEffect_registers_cached_only b cl (m : Machine C) :
  (loadEffect b cl m).2 = inr tt /\
  forall a,
    is_Some (bridgeTokens (hook (loadEffect b cl m).1) !! a) ->
    is_Some (bridgeTokens (hook m) !! a) \/
    a ∈ ERC20Cache cl \/ a ∈ ERC721Cache cl.
Proof.
  set (P := fun m0 : Machine C =>
              forall a, is_Some (bridgeTokens (hook m0) !! a) ->
                        is_Some (bridgeTokens (hook m) !! a) \/
                        a ∈ ERC20Cache cl \/ a ∈ ERC721Cache cl).
  assert (forall x ty m0,
            x ∈ ERC20Cache cl \/ x ∈ ERC721Cache cl ->
            P m0 -> P (fire (addToken cl x ty) m0).1) as Hstep.
  { intros x ty m0 Hx H0 a. unfold fire. simpl.
    destruct (addToken_registry cl x ty m0)
      as [[_ ->] | (_ & t & -> & _)]; [apply H0|].
    rewrite lookup_insert_is_Some.
    intros [<- | [_ Ha]]; [by right | by apply H0]. }
  unfold loadEffect. destruct b; [|split; [done | by left]].
  unfold bind.
  pose proof (fire_loop_returns (fun x => addToken cl x ERC20)
                (ERC20Cache cl) m) as Hret.
  pose proof (for_of_maintains P (ERC20Cache cl)
                (fun _ address => fire (addToken cl address ERC20))
                (fun _ x m0 Hx H0 => Hstep x ERC20 m0 (or_introl Hx) H0)
                tt m (fun a Ha => or_introl Ha)) as H20.
  destruct (for_of (ERC20Cache cl) _ tt m) as [m1 [e|[]]]; [done|].
  split; [apply fire_loop_returns|].
  apply (for_of_maintains P); [|done].
  intros _ x m0 Hx H0. apply Hstep; [by right | done].
Qed.

End CacheFacts.

(** ** Refreshing the token balances *)
Section TokenRefresh.

Context {C : Type} `{Connector C}.

(** What one iteration of the refresh loop returns. *)
Lemma refresh_one_inr cl acc t (m m' : Machine C) acc' :
  refresh_one cl acc t m = (m', inr acc') ->
  m' = m /\
  match type t with
  | ERC20 =>
      exists entry, erc20_entry_of (chain m) cl t entry /\
                    acc' = (<[eth t := entry]> acc.1, acc.2)
  | ERC721 =>
      exists entry, erc721_entry_of (chain m) cl t entry /\
                    acc' = (acc.1, <[eth t := entry]> acc.2)
  end.
Proof.
  unfold refresh_one. cbv zeta. intros Hrun. destruct (type t).
  - apply bind_inr in Hrun as (m1 & b & [-> Hb]%read_inr & Hrun).
    apply bind_inr in Hrun as (m2 & ab & [-> Hab]%read_inr & Hrun).
    apply bind_inr in Hrun as (m3 & lb & [-> Hlb]%read_inr & Hrun).
    apply bind_inr in Hrun as (m4 & tb & [-> Htb]%read_inr & [-> ->]%ret_inr).
    split; [done|]. eexists. split; [|reflexivity].
    by exists b, ab, lb, tb.
  - apply bind_inr in Hrun as (m1 & b & [-> Hb]%read_inr & Hrun).
    apply bind_inr in Hrun as (m2 & ab & [-> Hab]%read_inr & Hrun).
    apply bind_inr in Hrun as (m3 & tb & [-> Htb]%read_inr & Hrun).
    apply bind_inr in Hrun as (m4 & lb & [-> Hlb]%read_inr & [-> ->]%ret_inr).
    split; [done|]. eexists. split; [|reflexivity].
    by exists b, ab, tb, lb.
Qed.

(** After the loop, every token of the list has the entry built from the
    chain, in the map of its kind. *)
Lemma refresh_loop_entries cl l :
  NoDup (eth <$> l) ->
  forall acc (m m' : Machine C) acc',
    for_of l (refresh_one cl) acc m = (m', inr acc') ->
    forall t, t ∈ l ->
      match type t with
      | ERC20 =>
          exists entry, erc20_entry_of (chain m) cl t entry /\
                        acc'.1 !! eth t = Some entry
      | ERC721 =>
          exists entry, erc721_entry_of (chain m) cl t entry /\
                        acc'.2 !! eth t = Some entry
      end.
Proof.
  induction l as [|x l IH]; intros Hnd acc m m' acc' Hrun t Ht.
  { by apply elem_of_nil in Ht. }
  rewrite fmap_cons in Hnd. apply NoDup_cons in Hnd as [Hx Hnd].
  simpl in Hrun. apply bind_inr in Hrun as (m1 & acc1 & Hone & Hrest).
  apply refresh_one_inr in Hone as [-> Hone].
  apply elem_of_cons in Ht as [-> | Ht]; [|by eapply IH].
  eapply refresh_loop_other with (a := eth x) in Hrest as [H1 H2].
  2:{ intros c Hc Heq. apply Hx. rewrite <- Heq. by apply list_elem_of_fmap_2. }
  destruct (type x); destruct Hone as (entry & Hentry & ->);
    exists entry; (split; [done|]); simpl in *.
  - by rewrite H1, lookup_insert_eq.
  - by rewrite H2, lookup_insert_eq.
Qed.

(** After the loop, a key of an update map was there before or is the
    address of a token of the list, of the kind of the map. *)
Lemma refresh_loop_keys cl l :
  forall acc (m m' : Machine C) acc',
    for_of l (refresh_one cl) acc m = (m', inr acc') ->
    forall a,
      (is_Some (acc'.1 !! a) ->
       is_Some (acc.1 !! a) \/ exists t, t ∈ l /\ eth t = a /\ type t = ERC20) /\
      (is_Some (acc'.2 !! a) ->
       is_Some (acc.2 !! a) \/ exists t, t ∈ l /\ eth t = a /\ type t = ERC721).
Proof.
  induction l as [|x l IH]; intros acc m m' acc' Hrun a.
  { apply ret_inr in Hrun as [_ ->]. split; by left. }
  simpl in Hrun. apply bind_inr in Hrun as (m1 & acc1 & Hone & Hrest).
  apply refresh_one_inr in Hone as [-> Hone].
  destruct (IH _ _ _ _ Hrest a) as [IH1 IH2].
  assert (forall t, t ∈ l -> t ∈ x :: l) as Hin by (intros; by right).
  split; intros Hsome.
  - destruct (IH1 Hsome) as [H1 | (t & Ht & Heq & Hty)];
      [|right; exists t; auto].
    destruct (type x) eqn:Hty; destruct Hone as (entry & _ & ->);
      simpl in H1; [|by left].
    apply lookup_insert_is_Some in H1 as [<- | [_ H1]]; [|by left].
    right. exists x. split; [by left | done].
  - destruct (IH2 Hsome) as [H2 | (t & Ht & Heq & Hty)];
      [|right; exists t; auto].
    destruct (type x) eqn:Hty; destruct Hone as (entry & _ & ->);
      simpl in H2; [by left|].
    apply lookup_insert_is_Some in H2 as [<- | [_ H2]]; [|by left].
    right. exists x. split; [by left | done].
Qed.

Lemma NoDup_fmap_filter {A B} (f : A -> B) (P : A -> bool) (l : list A) :
  NoDup (f <$> l) -> NoDup (f <$> List.filter P l).
Proof.
  induction l as [|x l IH]; [done|].
  rewrite fmap_cons. intros [Hx Hnd]%NoDup_cons. simpl.
  destruct (P x); [|by apply IH].
  rewrite fmap_cons. apply NoDup_cons. split; [|by apply IH].
  intros (y & Hy & Hin)%list_elem_of_fmap. apply Hx.
  apply list_elem_of_In, filter_In in Hin as [Hin _].
  apply list_elem_of_fmap. exists y. by rewrite list_elem_of_In.
Qed.

Lemma keyed_values_addresses (l : list (string * BridgeToken)) :
  (forall k t, (k, t) ∈ l -> eth t = k) -> eth <$> l.*2 = l.*1.
Proof.
  induction l as [|[k t] l IH]; intros Hl; [done|].
  rewrite !fmap_cons. simpl. f_equal.
  - apply Hl. by left.
  - apply IH. intros k' t' Hin. apply Hl. by right.
Qed.

Lemma filtered_NoDup cl ty :
  keyed_by_address cl -> NoDup (eth <$> filtered cl ty).
Proof.
  intros Hkeys. unfold filtered. apply NoDup_fmap_filter.
  rewrite keyed_values_addresses.
  - apply NoDup_fst_map_to_list.
  - intros k t Hin. apply Hkeys. by apply elem_of_map_to_list.
Qed.

Lemma filtered_elem cl ty a t :
  bridgeTokens cl !! a = Some t -> type_matches ty t = true ->
  t ∈ filtered cl ty.
Proof.
  intros Hlook Hty. unfold filtered.
  apply list_elem_of_In, filter_In. split; [|done].
  apply list_elem_of_In, list_elem_of_fmap. exists (a, t). split; [done|].
  by apply elem_of_map_to_list.
Qed.

(** A run of [updateTokenBalances] throws with the machine as it was, or
    completes its loop and publishes. *)
Lemma updateTokenBalances_run cl ty (m : Machine C) :
  (exists e, updateTokenBalances cl ty m = (m, inl e)) \/
  (arbProvider cl = true /\ truthy (walletAddress (config cl)) = true /\
   exists inboxManager updates,
     globalInboxConn (chain m) = inr inboxManager /\
     for_of (filtered cl ty) (refresh_one cl) (∅, ∅) m = (m, inr updates) /\
     updateTokenBalances cl ty m = publish_updates cl updates m).
Proof.
  remember (updateTokenBalances cl ty m) as run eqn:Hrun.
  unfold updateTokenBalances in Hrun.
  destruct (arbProvider cl), (truthy (walletAddress (config cl)));
    simpl in Hrun; try (left; by eexists).
  rewrite bind_read in Hrun.
  destruct (globalInboxConn (chain m)) as [e|inboxManager];
    [left; by eexists|].
  unfold bind at 1 in Hrun.
  pose proof (refresh_loop_pure cl (filtered cl ty) (∅, ∅) m) as Hpure.
  destruct (for_of (filtered cl ty) (refresh_one cl) (∅, ∅) m)
    as [m1 [e|updates]]; simpl in Hpure; unfold id in Hpure; subst m1;
    [left; by eexists|].
  right. split; [done|]. split; [done|].
  by exists inboxManager, updates.
Qed.

Lemma publish_updates_returns cl updates (m : Machine C) :
  (publish_updates cl updates m).2 = inr tt.
Proof.
  unfold publish_updates, bind.
  by destruct (negb (deepEquals (erc20Balances cl) updates.1)),
              (negb (deepEquals (erc721Balances cl) updates.2)).
Qed.

(** The balance maps after publication, from the current render. *)
Lemma publish_updates_current updates (m : Machine C) :
  let m' := (publish_updates (hook m) updates m).1 in
  bridgeTokens (hook m') = bridgeTokens (hook m) /\
  config (hook m') = config (hook m) /\
  arbProvider (hook m') = arbProvider (hook m) /\
  chain m' = chain m /\
  erc20Balances (hook m') = updates.1 ∪ erc20Balances (hook m) /\
  erc721Balances (hook m') = updates.2 ∪ erc721Balances (hook m).
Proof.
  unfold publish_updates, bind, deepEquals, spread.
  destruct (decide (erc20Balances (hook m) = updates.1)) as [E1|N1],
    (decide (erc721Balances (hook m) = updates.2)) as [E2|N2];
    rewrite ?(bool_decide_eq_true_2 _ E1), ?(bool_decide_eq_true_2 _ E2),
      ?(bool_decide_eq_false_2 _ N1), ?(bool_decide_eq_false_2 _ N2);
    simpl; repeat split; try done;
    try (rewrite <- E1; symmetry; apply (idemp_L (∪)));
    try (rewrite <- E2; symmetry; apply (idemp_L (∪))).
Qed.

(** X17. When a refresh of the token balances, called from the current
    render with a registry keyed by address, returns normally, every
    registered token that passes the kind filter has its entry in the map of
    its kind, made of the four values read from the chain for it (and, for
    ERC20, its symbol). *)
Theorem updateTokenBalances_publishes_reads ty a t (m m' : Machine C) :
  keyed_by_address (hook m) ->
  updateTokenBalances (hook m) ty m = (m', inr tt) ->
  bridgeTokens (hook m) !! a = Some t ->
  ty = None \/ ty = Some (type t) ->
  match type t with
  | ERC20 =>
      exists entry, erc20_entry_of (chain m) (hook m) t entry /\
                    erc20Balances (hook m') !! a = Some entry
  | ERC721 =>
      exists entry, erc721_entry_of (chain m) (hook m) t entry /\
                    erc721Balances (hook m') !! a = Some entry
  end.
Proof.
  intros Hkeys Hrun Hlook Hty.
  destruct (updateTokenBalances_run (hook m) ty m)
    as [(e & He) | (_ & _ & i & updates & _ & Hloop & Hpub)];
    [congruence|].
  rewrite Hpub in Hrun.
  destruct (publish_updates_current updates m) as (_ & _ & _ & _ & H20 & H721).
  rewrite Hrun in H20, H721. simpl in H20, H721.
  assert (type_matches ty t = true) as Hmatch.
  { destruct Hty as [-> | ->]; [done|]. simpl. by apply bool_decide_eq_true_2. }
  pose proof (refresh_loop_entries (hook m) _ (filtered_NoDup _ ty Hkeys)
                _ _ _ _ Hloop t (filtered_elem _ _ _ _ Hlook Hmatch)) as Hent.
  rewrite (Hkeys a t Hlook) in Hent.
  destruct (type t); destruct Hent as (entry & Hentry & Hup);
    exists entry; (split; [done|]).
  - rewrite H20. by apply lookup_union_Some_l.
  - rewrite H721. by apply lookup_union_Some_l.
Qed.

End TokenRefresh.

(** ** A token refresh settles *)
Section TokenSettle.

Context {C : Type} `{Connector C}.

(** The loop reads the chain and the identity of its render, nothing else. *)
Lemma refresh_one_transfer cl1 cl2 acc t (m1 m2 : Machine C) :
  config cl1 = config cl2 -> chain m1 = chain m2 ->
  refresh_one cl2 acc t m2 = (m2, (refresh_one cl1 acc t m1).2).
Proof.
  intros Hc Hch. unfold refresh_one. cbv zeta. rewrite Hc.
  destruct (type t);
    repeat (rewrite !bind_read, ?Hch; case_match; simpl; try done).
Qed.

Lemma refresh_loop_transfer cl1 cl2 l acc (m1 m2 : Machine C) :
  config cl1 = config cl2 -> chain m1 = chain m2 ->
  for_of l (refresh_one cl2) acc m2
  = (m2, (for_of l (refresh_one cl1) acc m1).2).
Proof.
  intros Hc Hch. revert acc. induction l as [|x l IH]; intros acc; [done|].
  simpl. unfold bind.
  rewrite (refresh_one_transfer cl1 cl2 acc x m1 m2 Hc Hch).
  pose proof (refresh_one_pure cl1 acc x m1) as Hpure.
  destruct (refresh_one cl1 acc x m1) as [m1' [e|acc1]];
    simpl in *; unfold id in Hpure; subst m1'; [done|].
  apply IH.
Qed.

(** X18. A refresh of all token balances settles: from a render whose
    registry is keyed by address and whose balance entries all belong to
    registered tokens, after a normal return a second refresh from the next
    render returns normally, calls no setter and leaves the machine as it
    is. *)
Theorem updateTokenBalances_settles (m m' : Machine C) :
  keyed_by_address (hook m) ->
  entries_registered (hook m) ->
  updateTokenBalances (hook m) None m = (m', inr tt) ->
  updateTokenBalances (hook m') None m' = (m', inr tt).
Proof.
  intros Hkeys [Hreg20 Hreg721] Hrun.
  destruct (updateTokenBalances_run (hook m) None m)
    as [(e & He) | (Hp & Hw & i & updates & Hi & Hloop & Hpub)];
    [congruence|].
  rewrite Hpub in Hrun.
  destruct (publish_updates_current updates m)
    as (Hbt & Hcfg & Hprov & Hchain & H20 & H721).
  rewrite Hrun in Hbt, Hcfg, Hprov, Hchain, H20, H721. simpl in *.
  pose proof (refresh_loop_entries (hook m) _ (filtered_NoDup _ None Hkeys)
                _ _ _ _ Hloop) as Hent.
  assert (erc20Balances (hook m') = updates.1) as E20.
  { rewrite H20. apply map_eq. intros a. rewrite lookup_union.
    destruct (updates.1 !! a) as [entry|] eqn:Hup;
      [by destruct (erc20Balances (hook m) !! a)|].
    destruct (erc20Balances (hook m) !! a) as [old|] eqn:Hold; [|done].
    destruct (Hreg20 a) as (t & Hlook & Hty); [by rewrite Hold|].
    specialize (Hent t (filtered_elem _ None _ _ Hlook eq_refl)).
    rewrite Hty, (Hkeys a t Hlook) in Hent.
    destruct Hent as (entry & _ & Hsome). congruence. }
  assert (erc721Balances (hook m') = updates.2) as E721.
  { rewrite H721. apply map_eq. intros a. rewrite lookup_union.
    destruct (updates.2 !! a) as [entry|] eqn:Hup;
      [by destruct (erc721Balances (hook m) !! a)|].
    destruct (erc721Balances (hook m) !! a) as [old|] eqn:Hold; [|done].
    destruct (Hreg721 a) as (t & Hlook & Hty); [by rewrite Hold|].
    specialize (Hent t (filtered_elem _ None _ _ Hlook eq_refl)).
    rewrite Hty, (Hkeys a t Hlook) in Hent.
    destruct Hent as (entry & _ & Hsome). congruence. }
  assert (for_of (filtered (hook m') None) (refresh_one (hook m')) (∅, ∅) m'
          = (m', inr updates)) as Hloop'.
  { unfold filtered. rewrite Hbt.
    rewrite (refresh_loop_transfer (hook m) (hook m') _ _ m m')
      by (symmetry; done).
    fold (filtered (hook m) None). by rewrite Hloop. }
  unfold updateTokenBalances. rewrite Hprov, Hcfg, Hp, Hw. simpl.
  rewrite bind_read, Hchain, Hi. unfold bind at 1. rewrite Hloop'.
  cbv zeta. unfold deepEquals, bind.
  by rewrite !bool_decide_eq_true_2.
Qed.

End TokenSettle.

(** ** Balance entries belong to registered tokens *)
Section EntriesRegistered.

Context {C : Type} `{Connector C}.

Lemma tracks_cells cl h h' :
  tracked_cells h' = tracked_cells h -> tracks cl h -> tracks cl h'.
Proof. unfold tracks, tracked_cells. by intros [= -> -> ->]. Qed.

Lemma updateTokenBalances_tracks cl ty (m : Machine C) :
  keyed_by_address cl ->
  tracks cl (hook m) -> tracks cl (hook (updateTokenBalances cl ty m).1).
Proof.
  intros Hkeys (HA & HB & HC).
  destruct (updateTokenBalances_run cl ty m)
    as [(e & ->) | (_ & _ & i & updates & _ & Hloop & ->)]; [done|].
  pose proof (refresh_loop_keys cl _ _ _ _ _ Hloop) as Hk.
  assert (forall a, is_Some (updates.1 !! a) ->
            exists t, bridgeTokens cl !! a = Some t /\ type t = ERC20) as H20.
  { intros a Ha. destruct (proj1 (Hk a) Ha) as [Hno | (t & Ht & <- & Hty)].
    - simpl in Hno. rewrite lookup_empty in Hno. by destruct Hno.
    - apply filtered_registered in Ht as (k & Hlook).
      exists t. by rewrite (Hkeys k t Hlook). }
  assert (forall a, is_Some (updates.2 !! a) ->
            exists t, bridgeTokens cl !! a = Some t /\ type t = ERC721) as H721.
  { intros a Ha. destruct (proj2 (Hk a) Ha) as [Hno | (t & Ht & <- & Hty)].
    - simpl in Hno. rewrite lookup_empty in Hno. by destruct Hno.
    - apply filtered_registered in Ht as (k & Hlook).
      exists t. by rewrite (Hkeys k t Hlook). }
  unfold publish_updates, bind, spread.
  destruct (negb (deepEquals (erc20Balances cl) updates.1)),
           (negb (deepEquals (erc721Balances cl) updates.2)); simpl;
    (split; [done|]); split; intros a Ha;
    try (apply lookup_union_is_Some in Ha as [Ha | Ha]); auto.
Qed.

Lemma connect_erc20_cells cl a inboxManager :
  preserves (fun m : Machine C => tracked_cells (hook m))
    (connect_erc20 cl a inboxManager).
Proof. unfold connect_erc20. frame. Qed.

Lemma connect_erc721_cells cl a inboxManager :
  preserves (fun m : Machine C => tracked_cells (hook m))
    (connect_erc721 cl a inboxManager).
Proof. unfold connect_erc721. frame. Qed.

Lemma addToken_tracks cl a ty (m : Machine C) :
  keyed_by_address cl ->
  tracks cl (hook m) -> tracks cl (hook (addToken cl a ty m).1).
Proof.
  intros Hkeys Htr. unfold addToken.
  destruct (negb (arbProvider cl) || negb (truthy (walletAddress (config cl))));
    [done|].
  rewrite bind_read. destruct (getCode (chain m) a) as [e|code]; [done|].
  cbv zeta. destruct (negb (2 <? String.length code)%nat); [done|].
  destruct (bool_decide (is_Some (bridgeTokens cl !! a))) eqn:Hpresent; [done|].
  apply bool_decide_eq_false, eq_None_not_Some in Hpresent.
  rewrite bind_read.
  destruct (globalInboxConn (chain m)) as [e|inboxManager]; [done|].
  unfold bind at 1.
  assert (tracked_cells
            (hook (match ty with
                   | ERC20 => connect_erc20 cl a inboxManager
                   | ERC721 => connect_erc721 cl a inboxManager
                   end m).1) = tracked_cells (hook m)) as Hcells.
  { destruct ty; [apply connect_erc20_cells | apply connect_erc721_cells]. }
  destruct (match ty with
            | ERC20 => connect_erc20 cl a inboxManager
            | ERC721 => connect_erc721 cl a inboxManager
            end m) as [m1 [e|t]]; simpl in Hcells.
  { by apply (tracks_cells cl (hook m)). }
  unfold bind, set_state. apply updateTokenBalances_tracks; [done|].
  apply (tracks_cells cl (hook m)) in Hcells; [|done].
  destruct Hcells as (HA & HB & HC). unfold tracks. simpl.
  split; [|by split]. intros a' t' Hlook.
  rewrite lookup_insert_ne by (intros ->; congruence). by apply HA.
Qed.

Lemma eth_calls_cells cl v :
  preserves (fun m : Machine C => tracked_cells (hook m)) (depositEth cl v) /\
  preserves (fun m : Machine C => tracked_cells (hook m)) (withdrawEth cl v) /\
  preserves (fun m : Machine C => tracked_cells (hook m)) (withdrawLockboxETH cl) /\
  preserves (fun m : Machine C => tracked_cells (hook m)) (updateEthBalances cl).
Proof.
  repeat split;
    unfold depositEth, withdrawEth, withdrawLockboxETH, updateEthBalances;
    frame.
Qed.

(** Every call from a render with a keyed registry keeps what it tracks. *)
Lemma call_from_tracks cl (c : Call) (m : Machine C) :
  keyed_by_address cl ->
  tracks cl (hook m) -> tracks cl (hook (call_from cl c m).1).
Proof.
  intros Hkeys Htr.
  destruct (eth_calls_cells cl "") as (_ & _ & Hlock & Hupd).
  destruct c; unfold call_from.
  - destruct (eth_calls_cells cl ethValue) as (Hd & _).
    by apply (tracks_cells cl (hook m)); [apply Hd|].
  - destruct (eth_calls_cells cl ethValue) as (_ & Hw & _).
    by apply (tracks_cells cl (hook m)); [apply Hw|].
  - by apply (tracks_cells cl (hook m)); [apply Hlock|].
  - by apply (tracks_cells cl (hook m)); [apply Hupd|].
  - by apply addToken_tracks.
  - rewrite void_machine.
    destruct (approveToken_hook cl contractAddress m)
      as [[_ ->] | (target & r & Hcur & _ & ->)]; [done|].
    destruct Htr as (HA & HB & HC). unfold tracks. simpl.
    split; [|by split]. intros a t Hlook. destruct (HA a t Hlook) as (t' & Ht' & Hty).
    destruct (decide (contractAddress = a)) as [->|Hne].
    + rewrite lookup_insert_eq. exists (set_allowed target).
      split; [done|]. simpl. congruence.
    + rewrite lookup_insert_ne by done. by exists t'.
  - by rewrite void_machine, (depositToken_hook cl _ _ m).
  - by rewrite void_machine, (withdrawToken_hook cl _ _ m).
  - by rewrite void_machine, (withdrawLockboxToken_hook cl _ _ m).
  - by apply updateTokenBalances_tracks.
  - unfold updateAllBalances.
    pose proof (Hupd m) as Hcells.
    destruct (updateEthBalances cl m) as [m1 r1]. simpl in Hcells.
    pose proof (updateTokenBalances_tracks cl None m1 Hkeys
                  (tracks_cells cl _ _ Hcells Htr)) as Htok.
    by destruct (updateTokenBalances cl None m1) as [m2 r2].
  - done.
  - unfold loadEffect. destruct autoLoadCache; [|done].
    unfold bind.
    pose proof (for_of_maintains (fun m0 => tracks cl (hook m0))
                  (ERC20Cache cl)
                  (fun _ address => fire (addToken cl address ERC20))
                  (fun _ x m0 _ H0 => addToken_tracks cl x ERC20 m0 Hkeys H0)
                  tt m Htr) as H20.
    destruct (for_of (ERC20Cache cl) _ tt m) as [m1 [e|[]]]; [done|].
    apply (for_of_maintains (fun m0 => tracks cl (hook m0))); [|done].
    intros _ x m0 _ H0. by apply addToken_tracks.
Qed.

(** X19. Balance entries belong to registered tokens of their kind: if the
    registry is keyed by address and every entry of the ERC20 map sits at
    the address of a registered ERC20 token, and likewise for ERC721, then
    the same holds after any call made from the current render. *)
Theorem entries_stay_registered (c : Call) (m : Machine C) :
  keyed_by_address (hook m) ->
  entries_registered (hook m) ->
  entries_registered (hook (invoke c m).1).
Proof.
  intros Hkeys [H20 H721].
  assert (tracks (hook m) (hook m)) as Htr.
  { split; [|by split]. intros a t Hlook. by exists t. }
  destruct (call_from_tracks (hook m) c m Hkeys Htr) as (HA & HB & HC).
  unfold invoke. split; intros a Ha.
  - destruct (HB a Ha) as (t & Hlook & Hty).
    destruct (HA a t Hlook) as (t' & Hlook' & Hty').
    exists t'. split; [done | congruence].
  - destruct (HC a Ha) as (t & Hlook & Hty).
    destruct (HA a t Hlook) as (t' & Hlook' & Hty').
    exists t'. split; [done | congruence].
Qed.

End EntriesRegistered.

(** ** Setter calls of a refresh, and the contract test of addToken *)
Section Remaining.

Context {C : Type} `{Connector C}.

(** X20. One refresh notifies at most once per cell: a run of
    [updateEthBalances] calls [setEthBalances] at most once and nothing
    else; a run of [updateTokenBalances] calls each of [setErc20Balances]
    and [setErc721Balances] at most once and nothing else. *)
Theorem refresh_sets_each_cell_at_most_once cl ty (m : Machine C) :
  (published (updateEthBalances cl m).1 = published m \/
   published (updateEthBalances cl m).1 = setEthBalances :: published m) /\
  exists calls,
    published (updateTokenBalances cl ty m).1 = (calls ++ published m)%list /\
    (calls = [] \/ calls = [setErc20Balances] \/ calls = [setErc721Balances]
     \/ calls = [setErc721Balances; setErc20Balances]).
Proof.
  split; [apply updateEthBalances_published
         | apply updateTokenBalances_published].
Qed.

(** X21. [addToken] tests the code at the address before it looks at the
    registry: with provider and wallet address present, an address whose
    code has at most two characters (the empty code ["0x"]) is rejected with
    ['address is not a contract'], registered or not, and a failing
    [getCode] is thrown as it is; in both cases the machine is as it was. *)
Theorem addToken_rejects_non_contract cl a ty (m : Machine C) :
  arbProvider cl = true ->
  truthy (walletAddress (config cl)) = true ->
  (forall code, getCode (chain m) a = inr code ->
                (String.length code <= 2)%nat ->
                addToken cl a ty m = (m, inl (Error "address is not a contract"))) /\
  (forall e, getCode (chain m) a = inl e -> addToken cl a ty m = (m, inl e)).
Proof.
  intros Hp Hw. unfold addToken. rewrite Hp, Hw. simpl.
  split.
  - intros code Hcode Hlen. rewrite bind_read, Hcode. cbv zeta.
    by rewrite (proj2 (Nat.ltb_ge 2 (String.length code)) Hlen).
  - intros e Hcode. by rewrite bind_read, Hcode.
Qed.

End Remaining.

(** ** Runs on the ledger doubles for the further properties *)

(** The registry of [tracking_token] is keyed by address, and it has no
    balance entry yet. *)
Lemma tracking_token_keyed : keyed_by_address (hook tracking_token).
Proof.
  change (map_Forall (fun k t => eth t = k) (bridgeTokens (hook tracking_token))).
  apply (bool_decide_unpack _). vm_compute. exact I.
Defined.

Lemma tracking_token_entries : entries_registered (hook tracking_token).
Proof.
  assert (erc20Balances (hook tracking_token) = ∅) as E20
    by (vm_compute; reflexivity).
  assert (erc721Balances (hook tracking_token) = ∅) as E721
    by (vm_compute; reflexivity).
  split; intros a; rewrite ?E20, ?E721, lookup_empty; by intros [? ?].
Defined.

(** Approving on the chain that rejects submissions. *)
Lemma approveToken_failure_changes_nothing_witness :
  (approveToken (hook rejecting) "0xT" rejecting).2
  = inl (Error "submission rejected") /\
  hook (approveToken (hook rejecting) "0xT" rejecting).1 = hook rejecting.
Proof.
  assert ((approveToken (hook rejecting) "0xT" rejecting).2
          = inl (Error "submission rejected")) as He
    by (vm_compute; reflexivity).
  split; [exact He|].
  exact (proj2 (approveToken_failure_changes_nothing (hook rejecting) "0xT")
           rejecting _ He).
Defined.

(** Approving the registered ERC20 token. *)
Lemma approveToken_submits_approval_witness :
  let run := approveToken (hook tracking_token) "0xT" tracking_token in
  run.2 = inr {| transactionHash := "0xhash"; status := 1 |} /\
  exists p target,
    trace run.1
    = [Waited p (inr {| transactionHash := "0xhash"; status := 1 |});
       Submitted (Approve "0xT" "0xInbox" MaxUint256) (inr p)] /\
    bridgeTokens (hook run.1)
    = <["0xT" := set_allowed target]> (bridgeTokens (hook tracking_token)).
Proof.
  intros run.
  assert (run = (run.1, inr {| transactionHash := "0xhash"; status := 1 |}))
    as Hrun by (vm_compute; reflexivity).
  split; [by rewrite Hrun|].
  destruct (approveToken_submits_approval _ _ _ _ _ Hrun)
    as (t & i & p & target & Ht & Hi & Htr & _ & Hbt).
  vm_compute in Ht. injection Ht as <-.
  vm_compute in Hi. injection Hi as <-.
  by exists p, target.
Defined.

(** Depositing into a token that was never registered. *)
Lemma unregistered_token_calls_throw_witness :
  let m := Double.start (Double.ledger false false) Double.resolved in
  inherited_key "0xT" = false /\
  bridgeTokens Double.resolved !! "0xT" = None /\
  depositToken Double.resolved "0xT" "1" m
  = (m, inl (Error "contract not present")).
Proof.
  intros m. split; [reflexivity|]. split; [reflexivity|].
  destruct (unregistered_token_calls_throw Double.resolved "0xT" "1" None m
              eq_refl eq_refl)
    as (e1 & e2 & e3 & e4 & _ & -> & _ & _ & He).
  by destruct (He eq_refl eq_refl) as (_ & -> & _).
Defined.

(** Depositing one unit of the registered ERC20 token, at 18 decimals. *)
Lemma token_transitions_submit_witness :
  let run := depositToken (hook tracking_token) "0xT" "1" tracking_token in
  run.2 = inr {| transactionHash := "0xhash"; status := 1 |} /\
  exists p,
    trace run.1
    = [Waited p (inr {| transactionHash := "0xhash"; status := 1 |});
       Submitted (DepositERC20 "0xWallet" "0xT" (10 ^ 18)) (inr p)].
Proof.
  intros run.
  assert (run = (run.1, inr {| transactionHash := "0xhash"; status := 1 |}))
    as Hrun by (vm_compute; reflexivity).
  split; [by rewrite Hrun|].
  destruct (token_transitions_submit (hook tracking_token) "0xT"
              {| type := ERC20; name := "name of 0xT"; symbol := "sym of 0xT";
                 allowed := true; arb := "0xT"; eth := "0xT";
                 units := Some 18%Z |}
              tracking_token run.1
              {| transactionHash := "0xhash"; status := 1 |}
              ltac:(vm_compute; reflexivity))
    as (Hdeposit & _ & _).
  destruct (Hdeposit "1" Hrun) as (p & tx & Htr & amount & Hparse & ->).
  vm_compute in Hparse. injection Hparse as <-.
  exists p. exact Htr.
Defined.

(** Registering ["0xT"] in an empty registry. *)
Lemma addToken_registers_atomically_witness :
  let m := Double.start (Double.ledger false false) Double.resolved in
  (addToken Double.resolved "0xT" ERC20 m).2 = inr tt /\
  bridgeTokens (hook (addToken Double.resolved "0xT" ERC20 m).1)
  = <["0xT" := {| type := ERC20; name := "name of 0xT";
                  symbol := "sym of 0xT"; allowed := true; arb := "0xT";
                  eth := "0xT"; units := Some 18%Z |}]> (bridgeTokens (hook m)).
Proof.
  intros m.
  assert ((addToken Double.resolved "0xT" ERC20 m).2 = inr tt) as Hret
    by (vm_compute; reflexivity).
  split; [exact Hret|].
  destruct (proj2 (addToken_registers_atomically Double.resolved "0xT" ERC20 m)
              Hret) as (_ & t & -> & Hreg & _).
  destruct Hreg as (i & Hi & al & nm & un & sy & Hal & Hnm & Hun & Hsy & ->).
  vm_compute in Hal, Hnm, Hun, Hsy.
  injection Hal as <-. injection Hnm as <-. injection Hun as <-.
  injection Hsy as <-. reflexivity.
Defined.

(** Registering a second token keeps the registry keyed. *)
Lemma registry_stays_keyed_witness :
  keyed_by_address (hook tracking_token) /\
  keyed_by_address (hook (invoke (token_add "0xU" ERC721) tracking_token).1).
Proof.
  split; [exact tracking_token_keyed|].
  exact (registry_stays_keyed (hook tracking_token) (token_add "0xU" ERC721)
           tracking_token tracking_token_keyed).
Defined.

(** Expiring the cache does not unregister ["0xT"]. *)
Lemma registered_stays_registered_witness :
  is_Some (bridgeTokens (hook tracking_token) !! "0xT") /\
  ERC20Cache (hook (invoke cache_expire tracking_token).1) = [] /\
  is_Some (bridgeTokens (hook (invoke cache_expire tracking_token).1) !! "0xT").
Proof.
  assert (is_Some (bridgeTokens (hook tracking_token) !! "0xT")) as Hin.
  { vm_compute. by eexists. }
  split; [exact Hin|]. split; [reflexivity|].
  exact (registered_stays_registered (hook tracking_token) cache_expire
           tracking_token "0xT" Hin).
Defined.

(** Registering ["0xT"] puts it in the ERC20 cache; registering ["0xV"]
    after the cache was expired, through the function of a render whose
    cache holds ["0xV"], leaves the stored cache empty. *)
Lemma addToken_caches_address_witness :
  let m := Double.start (Double.ledger false false) Double.resolved in
  let m' := (addToken Double.resolved "0xT" ERC20 m).1 in
  let cl := with_ERC20Cache ["0xV"] Double.resolved in
  let n := Double.start (Double.ledger false false) Double.resolved in
  let n' := (addToken cl "0xV" ERC20 n).1 in
  (addToken Double.resolved "0xT" ERC20 m = (m', inr tt) /\
   ERC20Cache (hook m') = ["0xT"] /\ ERC721Cache (hook m') = []) /\
  (addToken cl "0xV" ERC20 n = (n', inr tt) /\
   is_Some (bridgeTokens (hook n') !! "0xV") /\
   ERC20Cache (hook n') = []).
Proof.
  intros m m' cl n n'.
  assert (addToken Double.resolved "0xT" ERC20 m = (m', inr tt)) as Hrun
    by (vm_compute; reflexivity).
  assert (addToken cl "0xV" ERC20 n = (n', inr tt)) as Hrun'
    by (vm_compute; reflexivity).
  split.
  - split; [exact Hrun|].
    destruct (addToken_caches_address Double.resolved "0xT" ERC20 m m' Hrun)
      as (Hc & Ho & _).
    split; [exact Hc | exact Ho].
  - split; [exact Hrun'|].
    split; [vm_compute; by eexists|].
    exact (proj1 (addToken_caches_address cl "0xV" ERC20 n n' Hrun')).
Defined.

(** Restoring a cache with a bad entry, from a render with resolved
    identity. *)
Lemma loadEffect_registers_cached_only_witness :
  let cl := with_ERC20Cache ["0xT"; "0xbad"; "0xV"] Double.resolved in
  let m := Double.start (Double.ledger false false) cl in
  (loadEffect true cl m).2 = inr tt /\
  is_Some (bridgeTokens (hook (loadEffect true cl m).1) !! "0xV") /\
  (is_Some (bridgeTokens (hook m) !! "0xV") \/
   "0xV" ∈ ERC20Cache cl \/ "0xV" ∈ ERC721Cache cl).
Proof.
  intros cl m.
  destruct (loadEffect_registers_cached_only true cl m) as [Hret Hdom].
  split; [exact Hret|].
  assert (is_Some (bridgeTokens (hook (loadEffect true cl m).1) !! "0xV"))
    as Hin by (vm_compute; by eexists).
  split; [exact Hin | exact (Hdom "0xV" Hin)].
Defined.

(** A full refresh after registering ["0xT"] publishes its entry. *)
Lemma updateTokenBalances_publishes_reads_witness :
  let m := tracking_token in
  let m' := (updateTokenBalances (hook m) None m).1 in
  updateTokenBalances (hook m) None m = (m', inr tt) /\
  exists entry,
    erc20_entry_of (chain m) (hook m)
      {| type := ERC20; name := "name of 0xT"; symbol := "sym of 0xT";
         allowed := true; arb := "0xT"; eth := "0xT"; units := Some 18%Z |}
      entry /\
    erc20Balances (hook m') !! "0xT" = Some entry.
Proof.
  intros m m'.
  assert (updateTokenBalances (hook m) None m = (m', inr tt)) as Hrun
    by (vm_compute; reflexivity).
  split; [exact Hrun|].
  exact (updateTokenBalances_publishes_reads None "0xT"
           {| type := ERC20; name := "name of 0xT"; symbol := "sym of 0xT";
              allowed := true; arb := "0xT"; eth := "0xT"; units := Some 18%Z |}
           m m' tracking_token_keyed Hrun
           ltac:(vm_compute; reflexivity) (or_introl eq_refl)).
Defined.

(** The refresh after that one publishes nothing. *)
Lemma updateTokenBalances_settles_witness :
  let m := tracking_token in
  let m' := (updateTokenBalances (hook m) None m).1 in
  published m' = setErc20Balances :: published m /\
  updateTokenBalances (hook m') None m' = (m', inr tt).
Proof.
  intros m m'. split; [vm_compute; reflexivity|].
  apply (updateTokenBalances_settles m m' tracking_token_keyed
           tracking_token_entries).
  vm_compute. reflexivity.
Defined.

(** After the refresh started by the balance effect, the new entry belongs to
    the registered token. *)
Lemma entries_stay_registered_witness :
  is_Some (erc20Balances (hook (invoke balances_update tracking_token).1)
           !! "0xT") /\
  entries_registered (hook (invoke balances_update tracking_token).1).
Proof.
  split; [vm_compute; by eexists|].
  exact (entries_stay_registered balances_update tracking_token
           tracking_token_keyed tracking_token_entries).
Defined.

(** ["0xbad"] carries the empty code on the first double. *)
Lemma addToken_rejects_non_contract_witness :
  let m := Double.start (Double.ledger false false) Double.resolved in
  addToken Double.resolved "0xbad" ERC20 m
  = (m, inl (Error "address is not a contract")).
Proof.
  intros m.
  apply (proj1 (addToken_rejects_non_contract Double.resolved "0xbad" ERC20 m
                  eq_refl eq_refl) "0x"); [reflexivity | vm_compute; lia].
Defined.

(** ** Calls through the function of an older render *)

(** C4. A second [addToken] on a registered address, made through the
    function that made the first one.  ["0xT"] is registered as ERC20 from
    the render [Double.resolved], which holds nothing; the registry then
    holds ["0xT"].  The same function called again on ["0xT"] returns
    normally instead of throwing ['contract is present'], both for the same
    kind and for the other one; in the second case the record of ["0xT"] is
    replaced by an ERC721 record, so the registry is not what it was, and
    the ERC721 cache, empty before, now holds ["0xT"]. *)
Theorem addToken_twice_through_one_function :
  (addToken Double.resolved "0xT" ERC20
     (Double.start (Double.ledger false false) Double.resolved)).2 = inr tt /\
  type <$> bridgeTokens (hook first_add) !! "0xT" = Some ERC20 /\
  (ERC20Cache (hook first_add), ERC721Cache (hook first_add)) = (["0xT"], []) /\
  (second_add ERC20).2 = inr tt /\
  (second_add ERC721).2 = inr tt /\
  type <$> bridgeTokens (hook (second_add ERC721).1) !! "0xT" = Some ERC721 /\
  bridgeTokens (hook (second_add ERC721).1) <> bridgeTokens (hook first_add) /\
  (ERC20Cache (hook (second_add ERC721).1),
   ERC721Cache (hook (second_add ERC721).1)) = (["0xT"], ["0xT"]).
Proof.
  repeat (split; [vm_compute; reflexivity|]).
  split; [|vm_compute; reflexivity].
  intros Heq.
  assert (type <$> bridgeTokens (hook (second_add ERC721).1) !! "0xT"
          = Some ERC20) as Hty by (rewrite Heq; vm_compute; reflexivity).
  vm_compute in Hty. discriminate Hty.
Qed.

(** C5. An allowed record set back to not allowed.  On the allowance double
    ["0xT"] is registered with nothing granted: not allowed.  The approve of
    the next render sets it allowed, and a deposit of one unit, which spends
    from the allowance, leaves it allowed.  Then [addToken] on ["0xT"],
    called through the function of the first render, returns normally,
    submits nothing, and the record of ["0xT"] is not allowed any more. *)
Theorem addToken_of_older_render_resets_allowed :
  allowed <$> bridgeTokens (hook spender_added) !! "0xT" = Some false /\
  allowed <$> bridgeTokens (hook spender_approved) !! "0xT" = Some true /\
  allowed <$> bridgeTokens (hook spender_deposited) !! "0xT" = Some true /\
  Spender.granted (chain spender_deposited) = (MaxUint256 - 10 ^ 18)%Z /\
  spender_added_again.2 = inr tt /\
  trace spender_added_again.1 = trace spender_deposited /\
  allowed <$> bridgeTokens (hook spender_added_again.1) !! "0xT" = Some false.
Proof. repeat split; vm_compute; reflexivity. Qed.

(** Registration on the allowance double, nothing registered before: an
    ERC20 token with the allowance at [MaxUint256] is allowed at once, with
    one unit less it is not; an ERC721 token is allowed exactly when the
    operator approval is set. *)
Lemma addToken_registers_observed_approval_witness :
  ((spender_register MaxUint256 false ERC20).2 = inr tt /\
   bridgeTokens (hook (spender_register MaxUint256 false ERC20).1) !! "0xT"
   = Some {| type := ERC20; name := "Token"; symbol := "TKN"; allowed := true;
             arb := "0xT"; eth := "0xT"; units := Some 18%Z |}) /\
  ((spender_register (MaxUint256 - 1) false ERC20).2 = inr tt /\
   bridgeTokens (hook (spender_register (MaxUint256 - 1) false ERC20).1) !! "0xT"
   = Some {| type := ERC20; name := "Token"; symbol := "TKN"; allowed := false;
             arb := "0xT"; eth := "0xT"; units := Some 18%Z |}) /\
  ((spender_register 0 true ERC721).2 = inr tt /\
   bridgeTokens (hook (spender_register 0 true ERC721).1) !! "0xT"
   = Some {| type := ERC721; name := "Collectible"; symbol := "NFT";
             allowed := true; arb := "0xT"; eth := "0xT"; units := None |}) /\
  ((spender_register 0 false ERC721).2 = inr tt /\
   bridgeTokens (hook (spender_register 0 false ERC721).1) !! "0xT"
   = Some {| type := ERC721; name := "Collectible"; symbol := "NFT";
             allowed := false; arb := "0xT"; eth := "0xT"; units := None |}).
Proof.
  assert (forall g o,
            registered_from (H := Spender.connector)
              {| Spender.granted := g; Spender.operator := o |}
              Double.resolved "0xT" ERC20
              {| type := ERC20; name := "Token"; symbol := "TKN";
                 allowed := (MIN_APPROVAL <=? g)%Z;
                 arb := "0xT"; eth := "0xT"; units := Some 18%Z |}) as H20.
  { intros g o. exists "0xInbox". split; [reflexivity|].
    exists g, "Token", 18%Z, "TKN". repeat split; reflexivity. }
  assert (forall g o,
            registered_from (H := Spender.connector)
              {| Spender.granted := g; Spender.operator := o |}
              Double.resolved "0xT" ERC721
              {| type := ERC721; name := "Collectible"; symbol := "NFT";
                 allowed := o; arb := "0xT"; eth := "0xT"; units := None |})
    as H721.
  { intros g o. exists "0xInbox". split; [reflexivity|].
    exists "Collectible", "NFT", o. repeat split; reflexivity. }
  assert (2 < String.length "0x6080")%nat as Hlen by (vm_compute; lia).
  split; [|split; [|split]]; (split; [vm_compute; reflexivity|]).
  - exact (proj1 (proj2 (addToken_registers_observed_approval
             (H := Spender.connector) Double.resolved "0xT" ERC20
             (Spender.start {| Spender.granted := MaxUint256;
                               Spender.operator := false |} Double.resolved))
             "0x6080" _ eq_refl eq_refl eq_refl Hlen eq_refl
             (H20 MaxUint256 false))).
  - exact (proj1 (proj2 (addToken_registers_observed_approval
             (H := Spender.connector) Double.resolved "0xT" ERC20
             (Spender.start {| Spender.granted := MaxUint256 - 1;
                               Spender.operator := false |} Double.resolved))
             "0x6080" _ eq_refl eq_refl eq_refl Hlen eq_refl
             (H20 (MaxUint256 - 1)%Z false))).
  - exact (proj1 (proj2 (addToken_registers_observed_approval
             (H := Spender.connector) Double.resolved "0xT" ERC721
             (Spender.start {| Spender.granted := 0;
                               Spender.operator := true |} Double.resolved))
             "0x6080" _ eq_refl eq_refl eq_refl Hlen eq_refl
             (H721 0%Z true))).
  - exact (proj1 (proj2 (addToken_registers_observed_approval
             (H := Spender.connector) Double.resolved "0xT" ERC721
             (Spender.start {| Spender.granted := 0;
                               Spender.operator := false |} Double.resolved))
             "0x6080" _ eq_refl eq_refl eq_refl Hlen eq_refl
             (H721 0%Z false))).
Defined.
